(** * Leadership Engine: query-intent resolution and result aggregation

    A shallow embedding of [backend/intelligent_ai_engine.py] (class
    [IntelligentAIEngine]) and of [JiraClient.search] from
    [backend/jira_client.py].

    Conventions of the embedding.
    - Python [str] is [string]; the text handled is ASCII ([str.lower], the
      regular expression classes and [in] are modelled on ASCII characters).
    - Counts, offsets and lengths are [nat].  The one [float] of the code,
      the percentage of a comparison, has the arithmetic of [Binary64].
    - A JSON object is a record whose fields are optional: [None] is an absent
      key.  Nested objects that Jira sends as [null] (assignee, priority, ...)
      use [jfield], which keeps [null] apart from an absent key, because
      [d.get(k, {})] returns [None] for the former and [{}] for the latter.
    - The remote collaborators (Jira, Confluence, the completion service) are
      functions of an abstract world; a call either returns or raises.
    - Effectful methods live in a state-and-exception monad [M]; the state
      holds the world, the log of collaborator calls and the engine's
      [conversation_context].  The pagination loop [while True] takes fuel;
      running out of fuel is an outcome that no [except] catches. *)

From Stdlib Require Import String Ascii List Arith Bool Lia PeanoNat ZArith.
From Stdlib Require Import DecimalString Sorting.Sorted Sorting.Permutation.
Import ListNotations.

Local Open Scope string_scope.
Local Open Scope nat_scope.
Local Open Scope list_scope.

Infix "+++" := String.append (right associativity, at level 60).

(* ================================================================== *)
(** ** Strings as the Python code uses them *)
(* ================================================================== *)

Module Str.

(** The double-quote character (no literal of this file holds one). *)
Definition dquote : string := String (ascii_of_nat 34) EmptyString.

(** The newline character. *)
Definition nl : string := String (ascii_of_nat 10) EmptyString.

Definition is_upper (c : ascii) : bool :=
  (65 <=? nat_of_ascii c) && (nat_of_ascii c <=? 90).

Definition is_lower (c : ascii) : bool :=
  (97 <=? nat_of_ascii c) && (nat_of_ascii c <=? 122).

(** [[A-Z]] under [re.IGNORECASE]. *)
Definition is_letter (c : ascii) : bool := is_upper c || is_lower c.

(** [\d]. *)
Definition is_digit (c : ascii) : bool :=
  (48 <=? nat_of_ascii c) && (nat_of_ascii c <=? 57).

(** [\w]: letters, digits and the underscore. *)
Definition is_word (c : ascii) : bool :=
  is_letter c || is_digit c || (nat_of_ascii c =? 95).

Definition lower_char (c : ascii) : ascii :=
  if is_upper c then ascii_of_nat (nat_of_ascii c + 32) else c.

Definition upper_char (c : ascii) : ascii :=
  if is_lower c then ascii_of_nat (nat_of_ascii c - 32) else c.

(** [s.lower()] *)
Fixpoint lower (s : string) : string :=
  match s with
  | EmptyString => EmptyString
  | String c s' => String (lower_char c) (lower s')
  end.

(** [s.upper()] *)
Fixpoint upper (s : string) : string :=
  match s with
  | EmptyString => EmptyString
  | String c s' => String (upper_char c) (upper s')
  end.

(** [needle in hay] *)
Fixpoint contains (needle hay : string) : bool :=
  String.prefix needle hay ||
  match hay with
  | EmptyString => false
  | String _ hay' => contains needle hay'
  end.

(** [any(w in s for w in words)] *)
Definition any_in (words : list string) (s : string) : bool :=
  existsb (fun w => contains w s) words.

(** [s.startswith(p)] *)
Definition startswith (p s : string) : bool := String.prefix p s.

(** [sep.join(parts)] *)
Definition join (sep : string) (parts : list string) : string :=
  String.concat sep parts.

(** [str(n)] for a non-negative integer. *)
Definition of_nat (n : nat) : string := NilZero.string_of_uint (Nat.to_uint n).

(** [s[:n]] *)
Definition take (n : nat) (s : string) : string := String.substring 0 n s.

(** Truthiness of a string: [bool(s)]. *)
Definition nonempty (s : string) : bool :=
  match s with EmptyString => false | _ => true end.

(** [s] between double quotes, as the f-strings build it. *)
Definition quoted (s : string) : string := dquote +++ s +++ dquote.

End Str.

(** [d.get(k, default)] on an optional field. *)
Definition get_or {A : Type} (default : A) (o : option A) : A :=
  match o with Some a => a | None => default end.

(** [not l] for a list. *)
Definition is_nil {A : Type} (l : list A) : bool :=
  match l with [] => true | _ => false end.

(* ================================================================== *)
(** ** Data model: what the tracker returns *)
(* ================================================================== *)

(** A nested JSON member: absent, [null], or an object. *)
Inductive jfield (A : Type) : Type :=
| Missing
| Null
| Present (a : A).
Arguments Missing {A}.
Arguments Null {A}.
Arguments Present {A} a.

(** An object with a ['name'] member: status, issuetype, priority. *)
Record named := { name : option string }.

(** A user object: assignee, reporter. *)
Record person := { displayName : option string }.

(** The project object of an issue. *)
Record project_ref := { project_name : option string; project_key : option string }.

(** The ['fields'] object of an issue.  [customfield_10016] holds the
    rendering [str(v)] of the story-point value when the member is there. *)
Record issue_fields := {
  summary : option string;
  status : jfield named;
  issuetype : jfield named;
  priority : jfield named;
  assignee : jfield person;
  reporter : jfield person;
  created : option string;
  updated : option string;
  project : jfield project_ref;
  customfield_10016 : option string
}.

(** One issue of a search response. *)
Record issue := { key : option string; fields : option issue_fields }.

(** What [jira_client.search] hands back: an object (whose ['issues'] and
    ['total'] members may be absent), a bare list, or something else. *)
Inductive search_result : Type :=
| SRDict (issues : option (list issue)) (total : option nat)
| SRList (issues : list issue)
| SROther.

(** A call of a collaborator returns a value or raises; [Raises msg] carries
    [str(e)]. *)
Inductive outcome (A : Type) : Type :=
| Returns (a : A)
| Raises (msg : string).
Arguments Returns {A} a.
Arguments Raises {A} msg.

(** The ['jql'] member of an analysis, and the [jql] argument of
    [_execute_jql] and [search]: one query string, or the list of query
    strings of a comparison (which [process_query] hands to [_execute_jql]
    unsplit on one path). *)
Inductive jql_value : Type :=
| JqlStr (jql : string)
| JqlList (jql_list : list string).

(** The arguments of one [search] call. *)
Record search_request := {
  req_jql : jql_value;
  req_max_results : nat;
  req_fields : option (list string);
  req_start_at : nat
}.

(** The dictionary [_execute_jql] returns (FetchResult). *)
Record fetch_result := {
  results : list issue;
  total_count : nat;
  retrieved_count : nat;
  is_count_only : bool;
  error : option string
}.

(* ================================================================== *)
(** ** [JiraClient.search] over an HTTP transport *)
(* ================================================================== *)

Module JiraClient.

(** The body of an HTTP answer as [resp.json()] reads it: it parses to a
    JSON value or the parse raises. *)
Inductive http_body : Type :=
| Unparsable (msg : string)
| Parsed (data : search_result).

(** What [self._client.get] can do: the transport raises, or the server
    answers with a status code and a body. *)
Inductive http_reply : Type :=
| TransportError (msg : string)
| Response (status_code : nat) (body : http_body).

(** The page [search] returns on every failure: [{"issues": [], "total": 0}]. *)
Definition empty_page : search_result := SRDict (Some []) (Some 0).

(** The body of [search] after the client is initialised.  On a 200 answer
    the logging line evaluates [len(data.get('issues', []))] inside the
    [try]: for a body that is not an object this raises, and the [except]
    returns the empty page like every other failure. *)
Definition search (reply : http_reply) : search_result :=
  match reply with
  | TransportError _ => empty_page
  | Response status_code body =>
      if status_code =? 200 then
        match body with
        | Parsed (SRDict i t) => SRDict i t
        | Parsed (SRList _) => empty_page
        | Parsed SROther => empty_page
        | Unparsable _ => empty_page
        end
      else empty_page
  end.

End JiraClient.

(* ================================================================== *)
(** ** ConversationContext: [add_context] and the recent window *)
(* ================================================================== *)

(** A response as [process_query] passes it around: plain text, or the
    dictionary with ['content'], ['type'] and ['confidence'] that
    [_generate_response] builds. *)
Inductive response_value : Type :=
| Text (s : string)
| Categorised (content : string) (type : string).

(** One entry of [self.conversation_context]. *)
Record context_entry := {
  ctx_user_query : string;
  ctx_jql : string;
  ctx_result_count : nat;
  ctx_response : response_value;
  ctx_timestamp : string
}.

(** [add_context]: append, then drop the head when more than 10 are held. *)
Definition add_context {A : Type} (user_query jql : string) (results : list A)
    (response : response_value) (conversation_context : list context_entry)
    : list context_entry :=
  let context := {| ctx_user_query := user_query;
                    ctx_jql := jql;
                    ctx_result_count := length results;
                    ctx_response := response;
                    ctx_timestamp := "now" |} in
  let appended := conversation_context ++ [context] in
  if 10 <? length appended then tl appended else appended.

(** [l[-n:]] for [n > 0]. *)
Definition last_n {A : Type} (n : nat) (l : list A) : list A :=
  skipn (length l - n) l.

(** [recent_context] in [_analyze_query]: the last three interactions. *)
Definition recent_context (conversation_context : list context_entry)
    : list context_entry :=
  last_n 3 conversation_context.

(** [context_str] in [_analyze_query]. *)
Definition context_str (conversation_context : list context_entry) : string :=
  if is_nil conversation_context then EmptyString
  else Str.join Str.nl
         (map (fun ctx => "Previous: '" +++ ctx_user_query ctx +++ "' -> JQL: "
                          +++ ctx_jql ctx)
              (recent_context conversation_context)).

(* ================================================================== *)
(** ** The ticket-key pattern *)
(* ================================================================== *)

(** [re.search(r'\b([A-Z]{2,}-\d+)\b', s, re.IGNORECASE)].

    A match that starts at some position takes the whole run of letters
    there (after fewer letters the next character is a letter, never the
    hyphen) and the whole run of digits after the hyphen (after fewer digits
    the next character is a digit, so the closing [\b] fails); backtracking
    therefore never finds a match that the maximal runs miss. *)
Module KeyPattern.

(** The longest prefix of [s] whose characters satisfy [p], and the rest. *)
Fixpoint span (p : ascii -> bool) (s : string) : string * string :=
  match s with
  | EmptyString => (EmptyString, EmptyString)
  | String c s' =>
      if p c then let (run, rest) := span p s' in (String c run, rest)
      else (EmptyString, s)
  end.

(** [\b] at the end of the key: the end of the text or a non-word character. *)
Definition boundary_after (rest : string) : bool :=
  match rest with
  | EmptyString => true
  | String c _ => negb (Str.is_word c)
  end.

(** The pattern anchored at the head of [s], the opening [\b] aside. *)
Definition match_here (s : string) : option string :=
  let (letters, r1) := span Str.is_letter s in
  if 2 <=? String.length letters then
    match r1 with
    | String c r2 =>
        if (nat_of_ascii c =? 45) then
          let (digits, r3) := span Str.is_digit r2 in
          if (1 <=? String.length digits) && boundary_after r3
          then Some (letters +++ "-" +++ digits)
          else None
        else None
    | EmptyString => None
    end
  else None.

(** Leftmost match; [prev_word] tells whether the character before the head
    of [s] is a word character (then [\b] does not hold before a letter). *)
Fixpoint search_from (prev_word : bool) (s : string) : option string :=
  match s with
  | EmptyString => None
  | String c s' =>
      match (if prev_word then None else match_here s) with
      | Some k => Some k
      | None => search_from (Str.is_word c) s'
      end
  end.

(** [issue_key_match.group(1) if issue_key_match else None] *)
Definition search (s : string) : option string := search_from false s.

End KeyPattern.

(* ================================================================== *)
(** ** QueryBuilder: the analysis record and the deterministic fallbacks *)
(* ================================================================== *)

(** The dictionary [_analyze_query] returns.  A member is [None] when the
    key is absent. *)
Record query_analysis := {
  qa_intent : option string;
  qa_jql : option jql_value;
  qa_response_type : option string;
  qa_entities : option (list (string * string))
}.

(** A project dictionary of [get_projects]. *)
Record jira_project := { proj_key : option string }.

(** [[p.get('key', '') for p in projects]] *)
Definition project_keys_of (projects : list jira_project) : list string :=
  map (fun p => get_or EmptyString (proj_key p)) projects.

(** The [except] branch of [_analyze_query] ("Enhanced fallback analysis"). *)
Definition analysis_fallback (user_query : string) (project_keys : list string)
    : query_analysis :=
  match KeyPattern.search user_query with
  | Some specific_issue_key =>
      {| qa_intent := Some "issue_details";
         qa_jql := Some (JqlStr ("issue = " +++ Str.quoted specific_issue_key));
         qa_response_type := Some "list";
         qa_entities := Some [("issue_key", specific_issue_key)] |}
  | None =>
      {| qa_intent := Some "general_query";
         qa_jql := Some (JqlStr ("project in (" +++ Str.join ", " project_keys
                                 +++ ") ORDER BY updated DESC"));
         qa_response_type := Some "list";
         qa_entities := Some [] |}
  end.

(** Truthiness of an optional string: [None] and the empty string are false. *)
Definition truthy (o : option string) : bool :=
  match o with Some s => Str.nonempty s | None => false end.

(** The text an f-string puts for an optional string that was tested true. *)
Definition str_of (o : option string) : string := get_or "None" o.

Module Fallback.

(** [mentioned_project]: the key of the first project whose lower-cased key
    occurs in the lower-cased query. *)
Fixpoint mentioned_project (projects : list jira_project) (query_lower : string)
    : option string :=
  match projects with
  | [] => None
  | project :: rest =>
      if Str.contains (Str.lower (get_or EmptyString (proj_key project))) query_lower
      then Some (get_or EmptyString (proj_key project))
      else mentioned_project rest query_lower
  end.

(** [issue_type] by keyword buckets. *)
Definition issue_type (query_lower : string) : option string :=
  if Str.any_in ["story"; "stories"; "user story"] query_lower then Some "Story"
  else if Str.any_in ["bug"; "bugs"; "defect"; "defects"] query_lower then Some "Bug"
  else if Str.any_in ["task"; "tasks"] query_lower then Some "Task"
  else None.

(** [assignee] through the alias table. *)
Definition assignee (query_lower : string) : option string :=
  if Str.contains "ashwin" query_lower then Some "Ashwin Thyagarajan"
  else if Str.contains "ashwini" query_lower then Some "Ashwini Kumar"
  else None.

(** [", ".join([f'"{k}"' for k in project_keys])] *)
Definition project_list (project_keys : list string) : string :=
  Str.join ", " (map Str.quoted project_keys).

(** The status clause, when the query asks for one. *)
Definition status_parts (query_lower : string) : list string :=
  if Str.any_in ["open"; "to do"; "in progress"] query_lower
  then ["status != " +++ Str.quoted "Done"]
  else if Str.contains "done" query_lower || Str.contains "completed" query_lower
  then ["status = " +++ Str.quoted "Done"]
  else [].

(** [jql_parts] as [_fallback_processing] fills it. *)
Definition jql_parts (specific_issue_key mentioned : option string)
    (project_keys : list string) (issue_type assignee : option string)
    (query_lower : string) : list string :=
  (if truthy specific_issue_key
   then ["issue = " +++ Str.quoted (str_of specific_issue_key)]
   else if truthy mentioned
   then ["project = " +++ Str.quoted (str_of mentioned)]
   else if negb (is_nil project_keys)
   then ["project in (" +++ project_list project_keys +++ ")"]
   else [])
  ++ (if truthy issue_type
      then ["issuetype = " +++ Str.quoted (str_of issue_type)] else [])
  ++ (if truthy assignee
      then ["assignee = " +++ Str.quoted (str_of assignee)] else [])
  ++ status_parts query_lower.

(** The query string [_fallback_processing] executes. *)
Definition jql (user_query : string) (projects : list jira_project) : string :=
  let project_keys := project_keys_of projects in
  let query_lower := Str.lower user_query in
  let specific_issue_key := KeyPattern.search user_query in
  let parts := jql_parts specific_issue_key
                 (mentioned_project projects query_lower) project_keys
                 (issue_type query_lower) (assignee query_lower) query_lower in
  let jql := if negb (is_nil parts) then Str.join " AND " parts
             else "project in (" +++ project_list project_keys +++ ")" in
  if negb (truthy specific_issue_key) then jql +++ " ORDER BY updated DESC"
  else jql.

End Fallback.

(** [bind] for code that returns or raises. *)
Definition obind {A B : Type} (o : outcome A) (k : A -> outcome B) : outcome B :=
  match o with
  | Returns a => k a
  | Raises msg => Raises msg
  end.

(** [[f(x) for x in l]] where [f] may raise. *)
Fixpoint omap {A B : Type} (f : A -> outcome B) (l : list A) : outcome (list B) :=
  match l with
  | [] => Returns []
  | x :: l' => obind (f x) (fun y => obind (omap f l') (fun ys => Returns (y :: ys)))
  end.

(** [str(e)] of the [AttributeError] raised by [None.get]. *)
Definition none_has_no_get : string := "'NoneType' object has no attribute 'get'".

Module Chain.

(** [item.get('fields', {}).get(k, {}).get('name', default)]: an unguarded
    chain; a [null] member raises. *)
Definition name_of (default : string) (sel : issue_fields -> jfield named)
    (item : issue) : outcome string :=
  match fields item with
  | None => Returns default
  | Some f =>
      match sel f with
      | Missing => Returns default
      | Null => Raises none_has_no_get
      | Present o => Returns (get_or default (name o))
      end
  end.

(** [item.get('fields', {}).get(k, {}).get('displayName', default)] *)
Definition display_name_of (default : string) (sel : issue_fields -> jfield person)
    (item : issue) : outcome string :=
  match fields item with
  | None => Returns default
  | Some f =>
      match sel f with
      | Missing => Returns default
      | Null => Raises none_has_no_get
      | Present o => Returns (get_or default (displayName o))
      end
  end.

(** [item.get('fields', {}).get('summary', 'No summary')] *)
Definition summary_of (item : issue) : string :=
  match fields item with
  | None => "No summary"
  | Some f => get_or "No summary" (summary f)
  end.

End Chain.

(** [sum(1 for x in l if p(x))] *)
Definition count_if {A : Type} (p : A -> bool) (l : list A) : nat :=
  length (filter p l).

(** The lines [_enhanced_fallback_response] writes for one item of the
    "first few items" loop. *)
Definition fallback_item_lines (item : issue) : outcome (list string) :=
  let key := get_or EmptyString (key item) in
  let summary := Chain.summary_of item in
  obind (Chain.name_of "Unknown" status item) (fun status =>
  obind (Chain.display_name_of "Unassigned" assignee item) (fun assignee_name =>
  Returns [Str.nl +++ "**" +++ key +++ "**: " +++ summary;
           "Status: " +++ status +++ " | Assignee: " +++ assignee_name])).

(** [_enhanced_fallback_response].  The chains of [.get] are unguarded: an
    issue whose issuetype, status, assignee or priority is [null] makes the
    method raise. *)
Definition _enhanced_fallback_response (user_query : string)
    (specific_issue_key project issue_type assignee_ : option string)
    (results : list issue) : outcome string :=
  if is_nil results then
    Returns "I couldn't find any matching items. Try being more specific about the project, assignee, or issue type."
  else
    obind (omap (Chain.name_of EmptyString issuetype) results) (fun types =>
    let stories := count_if (String.eqb "Story") types in
    let bugs := count_if (fun t => String.eqb t "Bug" || String.eqb t "Defect") types in
    let tasks := count_if (String.eqb "Task") types in
    let intro :=
      if truthy specific_issue_key
      then "Here are the details for " +++ str_of specific_issue_key +++ ":"
      else if truthy assignee_
      then "Here's what I found for " +++ str_of assignee_ +++ ":"
      else if truthy project
      then "Here's what I found in the " +++ str_of project +++ " project:"
      else if truthy issue_type
      then "Here are the " +++ Str.lower (str_of issue_type) +++ "s I found:"
      else "Here's what I found:" in
    let total := length results in
    obind
      (match results with
       | [item] =>
           let key := get_or EmptyString (key item) in
           let summary := Chain.summary_of item in
           obind (Chain.name_of "Unknown" status item) (fun status =>
           obind (Chain.display_name_of "Unassigned" assignee item) (fun assignee_name =>
           obind (Chain.name_of "Unknown" priority item) (fun priority_name =>
           obind (Chain.name_of "item" issuetype item) (fun type_name =>
           obind (Chain.name_of "unknown" priority item) (fun priority_lower =>
           Returns
             [Str.nl +++ "**" +++ key +++ ": " +++ summary +++ "**";
              "Status: " +++ status;
              "Assignee: " +++ assignee_name;
              "Priority: " +++ priority_name;
              Str.nl +++ "Leadership note: " +++ assignee_name +++ " owns this "
                +++ Str.lower type_name +++ " currently to do. Priority is "
                +++ Str.lower priority_lower +++ "."])))))
       | _ =>
           obind (omap fallback_item_lines (firstn 3 results)) (fun items =>
           Returns
             ([Str.nl +++ "Found " +++ Str.of_nat total +++ " items:"]
              ++ (if 0 <? stories then ["• " +++ Str.of_nat stories +++ " stories"] else [])
              ++ (if 0 <? bugs then ["• " +++ Str.of_nat bugs +++ " bugs"] else [])
              ++ (if 0 <? tasks then ["• " +++ Str.of_nat tasks +++ " tasks"] else [])
              ++ concat items
              ++ (if 3 <? total
                  then [Str.nl +++ "...and " +++ Str.of_nat (total - 3) +++ " more items."]
                  else [])))
       end)
      (fun body =>
       Returns (Str.join Str.nl
         ([intro] ++ body ++
          [Str.nl +++ "💡 **Note**: For more intelligent responses and natural language processing, configure your OpenAI API key in backend/config.env"])))).

(** [_basic_response]: an issue object has no ['count'] member, so the
    branch for a count row is never taken on tracker issues. *)
Definition _basic_response (results : list issue) : string :=
  if is_nil results then "No matching items found."
  else "Found " +++ Str.of_nat (length results) +++ " items matching your criteria.".

(** [_determine_response_type]; [intent] is [query_analysis.get('intent', '')]. *)
Definition _determine_response_type (user_query ai_response : string)
    (intent : string) : string :=
  let query_lower := Str.lower user_query in
  let response_lower := Str.lower ai_response in
  if Str.any_in ["who"; "reporter"; "assignee"; "person"] query_lower then "insight"
  else if Str.any_in ["priority"; "status"; "when"; "date"; "time"] query_lower then "insight"
  else if Str.any_in ["recommend"; "suggest"; "should"; "next step"; "action"] query_lower
  then "recommendation"
  else if Str.any_in ["summary"; "overview"; "total"; "count"; "how many"] query_lower
  then "summary"
  else if Str.any_in ["recommend"; "suggest"; "should"; "next step"; "action"] response_lower
  then "recommendation"
  else if Str.any_in ["insight"; "pattern"; "trend"; "analysis"; "indicates"] response_lower
  then "insight"
  else if Str.any_in ["summary"; "total"; "overview"; "count"] response_lower
  then "summary"
  else if Str.contains "comparison" intent || Str.contains "compare" query_lower
  then "analysis"
  else if Str.contains "single_issue" intent then "analysis"
  else if String.length response_lower <? 100 then "insight"
  else "analysis".

(* ================================================================== *)
(** ** ResultAggregator: [_create_detailed_analysis] *)
(* ================================================================== *)

(** A Breakdown: a Python dictionary from category to count, in insertion
    order. *)
Definition breakdown := list (string * nat).

(** [if k not in d: d[k] = 0] followed by [d[k] += 1]. *)
Fixpoint bump (k : string) (d : breakdown) : breakdown :=
  match d with
  | [] => [(k, 1)]
  | (k', n) :: d' =>
      if String.eqb k k' then (k', S n) :: d' else (k', n) :: bump k d'
  end.

(** [d.get(k)] *)
Fixpoint lookup (k : string) (d : breakdown) : option nat :=
  match d with
  | [] => None
  | (k', n) :: d' => if String.eqb k k' then Some n else lookup k d'
  end.

(** One step of [sorted(..., key=lambda x: x[1], reverse=True)]: the sort is
    stable, so [x], which stood before every element of [l], goes before the
    elements whose count is not greater. *)
Fixpoint insert_by_count (x : string * nat) (l : breakdown) : breakdown :=
  match l with
  | [] => [x]
  | y :: l' => if snd y <=? snd x then x :: y :: l' else y :: insert_by_count x l'
  end.

(** [sorted(d.items(), key=lambda x: x[1], reverse=True)] *)
Definition sorted_by_count (d : breakdown) : breakdown :=
  fold_right insert_by_count [] d.

(** One step of [sorted(d.items(), reverse=True)]: keys are distinct, so the
    order is the descending order of the keys. *)
Fixpoint insert_by_key (x : string * nat) (l : breakdown) : breakdown :=
  match l with
  | [] => [x]
  | y :: l' => if String.leb (fst y) (fst x) then x :: y :: l' else y :: insert_by_key x l'
  end.

(** [sorted(d.items(), reverse=True)] *)
Definition sorted_by_key (d : breakdown) : breakdown :=
  fold_right insert_by_key [] d.

(** [f.get(k, {}).get('name', 'Unknown') if f.get(k) else 'Unknown'] *)
Definition guarded_name (default : string) (m : jfield named) : string :=
  match m with
  | Present o => get_or default (name o)
  | _ => default
  end.

(** [f.get(k, {}).get('displayName', d) if f.get(k) else d] *)
Definition guarded_display_name (default : string) (m : jfield person) : string :=
  match m with
  | Present o => get_or default (displayName o)
  | _ => default
  end.

(** The values [_create_detailed_analysis] reads off one item.  The
    members of [items_list] that nothing reads afterwards (resolution date,
    project, labels, components, fix versions) are left out. *)
Record item := {
  item_key : string;
  item_summary : string;
  item_status : string;
  item_type : string;
  item_priority : string;
  item_assignee : string;
  item_reporter : string;
  item_created_date : string;
  item_updated_date : string;
  item_story_points : string
}.

(** [fields = item.get('fields', {})] and the extractions that follow. *)
Definition extract (i : issue) : item :=
  let f := fields i in
  let of_fields {A : Type} (default : A) (g : issue_fields -> A) : A :=
    match f with Some f' => g f' | None => default end in
  {| item_key := get_or "UNKNOWN" (key i);
     item_summary := of_fields "No summary" (fun f' => get_or "No summary" (summary f'));
     item_status := of_fields "Unknown" (fun f' => guarded_name "Unknown" (status f'));
     item_type := of_fields "Unknown" (fun f' => guarded_name "Unknown" (issuetype f'));
     item_priority := of_fields "Unknown" (fun f' => guarded_name "Unknown" (priority f'));
     item_assignee :=
       of_fields "Unassigned" (fun f' => guarded_display_name "Unassigned" (assignee f'));
     item_reporter :=
       of_fields "Unknown" (fun f' => guarded_display_name "Unknown" (reporter f'));
     item_created_date := of_fields "Unknown" (fun f' => get_or "Unknown" (created f'));
     item_updated_date := of_fields "Unknown" (fun f' => get_or "Unknown" (updated f'));
     item_story_points :=
       of_fields "Not estimated" (fun f' => get_or "Not estimated" (customfield_10016 f')) |}.

(** The [analysis] dictionary. *)
Record analysis := {
  total_items : nat;
  retrieved_items : nat;
  by_assignee : breakdown;
  by_reporter : breakdown;
  by_status : breakdown;
  by_type : breakdown;
  by_priority : breakdown;
  by_created_date : breakdown;
  by_updated_date : breakdown;
  items_list : list item
}.

(** What [_generate_response] passes as [specific_issue_context]. *)
Record issue_context := {
  sic_issue_key : option string;
  sic_reporter : string;
  sic_assignee : string;
  sic_status : string
}.

Section Aggregation.

(** [datetime.fromisoformat(s.replace('Z', '+00:00')).strftime('%Y-%m')];
    [None] when the parse raises. *)
Variable month_of : string -> option string.

(** The month bucket of a date member: skipped when the member is absent
    ('Unknown') or does not parse. *)
Definition bump_month (date : string) (d : breakdown) : breakdown :=
  if String.eqb date "Unknown" then d
  else match month_of date with
       | Some month => bump month d
       | None => d
       end.

(** The body of [for item in results]. *)
Definition analyse_item (a : analysis) (i : issue) : analysis :=
  let it := extract i in
  {| total_items := total_items a;
     retrieved_items := retrieved_items a;
     by_assignee := bump (item_assignee it) (by_assignee a);
     by_reporter := bump (item_reporter it) (by_reporter a);
     by_status := bump (item_status it) (by_status a);
     by_type := bump (item_type it) (by_type a);
     by_priority := bump (item_priority it) (by_priority a);
     by_created_date := bump_month (item_created_date it) (by_created_date a);
     by_updated_date := bump_month (item_updated_date it) (by_updated_date a);
     items_list := items_list a ++ [it] |}.

(** The [analysis] dictionary after the loop. *)
Definition analyse (results : list issue) (actual_total actual_retrieved : nat)
    : analysis :=
  fold_left analyse_item results
    {| total_items := actual_total;
       retrieved_items := actual_retrieved;
       by_assignee := []; by_reporter := []; by_status := []; by_type := [];
       by_priority := []; by_created_date := []; by_updated_date := [];
       items_list := [] |}.

End Aggregation.

Section Summary.

Variable month_of : string -> option string.

(** The lines of one breakdown: a heading, then one line per category. *)
Definition breakdown_lines (heading : string) (suffix : string)
    (sorted : breakdown) : list string :=
  if is_nil sorted then []
  else (Str.nl +++ heading)
       :: map (fun kv => "- " +++ fst kv +++ ": " +++ Str.of_nat (snd kv) +++ suffix)
              sorted.

(** The lines of one sample item. *)
Definition sample_lines (it : item) : list string :=
  ["- " +++ item_key it +++ ": " +++ item_summary it;
   "  Status: " +++ item_status it +++ " | Priority: " +++ item_priority it
     +++ " | Type: " +++ item_type it;
   "  Assignee: " +++ item_assignee it +++ " | Reporter: " +++ item_reporter it]
  ++ (if negb (String.eqb (item_created_date it) "Unknown")
      then ["  Created: " +++ Str.take 10 (item_created_date it)
            +++ " | Updated: " +++ Str.take 10 (item_updated_date it)]
      else [])
  ++ (if negb (String.eqb (item_story_points it) "Not estimated")
      then ["  Story Points: " +++ item_story_points it]
      else [])
  ++ [EmptyString].

(** The line that tells a complete dataset from a partial one. *)
Definition count_line (a : analysis) (actual_total actual_retrieved : nat) : string :=
  if actual_total =? actual_retrieved
  then "Found " +++ Str.of_nat (total_items a)
       +++ " total items (complete dataset analyzed):"
  else "Showing segregations for " +++ Str.of_nat (retrieved_items a)
       +++ " issues (out of " +++ Str.of_nat (total_items a) +++ " total).".

(** The lines about the reporter of a single issue, when the context is
    there. *)
Definition context_lines (specific_issue_context : option issue_context)
    : list string :=
  match specific_issue_context with
  | Some c =>
      if truthy (sic_issue_key c) && Str.nonempty (sic_reporter c)
      then ["**" +++ sic_reporter c +++ " is the reporter of "
            +++ str_of (sic_issue_key c) +++ ".**"; EmptyString]
      else []
  | None => []
  end.

(** [summary_parts] of a non-empty result list. *)
Definition summary_parts (results : list issue) (total_count retrieved_count : option nat)
    (specific_issue_context : option issue_context) : list string :=
  let actual_total := get_or (length results) total_count in
  let actual_retrieved := get_or (length results) retrieved_count in
  let a := analyse month_of results actual_total actual_retrieved in
  context_lines specific_issue_context
  ++ [count_line a actual_total actual_retrieved]
  ++ breakdown_lines "**Issue Type Breakdown:**" EmptyString (sorted_by_count (by_type a))
  ++ breakdown_lines "**Assignee Breakdown:**" " items" (sorted_by_count (by_assignee a))
  ++ breakdown_lines "**Reporter Breakdown:**" " items" (sorted_by_count (by_reporter a))
  ++ breakdown_lines "**Status Breakdown:**" EmptyString (sorted_by_count (by_status a))
  ++ breakdown_lines "**Priority Breakdown:**" EmptyString (sorted_by_count (by_priority a))
  ++ breakdown_lines "**Created Date Breakdown:**" EmptyString
       (sorted_by_key (by_created_date a))
  ++ breakdown_lines "**Updated Date Breakdown:**" EmptyString
       (sorted_by_key (by_updated_date a))
  ++ [Str.nl +++ "**Sample Items:**"]
  ++ concat (map sample_lines (firstn 5 (items_list a)))
  ++ (if 5 <? length (items_list a)
      then ["... and " +++ Str.of_nat (length (items_list a) - 5) +++ " more items."]
      else []).

(** [_create_detailed_analysis] *)
Definition _create_detailed_analysis (results : list issue) (user_query : string)
    (total_count retrieved_count : option nat)
    (specific_issue_context : option issue_context) : string :=
  if is_nil results then "No items found."
  else Str.join Str.nl
         (summary_parts results total_count retrieved_count specific_issue_context).

(** [specific_issue_context] as [_generate_response] builds it. *)
Definition specific_issue_context_of (results : list issue) : option issue_context :=
  match results with
  | [i] =>
      if truthy (key i) then
        let it := extract i in
        Some {| sic_issue_key := key i;
                sic_reporter := item_reporter it;
                sic_assignee := item_assignee it;
                sic_status := item_status it |}
      else None
  | _ => None
  end.

(** [data_summary] in [_generate_response]. *)
Definition data_summary (results : list issue) (user_query : string)
    (total_count retrieved_count : option nat) : string :=
  if is_nil results then "No matching items found."
  else
    _create_detailed_analysis results user_query total_count retrieved_count
      (specific_issue_context_of results)
    +++ (if 5 <? length results
         then "... and " +++ Str.of_nat (length results - 5) +++ " more items."
         else EmptyString).

End Summary.

(* ================================================================== *)
(** ** Comparison summaries *)
(* ================================================================== *)

(** One element of [all_results] in [process_query]. *)
Record comparison_entry := {
  entity : string;
  entry_jql : string;
  entry_results : list issue;
  count : nat;
  entry_retrieved_count : nat;
  entry_error : option string
}.

(** Python computes the share [(count / total_items) * 100] in binary
    floating point (IEEE 754 binary64, rounding to nearest, ties to even)
    and [:.1f] prints the decimal with one digit that is nearest to the
    binary value, ties to even.  [Binary64] has this arithmetic for
    positive numbers in the normal range: a number is [mantissa * 2 ^
    exponent], and an operation rounds its exact result to a mantissa of 53
    bits. *)
Module Binary64.

(** The integer nearest to [num / den], the even one of two that are
    equally near ([den] positive). *)
Definition nearest_even (num den : Z) : Z :=
  let q := (num / den)%Z in
  let r := (num mod den)%Z in
  if (2 * r <? den)%Z then q
  else if (den <? 2 * r)%Z then (q + 1)%Z
  else if Z.even q then q else (q + 1)%Z.

(** [2 ^ n] for [n] positive, [1] otherwise: the factor that [2 ^ n]
    contributes to a numerator, [2 ^ (- n)] to a denominator. *)
Definition pow2 (n : Z) : Z := (2 ^ Z.max 0 n)%Z.

Record float := { mantissa : Z; exponent : Z }.

(** The integer [f] with [2 ^ f <= num / den < 2 ^ (f + 1)]. *)
Definition floor_log2 (num den : Z) : Z :=
  let l := (Z.log2 num - Z.log2 den)%Z in
  if (num * pow2 (- l) <? den * pow2 l)%Z then (l - 1)%Z else l.

(** The float nearest to [num / den]: the exponent puts the mantissa
    between [2 ^ 52] and [2 ^ 53]. *)
Definition round (num den : Z) : float :=
  if (num =? 0)%Z then {| mantissa := 0; exponent := 0 |}
  else
    let e := (floor_log2 num den - 52)%Z in
    {| mantissa := nearest_even (num * pow2 (- e)) (den * pow2 e);
       exponent := e |}.

(** [a / b] on two [int]s: the float nearest to the quotient. *)
Definition div (a b : Z) : float := round a b.

(** [x * n] for a float and a small [int]. *)
Definition mul (x : float) (n : Z) : float :=
  round (mantissa x * n * pow2 (exponent x)) (pow2 (- exponent x)).

(** The digits of [f"{x:.1f}"] without the point: [x] in tenths, rounded
    to the nearest integer. *)
Definition tenths (x : float) : Z :=
  nearest_even (mantissa x * 10 * pow2 (exponent x)) (pow2 (- exponent x)).

End Binary64.

(** [(count / total_items) * 100] as [:.1f] prints it, in tenths of a
    percent. *)
Definition share_tenths (count total : nat) : nat :=
  Z.to_nat
    (Binary64.tenths
       (Binary64.mul (Binary64.div (Z.of_nat count) (Z.of_nat total)) 100)).

(** [f"{percentage:.1f}"] *)
Definition percentage_1f (count total : nat) : string :=
  let t := share_tenths count total in
  Str.of_nat (t / 10) +++ "." +++ Str.of_nat (t mod 10).

(** [sum(count for _, count in entities_data)] *)
Definition total_items_of (entities_data : breakdown) : nat :=
  fold_right (fun ec acc => snd ec + acc) 0 entities_data.

(** The winner or tie lines of [_fallback_comparison_response]. *)
Definition winner_lines (entities_data : breakdown) : list string :=
  match entities_data with
  | (winner_entity, winner_count) :: (runner_up_entity, runner_up_count) :: _ =>
      (if runner_up_count <? winner_count then
         ["🏆 **Winner**: " +++ winner_entity +++ " with "
            +++ Str.of_nat winner_count +++ " items";
          "📈 **Difference**: " +++ Str.of_nat (winner_count - runner_up_count)
            +++ " more items than " +++ runner_up_entity]
       else if winner_count =? runner_up_count then
         ["🤝 **Tied**: Both " +++ winner_entity +++ " and " +++ runner_up_entity
            +++ " have " +++ Str.of_nat winner_count +++ " items"]
       else [])
      ++ [EmptyString]
  | _ => []
  end.

(** The percentage lines of [_fallback_comparison_response]. *)
Definition insight_lines (entities_data : breakdown) : list string :=
  let total_items := total_items_of entities_data in
  if 0 <? total_items then
    map (fun ec => "- " +++ fst ec +++ " handles "
                   +++ percentage_1f (snd ec) total_items +++ "% of the workload")
        entities_data
  else [].

(** [entities_data] after [entities_data.sort(key=lambda x: x[1], reverse=True)]. *)
Definition ranked (all_results : list comparison_entry) : breakdown :=
  sorted_by_count (map (fun result_set => (entity result_set, count result_set)) all_results).

(** [response_parts] of [_fallback_comparison_response]. *)
Definition comparison_parts (all_results : list comparison_entry) : list string :=
  let entities_data := ranked all_results in
  ["🔍 **Comparison Analysis**"; EmptyString; "📊 **Results Summary:**"]
  ++ map (fun ec => "- **" +++ fst ec +++ "**: " +++ Str.of_nat (snd ec) +++ " items")
         entities_data
  ++ [EmptyString]
  ++ winner_lines entities_data
  ++ ["💡 **Key Insights:**"]
  ++ insight_lines entities_data.

(** [_fallback_comparison_response] *)
Definition _fallback_comparison_response (user_query : string)
    (all_results : list comparison_entry) : string :=
  Str.join Str.nl (comparison_parts all_results).

Section ComparisonSummary.

Variable month_of : string -> option string.

(** The element of [comparison_summary] for one entity. *)
Definition comparison_summary_of (result_set : comparison_entry) : string :=
  if truthy (entry_error result_set) then
    entity result_set +++ ": Error - " +++ str_of (entry_error result_set)
  else if negb (is_nil (entry_results result_set)) then
    entity result_set +++ ": " +++ Str.of_nat (count result_set) +++ " items" +++ Str.nl
    +++ _create_detailed_analysis month_of (entry_results result_set)
          (entity result_set +++ " analysis")
          (Some (count result_set)) (Some (entry_retrieved_count result_set)) None
  else entity result_set +++ ": 0 items (no data found)".

(** [comparison_data] in [_generate_comparison_response]. *)
Definition comparison_data (all_results : list comparison_entry) : string :=
  Str.join (Str.nl +++ Str.nl +++ "---" +++ Str.nl +++ Str.nl)
    (map comparison_summary_of all_results).

End ComparisonSummary.

(* ================================================================== *)
(** ** The document store: search terms and page summaries *)
(* ================================================================== *)

Module Terms.

(** Whitespace as [str.split()] sees it on ASCII text. *)
Definition is_space (c : ascii) : bool :=
  let n := nat_of_ascii c in
  ((9 <=? n) && (n <=? 13)) || ((28 <=? n) && (n <=? 32)).

(** [s.split()]: [word] is the word being read, in reverse. *)
Fixpoint split_from (word : list ascii) (s : string) : list string :=
  let flush (rest : list string) :=
    match word with
    | [] => rest
    | _ => string_of_list_ascii (rev word) :: rest
    end in
  match s with
  | EmptyString => flush []
  | String c s' =>
      if is_space c then flush (split_from [] s')
      else split_from (c :: word) s'
  end.

Definition split (s : string) : list string := split_from [] s.

(** [s] without the prefix [p], when [p] is a prefix of [s]. *)
Fixpoint strip_prefix (p s : string) : option string :=
  match p, s with
  | EmptyString, _ => Some s
  | String a p', String b s' => if Ascii.eqb a b then strip_prefix p' s' else None
  | String _ _, EmptyString => None
  end.

Definition phrases : list string :=
  ["i need"; "i want"; "show me"; "find me"; "get me"; "give me"; "can you"; "please"].

(** The length of the first alternative that matches at the head of [s]
    and is followed by [\b]. *)
Fixpoint phrase_at (alternatives : list string) (s : string) : option nat :=
  match alternatives with
  | [] => None
  | p :: rest =>
      match strip_prefix p s with
      | Some after =>
          if KeyPattern.boundary_after after then Some (String.length p)
          else phrase_at rest s
      | None => phrase_at rest s
      end
  end.

(** [re.sub(r'\b(i need|...|please)\b', '', s)]: [skip] characters of a
    matched phrase are still to be dropped; [prev_word] tells whether the
    character before the head of [s] is a word character. *)
Fixpoint remove_phrases (skip : nat) (prev_word : bool) (s : string) : string :=
  match s with
  | EmptyString => EmptyString
  | String c s' =>
      match skip with
      | S k => remove_phrases k (Str.is_word c) s'
      | O =>
          match (if prev_word then None else phrase_at phrases s) with
          | Some n => remove_phrases (n - 1) (Str.is_word c) s'
          | None => String c (remove_phrases 0 (Str.is_word c) s')
          end
      end
  end.

(** [re.sub(r'[^\w]', '', word)] *)
Fixpoint clean_word (word : string) : string :=
  match word with
  | EmptyString => EmptyString
  | String c w => if Str.is_word c then String c (clean_word w) else clean_word w
  end.

Definition stop_words : list string :=
  ["the"; "a"; "an"; "and"; "or"; "but"; "in"; "on"; "at"; "to"; "for"; "of";
   "with"; "by"; "is"; "are"; "was"; "were"].

(** [_extract_confluence_search_terms] *)
Definition _extract_confluence_search_terms (user_query : string) : string :=
  let query_lower := remove_phrases 0 false (Str.lower user_query) in
  let words := split query_lower in
  let search_terms :=
    filter (fun w => Str.nonempty w && negb (existsb (String.eqb w) stop_words)
                     && (1 <? String.length w))
           (map clean_word words) in
  if is_nil search_terms then user_query
  else Str.join " " (firstn 5 search_terms).

End Terms.

(** The container of a page ([resultGlobalContainer]). *)
Record container := { container_title : option string }.

(** The ['content'] member of a hit. *)
Record content_ref := { content_id : option string }.

(** One hit of a document search. *)
Record confluence_hit := {
  hit_title : option string;
  resultGlobalContainer : jfield container;
  excerpt : option string;
  content : jfield content_ref
}.

Module Pages.

(** The "Remove duplicates" comprehension of strategy 2.  The membership
    test reads [get('id')], the insertion [get('id', '')]: a hit with no id
    is always kept. *)
Fixpoint dedupe (seen_ids : list string) (l : list confluence_hit)
    : outcome (list confluence_hit) :=
  match l with
  | [] => Returns []
  | r :: l' =>
      let keep (id : string) :=
        obind (dedupe (id :: seen_ids) l') (fun rest => Returns (r :: rest)) in
      match content r with
      | Null => Raises none_has_no_get
      | Missing => keep EmptyString
      | Present c =>
          match content_id c with
          | None => keep EmptyString
          | Some id =>
              if existsb (String.eqb id) seen_ids then dedupe seen_ids l'
              else keep id
          end
      end
  end.

Definition space_of (r : confluence_hit) : string :=
  match resultGlobalContainer r with
  | Present c => get_or "Unknown Space" (container_title c)
  | _ => "Unknown Space"
  end.

Definition excerpt_of (n : nat) (r : confluence_hit) : string :=
  if truthy (excerpt r) then Str.take n (str_of (excerpt r)) +++ "..."
  else "No excerpt available".

(** The numbered entries of [data_summary] in [_generate_confluence_response]. *)
Fixpoint entries (i : nat) (l : list confluence_hit) : string :=
  match l with
  | [] => EmptyString
  | r :: l' =>
      Str.of_nat (S i) +++ ". " +++ get_or "Untitled" (hit_title r)
      +++ " (in " +++ space_of r +++ ")" +++ Str.nl +++ "   " +++ excerpt_of 100 r
      +++ Str.nl +++ Str.nl +++ entries (S i) l'
  end.

Definition data_summary (confluence_results : list confluence_hit) : string :=
  if is_nil confluence_results then "No Confluence pages found matching your search."
  else "Found " +++ Str.of_nat (length confluence_results) +++ " Confluence pages:"
       +++ Str.nl +++ entries 0 (firstn 5 confluence_results).

(** The numbered entries of [_basic_confluence_response]. *)
Fixpoint basic_entries (i : nat) (l : list confluence_hit) : string :=
  match l with
  | [] => EmptyString
  | r :: l' =>
      "**" +++ Str.of_nat (S i) +++ ". " +++ get_or "Untitled" (hit_title r) +++ "**"
      +++ Str.nl +++ "   📍 Space: " +++ space_of r +++ Str.nl
      +++ "   📝 " +++ excerpt_of 150 r +++ Str.nl +++ Str.nl +++ basic_entries (S i) l'
  end.

(** [_basic_confluence_response] *)
Definition _basic_confluence_response (confluence_results : list confluence_hit)
    : string :=
  if is_nil confluence_results then
    "📚 **Confluence Search**" +++ Str.nl +++ Str.nl
    +++ "No documentation found in Confluence. This search will now fall back to Jira issues."
  else
    "📚 **Found " +++ Str.of_nat (length confluence_results) +++ " Confluence pages:**"
    +++ Str.nl +++ Str.nl
    +++ basic_entries 0 (firstn 5 confluence_results)
    +++ (if 5 <? length confluence_results
         then "... and " +++ Str.of_nat (length confluence_results - 5) +++ " more pages."
              +++ Str.nl
         else EmptyString)
    +++ Str.nl +++ "💡 **Suggestions:**" +++ Str.nl
    +++ "- Click on page titles to view full content" +++ Str.nl
    +++ "- Try more specific search terms for better results" +++ Str.nl
    +++ "- Check different spaces for related documentation" +++ Str.nl.

End Pages.

(* ================================================================== *)
(** ** Collaborators, engine state and the monad of the async methods *)
(* ================================================================== *)

(** What a completion request interpolates into its prompts (the fixed
    instruction text of each prompt is not spelled out). *)
Inductive chat_request : Type :=
| AnalyzeQuery (project_keys : list string) (context_str user_query : string)
| GenerateResponse (user_query intent : string) (jql : option jql_value)
    (data_summary : string)
| CompareEntities (user_query comparison_data : string)
| DescribePages (user_query data_summary : string).

(** The remote collaborators, over a world [W] that they may change; a call
    returns or raises.  [chat_completion] yields
    [response.choices[0].message.content.strip()].  Two library functions
    are carried along: [json_loads] is [json.loads] read into the analysis
    record, and [month_of] is the ISO date parse followed by
    [strftime('%Y-%m')] ([None] when it raises). *)
Record collaborators (W : Type) := {
  jira_search : search_request -> W -> outcome search_result * W;
  jira_get_projects : W -> outcome (list jira_project) * W;
  confluence_search : string -> nat -> W -> outcome (list confluence_hit) * W;
  chat_completion : chat_request -> W -> outcome string * W;
  json_loads : string -> outcome query_analysis;
  month_of : string -> option string
}.
Arguments jira_search {W} c _ _.
Arguments jira_get_projects {W} c _.
Arguments confluence_search {W} c _ _ _.
Arguments chat_completion {W} c _ _.
Arguments json_loads {W} c _.
Arguments month_of {W} c _.

(** One call of a collaborator, with what came back. *)
Inductive event : Type :=
| JiraSearch (req : search_request) (o : outcome search_result)
| JiraGetProjects (o : outcome (list jira_project))
| ConfluenceSearch (terms : string) (limit : nat) (o : outcome (list confluence_hit))
| ChatCompletion (req : chat_request) (o : outcome string).

(** The attributes [__init__] sets: whether each client is there. *)
Record engine := {
  jira_client : bool;
  confluence_client : bool;
  client : bool
}.

(** [__init__]: the completion client exists when the API key is set and
    is not the placeholder. *)
Definition init (jira_client_given confluence_client_given : bool)
    (api_key : option string) : engine :=
  {| jira_client := jira_client_given;
     confluence_client := confluence_client_given;
     client := truthy api_key
               && negb (Str.startswith "sk-your-actual" (str_of api_key)) |}.

(** What [process_query] returns in ['data']. *)
Inductive data_value : Type :=
| Issues (l : list issue)
| Entries (l : list comparison_entry)
| Hits (l : list confluence_hit).

(** The dictionary [process_query] returns. *)
Record query_result := {
  out_jql : jql_value;
  out_response : response_value;
  out_data : data_value;
  out_intent : option string;
  out_success : bool;
  out_source : option string;
  out_comparison_data : option (list comparison_entry)
}.

(** How a method ends: with a value, with an exception ([str(e)]), or out
    of fuel. *)
Inductive res (A : Type) : Type :=
| Val (a : A)
| Exc (msg : string)
| OutOfFuel.
Arguments Val {A} a.
Arguments Exc {A} msg.
Arguments OutOfFuel {A}.

Section Engine.

Context {W : Type}.

(** The mutable state: the world of the collaborators, the log of the
    calls made, and [self.conversation_context]. *)
Record state := {
  world : W;
  trace : list event;
  conversation_context : list context_entry
}.

Definition M (A : Type) : Type := state -> res A * state.

Definition ret {A : Type} (a : A) : M A := fun s => (Val a, s).

Definition bind {A B : Type} (m : M A) (k : A -> M B) : M B :=
  fun s =>
    match m s with
    | (Val a, s') => k a s'
    | (Exc msg, s') => (Exc msg, s')
    | (OutOfFuel, s') => (OutOfFuel, s')
    end.

Definition raise {A : Type} (msg : string) : M A := fun s => (Exc msg, s).

Definition out_of_fuel {A : Type} : M A := fun s => (OutOfFuel, s).

(** [try: m except Exception as e: handler(str(e))] *)
Definition try_except {A : Type} (m : M A) (handler : string -> M A) : M A :=
  fun s =>
    match m s with
    | (Exc msg, s') => handler msg s'
    | r => r
    end.

(** A pure computation that may raise, run inside a method. *)
Definition lift {A : Type} (o : outcome A) : M A :=
  match o with
  | Returns a => ret a
  | Raises msg => raise msg
  end.

(** [d[k]]: [KeyError] when the key is absent. *)
Definition getitem {A : Type} (k : string) (o : option A) : M A :=
  match o with
  | Some a => ret a
  | None => raise ("'" +++ k +++ "'")
  end.

Definition get_context : M (list context_entry) :=
  fun s => (Val (conversation_context s), s).

(** [self.add_context(...)] *)
Definition do_add_context {A : Type} (user_query jql : string) (results : list A)
    (response : response_value) : M unit :=
  fun s =>
    (Val tt,
     {| world := world s;
        trace := trace s;
        conversation_context :=
          add_context user_query jql results response (conversation_context s) |}).

(** A call of a collaborator: the world moves on, the call is logged, and
    the outcome is returned or raised. *)
Definition call {A : Type} (f : W -> outcome A * W) (log : outcome A -> event)
    : M A :=
  fun s =>
    let (o, w') := f (world s) in
    let s' := {| world := w';
                 trace := trace s ++ [log o];
                 conversation_context := conversation_context s |} in
    match o with
    | Returns a => (Val a, s')
    | Raises msg => (Exc msg, s')
    end.

End Engine.

Arguments state W : clear implicits.
Arguments M W A : clear implicits.

Declare Scope engine_scope.
Delimit Scope engine_scope with engine.
Notation "x <- m ;; k" := (bind m (fun x => k))
  (at level 61, m at next level, right associativity) : engine_scope.
Notation "m ;;; k" := (bind m (fun _ => k))
  (at level 61, right associativity) : engine_scope.

(* ================================================================== *)
(** ** PaginatedExecutor: [_execute_jql] *)
(* ================================================================== *)

(** [enhanced_fields] *)
Definition enhanced_fields : list string :=
  ["key"; "summary"; "status"; "assignee"; "priority"; "issuetype";
   "project"; "created"; "updated"; "description"; "reporter";
   "labels"; "components"; "fixVersions"; "duedate"].

(** [max_results_per_page] *)
Definition max_results_per_page : nat := 100.

(** [is_count_only] in [_execute_jql].  The intent tests come first and
    short-circuit; [jql.lower()] raises on a list. *)
Definition count_only_mode (jql : jql_value) (query_intent : option string)
    : outcome bool :=
  let intent_is (name : string) :=
    match query_intent with Some i => String.eqb i name | None => false end in
  if intent_is "count_items" || intent_is "story_count" || intent_is "issue_count"
  then Returns true
  else match jql with
       | JqlStr q =>
           Returns (Str.contains "count" (Str.lower q)
                    || Str.contains "group by" (Str.lower q))
       | JqlList _ => Raises "'list' object has no attribute 'lower'"
       end.

(** The defensive filter: an item is skipped when its key is absent (or is
    the text UNKNOWN) and it has no summary. *)
Definition has_essential_data (i : issue) : bool :=
  let key := get_or "UNKNOWN" (key i) in
  let summary :=
    match fields i with
    | Some f => get_or EmptyString (summary f)
    | None => EmptyString
    end in
  negb (String.eqb key "UNKNOWN" && negb (Str.nonempty summary)).

(** [total_count_from_api or len(filtered_results)] *)
Definition total_or (total_count_from_api : option nat) (n : nat) : nat :=
  match total_count_from_api with
  | Some t => if t =? 0 then n else t
  | None => n
  end.

(** The dictionary of the [except] branch of [_execute_jql]. *)
Definition error_result (msg : string) : fetch_result :=
  {| results := []; total_count := 0; retrieved_count := 0;
     is_count_only := false; error := Some msg |}.

(** The arguments of the [search] call of the full-fetch mode, for the page
    at offset [start_at]. *)
Definition page_request (jql : jql_value) (start_at : nat) : search_request :=
  {| req_jql := jql;
     req_max_results := max_results_per_page;
     req_fields := Some enhanced_fields;
     req_start_at := start_at |}.

(** The arguments of the [search] call of the count-only mode:
    [search(jql, max_results=0)]. *)
Definition count_request (jql : jql_value) : search_request :=
  {| req_jql := jql; req_max_results := 0; req_fields := None; req_start_at := 0 |}.

Section Methods.

Context {W : Type}.
Variable C : collaborators W.
Variable self : engine.

Local Open Scope engine_scope.

(** [await self.jira_client.search(...)]; with no Jira client the
    attribute access raises before any call is made. *)
Definition search (req : search_request) : M W search_result :=
  if jira_client self then call (jira_search C req) (JiraSearch req)
  else raise "'NoneType' object has no attribute 'search'".

(** [await self.jira_client.get_projects()] *)
Definition get_projects : M W (list jira_project) :=
  if jira_client self then call (jira_get_projects C) JiraGetProjects
  else raise "'NoneType' object has no attribute 'get_projects'".

(** [self.client.chat.completions.create(...)] and the read of its content. *)
Definition chat (req : chat_request) : M W string :=
  if client self then call (chat_completion C req) (ChatCompletion req)
  else raise "'NoneType' object has no attribute 'chat'".

(** [await self.confluence_client.search(terms, limit=...)] *)
Definition search_pages (terms : string) (limit : nat) : M W (list confluence_hit) :=
  if confluence_client self
  then call (confluence_search C terms limit) (ConfluenceSearch terms limit)
  else raise "'NoneType' object has no attribute 'search'".

(** The [while True] loop of the full-fetch mode.  It returns [all_issues]
    and [total_count_from_api] as they stand when the loop is left. *)
Fixpoint fetch_pages (fuel : nat) (jql : jql_value) (start_at : nat)
    (total_count_from_api : option nat) (all_issues : list issue)
    : M W (list issue * option nat) :=
  match fuel with
  | O => out_of_fuel
  | S fuel' =>
      search_result <- search (page_request jql start_at) ;;
      match search_result with
      | SRDict (Some issues) total =>
          let total_from_first_page :=
            match total_count_from_api with
            | None => get_or 0 total
            | Some t => t
            end in
          let has_more_pages := start_at + length issues <? total_from_first_page in
          if is_nil issues then ret (all_issues, Some total_from_first_page)
          else
            let all_issues := all_issues ++ issues in
            if negb has_more_pages || (length issues <? max_results_per_page)
            then ret (all_issues, Some total_from_first_page)
            else fetch_pages fuel' jql (start_at + max_results_per_page)
                   (Some total_from_first_page) all_issues
      | SRList issues =>
          let total_count_from_api := Some (length issues) in
          if is_nil issues then ret (all_issues, total_count_from_api)
          else ret (all_issues ++ issues, total_count_from_api)
      | _ => ret (all_issues, total_count_from_api)
      end
  end.

(** [_execute_jql] *)
Definition _execute_jql (fuel : nat) (jql : jql_value) (query_intent : option string)
    : M W fetch_result :=
  try_except
    (is_count_only <- lift (count_only_mode jql query_intent) ;;
     if is_count_only then
       search_result <- search (count_request jql) ;;
       match search_result with
       | SRDict _ total =>
           ret {| results := []; total_count := get_or 0 total;
                  retrieved_count := 0; is_count_only := true; error := None |}
       | _ =>
           ret {| results := []; total_count := 0;
                  retrieved_count := 0; is_count_only := true; error := None |}
       end
     else
       fetched <- fetch_pages fuel jql 0 None [] ;;
       let filtered_results := filter has_essential_data (fst fetched) in
       ret {| results := filtered_results;
              total_count := total_or (snd fetched) (length filtered_results);
              retrieved_count := length filtered_results;
              is_count_only := false;
              error := None |})
    (fun msg => ret (error_result msg)).

End Methods.

(* ================================================================== *)
(** ** QueryBuilder and the response generators as methods *)
(* ================================================================== *)

(** The dictionary [_fallback_processing] returns, read as an analysis (it
    is what [_analyze_query] returns when there is no Jira client). *)
Definition as_analysis (r : query_result) : query_analysis :=
  {| qa_intent := out_intent r;
     qa_jql := Some (out_jql r);
     qa_response_type := None;
     qa_entities := None |}.

(** [query_analysis.get("entities", {}).get(f"entity{i+1}", f"Entity {i+1}")] *)
Definition entity_label (query_analysis : query_analysis) (i : nat) : string :=
  let wanted := "entity" +++ Str.of_nat (i + 1) in
  match find (fun kv => String.eqb (fst kv) wanted)
             (get_or [] (qa_entities query_analysis)) with
  | Some kv => snd kv
  | None => "Entity " +++ Str.of_nat (i + 1)
  end.

Section Pipeline.

Context {W : Type}.
Variable C : collaborators W.
Variable self : engine.

Local Open Scope engine_scope.

(** [_fallback_processing] *)
Definition _fallback_processing (fuel : nat) (user_query : string) : M W query_result :=
  try_except
    (projects <- get_projects C self ;;
     let query_lower := Str.lower user_query in
     let specific_issue_key := KeyPattern.search user_query in
     let mentioned_project := Fallback.mentioned_project projects query_lower in
     let issue_type := Fallback.issue_type query_lower in
     let assignee := Fallback.assignee query_lower in
     let jql := Fallback.jql user_query projects in
     jql_result <- _execute_jql C self fuel (JqlStr jql) (Some "enhanced_fallback") ;;
     let results := results jql_result in
     response <- lift (_enhanced_fallback_response user_query specific_issue_key
                         mentioned_project issue_type assignee results) ;;
     ret {| out_jql := JqlStr jql;
            out_response := Text response;
            out_data := Issues results;
            out_intent := Some "enhanced_fallback";
            out_success := true;
            out_source := None;
            out_comparison_data := None |})
    (fun msg =>
     ret {| out_jql := JqlStr EmptyString;
            out_response :=
              Text ("I apologize, but I encountered an error processing your request: "
                    +++ msg +++ ". Please try rephrasing your question.");
            out_data := Issues [];
            out_intent := Some "error";
            out_success := false;
            out_source := None;
            out_comparison_data := None |}).

(** [_analyze_query] *)
Definition _analyze_query (fuel : nat) (user_query : string) : M W query_analysis :=
  if negb (jira_client self) then
    r <- _fallback_processing fuel user_query ;;
    ret (as_analysis r)
  else
    project_keys <- try_except
                      (projects <- get_projects C self ;;
                       ret (project_keys_of projects))
                      (fun _ => ret []) ;;
    conversation_context <- get_context ;;
    try_except
      (raw_response <- chat C self (AnalyzeQuery project_keys
                                      (context_str conversation_context) user_query) ;;
       lift (json_loads C raw_response))
      (fun _ => ret (analysis_fallback user_query project_keys)).

(** [_generate_response] *)
Definition _generate_response (user_query : string) (query_analysis : query_analysis)
    (results : list issue) (total_count retrieved_count : option nat)
    : M W response_value :=
  if negb (client self) then ret (Text (_basic_response results))
  else
    let summary := data_summary (month_of C) results user_query total_count
                     retrieved_count in
    try_except
      (ai_response <- chat C self
                        (GenerateResponse user_query
                           (get_or "unknown" (qa_intent query_analysis))
                           (qa_jql query_analysis) summary) ;;
       ret (Categorised ai_response
              (_determine_response_type user_query ai_response
                 (get_or EmptyString (qa_intent query_analysis)))))
      (fun _ => ret (Text (_basic_response results))).

(** [_generate_comparison_response] *)
Definition _generate_comparison_response (user_query : string)
    (query_analysis : query_analysis) (all_results : list comparison_entry)
    : M W string :=
  try_except
    (chat C self (CompareEntities user_query (comparison_data (month_of C) all_results)))
    (fun _ => ret (_fallback_comparison_response user_query all_results)).

(** The body of [for i, jql in enumerate(jql_list)] in [process_query]. *)
Definition compare_one (fuel : nat) (query_analysis : query_analysis)
    (i : nat) (jql : string) : M W comparison_entry :=
  try_except
    (jql_result <- _execute_jql C self fuel (JqlStr jql) (qa_intent query_analysis) ;;
     ret {| entity := entity_label query_analysis i;
            entry_jql := jql;
            entry_results := results jql_result;
            count := total_count jql_result;
            entry_retrieved_count := retrieved_count jql_result;
            entry_error := None |})
    (fun msg =>
     ret {| entity := entity_label query_analysis i;
            entry_jql := jql;
            entry_results := [];
            count := 0;
            entry_retrieved_count := 0;
            entry_error := Some msg |}).

(** The loop that fills [all_results]. *)
Fixpoint compare_all (fuel : nat) (query_analysis : query_analysis)
    (i : nat) (jql_list : list string) : M W (list comparison_entry) :=
  match jql_list with
  | [] => ret []
  | jql :: rest =>
      entry <- compare_one fuel query_analysis i jql ;;
      entries <- compare_all fuel query_analysis (S i) rest ;;
      ret (entry :: entries)
  end.

(** [_generate_confluence_response] *)
Definition _generate_confluence_response (user_query : string)
    (confluence_results : list confluence_hit) : M W string :=
  if negb (client self) then ret (Pages._basic_confluence_response confluence_results)
  else
    try_except
      (chat C self (DescribePages user_query (Pages.data_summary confluence_results)))
      (fun _ => ret (Pages._basic_confluence_response confluence_results)).

(** Strategy 2 of [_process_confluence_query]: the first two keywords. *)
Fixpoint search_keywords (keywords : list string) : M W (list confluence_hit) :=
  match keywords with
  | [] => ret []
  | keyword :: rest =>
      keyword_results <- search_pages C self keyword 5 ;;
      more <- search_keywords rest ;;
      ret (keyword_results ++ more)
  end.

(** [_process_confluence_query] *)
Definition _process_confluence_query (user_query : string) : M W query_result :=
  try_except
    (let search_terms := Terms._extract_confluence_search_terms user_query in
     found <- search_pages C self search_terms 10 ;;
     found <- (if is_nil found && (1 <? length (Terms.split search_terms)) then
                 by_keyword <- search_keywords (firstn 2 (Terms.split search_terms)) ;;
                 lift (Pages.dedupe [] (found ++ by_keyword))
               else ret found) ;;
     confluence_results <- (if is_nil found then
                              broader <- search_pages C self "insurance eligibility" 10 ;;
                              ret (found ++ broader)
                            else ret found) ;;
     response <- _generate_confluence_response user_query confluence_results ;;
     ret {| out_jql := JqlStr ("confluence_search:" +++ search_terms);
            out_response := Text response;
            out_data := Hits confluence_results;
            out_intent := Some "confluence_search";
            out_success := true;
            out_source := None;
            out_comparison_data := None |})
    (fun msg =>
     ret {| out_jql := JqlStr "confluence_error";
            out_response := Text ("I encountered an issue searching Confluence: " +++ msg);
            out_data := Hits [];
            out_intent := Some "confluence_error";
            out_success := false;
            out_source := None;
            out_comparison_data := None |}).

End Pipeline.

(* ================================================================== *)
(** ** QueryRouter and [process_query] *)
(* ================================================================== *)

Module Router.

Definition confluence_keywords : list string :=
  ["confluence"; "documentation"; "wiki"; "page"; "article"; "knowledge base";
   "doc"; "guide"; "manual"; "tutorial"].

Definition jira_keywords : list string :=
  ["issue"; "bug"; "task"; "story"; "epic"; "sprint"; "ticket"; "jira";
   "assignee"; "reporter"; "status"; "priority"].

Definition confluence_priority_keywords : list string :=
  ["confluence"; "wiki"; "document"; "insurance"; "eligibility"; "entertainment";
   "partners"; "lab"; "results"; "emr"; "careexpand"].

Definition confluence_check_phrases : list string :=
  ["check in confluence"; "check confluence"; "look in confluence";
   "search confluence"; "check wiki"; "look in wiki"; "search wiki";
   "check documentation"; "look in documentation"; "search documentation";
   "check docs"; "look in docs"; "search docs"].

Definition document_terms : list string :=
  ["results"; "report"; "analysis"; "findings"; "study"; "research"; "data";
   "information"; "content"].

Definition confluence_patterns : list string :=
  ["view lab results"; "lab results"; "test results"; "analysis results";
   "project overview"; "documentation"; "how to"; "getting started";
   "user guide"; "api documentation"; "technical specs"].

Definition has_confluence_priority (user_query : string) : bool :=
  Str.any_in confluence_priority_keywords (Str.lower user_query).

(** [should_search_confluence_first] *)
Definition should_search_confluence_first (user_query : string) : bool :=
  let query_lower := Str.lower user_query in
  let is_confluence_query := Str.any_in confluence_keywords query_lower in
  let is_jira_query := Str.any_in jira_keywords query_lower in
  let has_confluence_check := Str.any_in confluence_check_phrases query_lower in
  let has_document_terms := Str.any_in document_terms query_lower in
  let has_confluence_pattern := Str.any_in confluence_patterns query_lower in
  has_confluence_priority user_query
  || has_confluence_check
  || is_confluence_query
  || (has_confluence_pattern && negb is_jira_query)
  || (has_document_terms && negb is_jira_query
      && negb (Str.contains "=" query_lower) && negb (Str.contains "-" query_lower)).

(** [no_results_message] of the fallback after an empty document search. *)
Definition no_results_message (user_query : string) : string :=
  if has_confluence_priority user_query then
    "🔍 **Priority Confluence Search Fallback**" +++ Str.nl +++ Str.nl
    +++ "Since you mentioned '"
    +++ Str.join " or "
          (filter (fun kw => Str.contains kw (Str.lower user_query))
                  confluence_priority_keywords)
    +++ "', I searched Confluence first but found no results. No related Jira issues were found either for '"
    +++ user_query +++ "'."
  else
    "🔍 **Confluence Search Fallback**" +++ Str.nl +++ Str.nl
    +++ "No results found in either Confluence documentation or Jira issues for '"
    +++ user_query +++ "'.".

End Router.

(** [confluence_result.get('data', [])] *)
Definition hits_of (d : data_value) : list confluence_hit :=
  match d with Hits l => l | _ => [] end.

Section ProcessQuery.

Context {W : Type}.
Variable C : collaborators W.
Variable self : engine.

Local Open Scope engine_scope.

(** The tracker search after a document search that found nothing.  A
    non-empty tracker result reaches a call of [_generate_text_response],
    a method the class does not define: the attribute access raises and
    the [except] of this block answers. *)
Definition jira_fallback (fuel : nat) (user_query : string) : M W query_result :=
  try_except
    (query_analysis <- _analyze_query C self fuel user_query ;;
     jql <- getitem "jql" (qa_jql query_analysis) ;;
     jira_result <- _execute_jql C self fuel jql (qa_intent query_analysis) ;;
     if negb (is_nil (results jira_result)) then
       raise "'IntelligentAIEngine' object has no attribute '_generate_text_response'"
     else
       ret {| out_jql := jql;
              out_response := Text (Router.no_results_message user_query);
              out_data := Issues [];
              out_intent := qa_intent query_analysis;
              out_success := false;
              out_source := Some "no_results";
              out_comparison_data := None |})
    (fun msg =>
     ret {| out_jql := JqlStr "fallback_error";
            out_response :=
              Text ("🔍 **Confluence Search Fallback**" +++ Str.nl +++ Str.nl
                    +++ "No Confluence results found, and Jira fallback search failed: "
                    +++ msg);
            out_data := Issues [];
            out_intent := Some "fallback_error";
            out_success := false;
            out_source := Some "fallback_error";
            out_comparison_data := None |}).

(** The [try] block at the end of [process_query]: analysis, execution of
    one query or of a comparison batch, response, context update. *)
Definition tracker_flow (fuel : nat) (user_query : string) : M W query_result :=
  try_except
    (query_analysis <- _analyze_query C self fuel user_query ;;
     jql <- getitem "jql" (qa_jql query_analysis) ;;
     match jql with
     | JqlList jql_list =>
         all_results <- compare_all C self fuel query_analysis 0 jql_list ;;
         response <- _generate_comparison_response C self user_query query_analysis
                       all_results ;;
         let combined_jql := Str.join " | " jql_list in
         let flat_results := concat (map entry_results all_results) in
         do_add_context user_query combined_jql flat_results (Text response) ;;;
         intent <- getitem "intent" (qa_intent query_analysis) ;;
         ret {| out_jql := JqlStr combined_jql;
                out_response := Text response;
                out_data := Entries all_results;
                out_intent := Some intent;
                out_success := true;
                out_source := None;
                out_comparison_data := Some all_results |}
     | JqlStr q =>
         jql_result <- _execute_jql C self fuel (JqlStr q) (qa_intent query_analysis) ;;
         let results := results jql_result in
         response <- _generate_response C self user_query query_analysis results
                       (Some (total_count jql_result))
                       (Some (retrieved_count jql_result)) ;;
         do_add_context user_query q results response ;;;
         intent <- getitem "intent" (qa_intent query_analysis) ;;
         ret {| out_jql := JqlStr q;
                out_response := response;
                out_data := Issues results;
                out_intent := Some intent;
                out_success := true;
                out_source := None;
                out_comparison_data := None |}
     end)
    (fun _ => _fallback_processing C self fuel user_query).

(** [process_query] *)
Definition process_query (fuel : nat) (user_query : string) : M W query_result :=
  if negb (client self) then _fallback_processing C self fuel user_query
  else if Router.should_search_confluence_first user_query && confluence_client self
  then
    confluence_result <- _process_confluence_query C self user_query ;;
    if negb (is_nil (hits_of (out_data confluence_result)))
    then ret confluence_result
    else jira_fallback fuel user_query
  else tracker_flow fuel user_query.

End ProcessQuery.

(* ================================================================== *)
(** ** Vocabulary of the properties *)
(* ================================================================== *)

(** The log of a run of page requests: page number [k + i] is asked at offset
    [100 * (k + i)] and answered by the [i]-th page, an object with its
    issues and its declared total. *)
Fixpoint page_events (jql : jql_value) (k : nat)
    (pages : list (list issue * option nat)) : list event :=
  match pages with
  | [] => []
  | (issues, total) :: rest =>
      JiraSearch (page_request jql (max_results_per_page * k))
                 (Returns (SRDict (Some issues) total))
      :: page_events jql (S k) rest
  end.

(** The stop rule after page number [k]: the page is empty, or it is short,
    or its offset plus its size has reached the total [T]. *)
Definition page_stops (T k : nat) (issues : list issue) : bool :=
  is_nil issues
  || (length issues <? max_results_per_page)
  || (T <=? max_results_per_page * k + length issues).

(** Pagination ends exactly at the last page: every page before the last
    does not meet the stop rule, and the last one does. *)
Fixpoint stops_at_last (T k : nat) (pages : list (list issue * option nat)) : bool :=
  match pages with
  | [] => false
  | [p] => page_stops T k (fst p)
  | p :: rest => negb (page_stops T k (fst p)) && stops_at_last T (S k) rest
  end.

(** The total the loop keeps: the one it already has, else the total the
    first page declares (0 when it declares none). *)
Definition first_total (total_count_from_api : option nat)
    (pages : list (list issue * option nat)) : nat :=
  match total_count_from_api with
  | Some t => t
  | None =>
      match pages with
      | (_, total) :: _ => get_or 0 total
      | [] => 0
      end
  end.

(** The total a response declares, as the count-only mode reads it. *)
Definition declared_total (r : search_result) : nat :=
  match r with
  | SRDict _ total => get_or 0 total
  | _ => 0
  end.

(** The tracker answers every request with a page: an object that has an
    ['issues'] member. *)
Definition paged {W : Type} (C : collaborators W) : Prop :=
  forall req w, exists issues total,
    fst (jira_search C req w) = Returns (SRDict (Some issues) total).

Module Spec.

(** Mode selection in the words of the specification: the intent is one of
    the three count intents, or the query text contains "count" or
    "group by", case-insensitively. *)
Definition count_only (query : string) (intent : option string) : bool :=
  existsb (fun name => match intent with
                       | Some i => String.eqb i name
                       | None => false
                       end)
          ["count_items"; "story_count"; "issue_count"]
  || Str.contains "count" (Str.lower query)
  || Str.contains "group by" (Str.lower query).

End Spec.

(** A search call that raised. *)
Definition search_raised (msg : string) (e : event) : Prop :=
  exists req, e = JiraSearch req (Raises msg).

(** No search call of the log raised. *)
Definition no_search_raised (evs : list event) : Prop :=
  forall msg e, In e evs -> ~ search_raised msg e.

(** The value a method ended with, if it did. *)
Definition value_of {A : Type} (r : res A) : option A :=
  match r with Val a => Some a | _ => None end.

(** The offset and page size of a logged search call. *)
Definition asked (e : event) : option (nat * nat) :=
  match e with
  | JiraSearch req _ => Some (req_start_at req, req_max_results req)
  | _ => None
  end.

(** Collaborators whose tracker is [JiraClient.search] over the HTTP
    transport [http] (the client is taken as initialised). *)
Definition with_jira_client {W : Type}
    (http : search_request -> W -> JiraClient.http_reply * W)
    (C : collaborators W) : collaborators W :=
  {| jira_search := fun req w =>
       let (reply, w') := http req w in (Returns (JiraClient.search reply), w');
     jira_get_projects := jira_get_projects C;
     confluence_search := confluence_search C;
     chat_completion := chat_completion C;
     json_loads := json_loads C;
     month_of := month_of C |}.

(** A failure of the HTTP exchange as [JiraClient.search] sees it: the
    transport raises, the status is not 200, or the body does not parse. *)
Definition http_failed (reply : JiraClient.http_reply) : bool :=
  match reply with
  | JiraClient.TransportError _ => true
  | JiraClient.Response status_code body =>
      negb (status_code =? 200)
      || match body with
         | JiraClient.Unparsable _ => true
         | JiraClient.Parsed _ => false
         end
  end.

(** The first request [_execute_jql] makes for a query string. *)
Definition first_request (q : string) (intent : option string) : search_request :=
  if Spec.count_only q intent then count_request (JqlStr q)
  else page_request (JqlStr q) 0.

(** Every character of [s] satisfies [p]. *)
Fixpoint all_chars (p : ascii -> bool) (s : string) : bool :=
  match s with
  | EmptyString => true
  | String c s' => p c && all_chars p s'
  end.

(** A text of ASCII characters only.  On such a text [str.lower],
    [str.split] and the classes [\w], [\d], [\b] and [[A-Z]] of [re] are
    the ones of [Str], [Terms] and [KeyPattern]. *)
Definition ascii_text (s : string) : bool :=
  all_chars (fun c => nat_of_ascii c <? 128) s.

(** A text without lower-case letters. *)
Definition upper_case (s : string) : Prop := Str.upper s = s.

(** The shape of a ticket key: two or more letters, a hyphen, one or more
    digits. *)
Definition ticket_key (k : string) : Prop :=
  exists letters digits,
    k = letters +++ "-" +++ digits
    /\ 2 <= String.length letters /\ 1 <= String.length digits
    /\ all_chars Str.is_letter letters = true
    /\ all_chars Str.is_digit digits = true.



(** The order of a ranking: no later count is greater. *)
Definition count_desc (x y : string * nat) : Prop := snd y <= snd x.

Section Logs.

Context {W : Type}.

(** The log only grows: [s'] extends [s] by events that satisfy [P]. *)
Definition extends_by (P : event -> Prop) (s s' : state W) : Prop :=
  exists evs, trace s' = trace s ++ evs /\ Forall P evs.

(** Every call that [m] makes satisfies [P]. *)
Definition emits {A : Type} (P : event -> Prop) (m : M W A) : Prop :=
  forall s, extends_by P s (snd (m s)).

(** The first call that [m] makes satisfies [Q]. *)
Definition starts_with {A : Type} (Q : event -> Prop) (m : M W A) : Prop :=
  forall s, exists ev evs,
    trace (snd (m s)) = trace s ++ ev :: evs /\ Q ev.

End Logs.

(** A call of the document store. *)
Definition document_call (e : event) : bool :=
  match e with
  | ConfluenceSearch _ _ _ => true
  | _ => false
  end.

(** What a set of calls may contain: tracker calls, completion calls,
    document searches. *)
Definition allows_tracker (P : event -> Prop) : Prop :=
  (forall req o, P (JiraSearch req o)) /\ (forall o, P (JiraGetProjects o)).

Definition allows_chat (P : event -> Prop) : Prop :=
  forall req o, P (ChatCompletion req o).

Definition allows_documents (P : event -> Prop) : Prop :=
  forall terms limit o, P (ConfluenceSearch terms limit o).

(* ================================================================== *)
(** ** Concrete collaborators and inputs used by the examples *)
(* ================================================================== *)

Module Examples.

(** A turn as [process_query] hands it to [add_context]. *)
Record turn := {
  turn_query : string;
  turn_jql : string;
  turn_results : list issue;
  turn_response : response_value
}.

(** The entry [add_context] stores for a turn. *)
Definition entry_of (t : turn) : context_entry :=
  {| ctx_user_query := turn_query t;
     ctx_jql := turn_jql t;
     ctx_result_count := length (turn_results t);
     ctx_response := turn_response t;
     ctx_timestamp := "now" |}.

(** The context after the turns were appended, one after the other. *)
Definition replay (turns : list turn) (conversation_context : list context_entry)
    : list context_entry :=
  fold_left (fun ctx t => add_context (turn_query t) (turn_jql t) (turn_results t)
                            (turn_response t) ctx)
            turns conversation_context.

(** Turn number [n] of a conversation. *)
Definition numbered_turn (n : nat) : turn :=
  {| turn_query := "question " +++ Str.of_nat n;
     turn_jql := "project = P" +++ Str.of_nat n;
     turn_results := [];
     turn_response := Text ("answer " +++ Str.of_nat n) |}.

(** Turns 1 to [n]. *)
Definition turns_up_to (n : nat) : list turn := map numbered_turn (seq 1 n).

(** An issue with a key and an assignee. *)
Definition assigned (k : string) (who : string) : issue :=
  {| key := Some k;
     fields := Some {| summary := Some ("Summary of " +++ k);
                       status := Present {| name := Some "To Do" |};
                       issuetype := Present {| name := Some "Story" |};
                       priority := Null;
                       assignee := Present {| displayName := Some who |};
                       reporter := Missing;
                       created := Some "2024-03-05T10:00:00.000+0000";
                       updated := None;
                       project := Missing;
                       customfield_10016 := None |} |}.

(** Two issues of Alice and one of Bob. *)
Definition three_records : list issue :=
  [assigned "CCM-1" "Alice"; assigned "CCM-2" "Bob"; assigned "CCM-3" "Alice"].

(** A month parser for well-formed ISO dates: the first seven characters. *)
Definition iso_month (s : string) : option string :=
  if 7 <=? String.length s then Some (Str.take 7 s) else None.

(** An issue that has nothing but a key. *)
Definition bare (n : nat) : issue :=
  {| key := Some ("CCM-" +++ Str.of_nat n); fields := None |}.

(** The page of [n] issues numbered from [from], declaring [total]. *)
Definition page (from n total : nat) : outcome search_result :=
  Returns (SRDict (Some (map bare (seq from n))) (Some total)).

(** A scripted tracker: each [search] call takes the next outcome of the
    script; past its end the tracker answers with an empty page. *)
Definition scripted_search (req : search_request) (script : list (outcome search_result))
    : outcome search_result * list (outcome search_result) :=
  match script with
  | [] => (Returns JiraClient.empty_page, [])
  | o :: rest => (o, rest)
  end.

(** Collaborators around a scripted tracker, with the completion service
    and the JSON reader given. *)
Definition scripted_with (chat : chat_request -> outcome string)
    (loads : string -> outcome query_analysis)
    (hits : list confluence_hit)
    : collaborators (list (outcome search_result)) :=
  {| jira_search := scripted_search;
     jira_get_projects := fun w => (Returns [{| proj_key := Some "CCM" |}], w);
     confluence_search := fun _ _ w => (Returns hits, w);
     chat_completion := fun req w => (chat req, w);
     json_loads := loads;
     month_of := iso_month |}.

(** A page of the document store. *)
Definition handbook : confluence_hit :=
  {| hit_title := Some "Insurance eligibility handbook";
     resultGlobalContainer := Present {| container_title := Some "Benefits" |};
     excerpt := Some "Who is eligible and how to enrol.";
     content := Present {| content_id := Some "4711" |} |}.

(** A scripted tracker next to a document store that holds one page; the
    completion service is down. *)
Definition with_documents : collaborators (list (outcome search_result)) :=
  scripted_with (fun _ => Raises "completion service unavailable")
                (fun _ => Raises "Expecting value") [handbook].

(** A scripted tracker with no completion service and no documents. *)
Definition scripted : collaborators (list (outcome search_result)) :=
  scripted_with (fun _ => Raises "completion service unavailable")
                (fun _ => Raises "Expecting value") [].

(** The paginator of the pagination example: pages of 100, 100 and 37
    records, the first declaring 237. *)
Definition three_pages : list (outcome search_result) :=
  [page 0 100 237; page 100 100 237; page 200 37 237].

(** An engine with every client configured, and one without the
    completion client. *)
Definition full_engine : engine :=
  {| jira_client := true; confluence_client := true; client := true |}.

Definition no_nlu_engine : engine :=
  {| jira_client := true; confluence_client := true; client := false |}.

(** The state at the start of a session over the world [w]. *)
Definition fresh {W : Type} (w : W) : state W :=
  {| world := w; trace := []; conversation_context := [] |}.

(** Collaborators that hold nothing and whose completion service is down. *)
Definition inert {W : Type} : collaborators W :=
  {| jira_search := fun _ w => (Returns JiraClient.empty_page, w);
     jira_get_projects := fun w => (Returns [], w);
     confluence_search := fun _ _ w => (Returns [], w);
     chat_completion := fun _ w => (Raises "completion service unavailable", w);
     json_loads := fun _ => Raises "Expecting value";
     month_of := iso_month |}.

(** A tracker that holds [n] issues and serves them by offset and page
    size, declaring [n] on every page. *)
Definition backlog (n : nat) : collaborators unit :=
  {| jira_search := fun req w =>
       (Returns (SRDict (Some (firstn (req_max_results req)
                                 (skipn (req_start_at req) (map bare (seq 0 n)))))
                        (Some n)), w);
     jira_get_projects := fun w => (Returns [], w);
     confluence_search := fun _ _ w => (Returns [], w);
     chat_completion := fun _ w => (Raises "completion service unavailable", w);
     json_loads := fun _ => Raises "Expecting value";
     month_of := iso_month |}.

(** A transport on which every request times out. *)
Definition failing_http (req : search_request) (w : unit) : JiraClient.http_reply * unit :=
  (JiraClient.TransportError "timed out", w).

(** The analysis of a two-person comparison, as the completion service
    would return it. *)
Definition comparison_analysis : query_analysis :=
  {| qa_intent := Some "assignee_comparison";
     qa_jql := Some (JqlList ["assignee = " +++ Str.quoted "Alice";
                              "assignee = " +++ Str.quoted "Bob"]);
     qa_response_type := Some "comparison";
     qa_entities := Some [("entity1", "Alice"); ("entity2", "Bob");
                          ("comparison_type", "assignee")] |}.

(** Collaborators for a comparison: the completion service answers the
    analysis request and fails afterwards. *)
Definition comparing : collaborators (list (outcome search_result)) :=
  scripted_with
    (fun req => match req with
                | AnalyzeQuery _ _ _ => Returns "comparison"
                | _ => Raises "completion service unavailable"
                end)
    (fun _ => Returns comparison_analysis) [].

End Examples.

(* ================================================================== *)
(** ** [JiraClient]: retries and projects ([backend/jira_client.py]) *)
(* ================================================================== *)

Module JiraRest.

(** [s.rstrip('/')] *)
Fixpoint rstrip_slash (s : string) : string :=
  match s with
  | EmptyString => EmptyString
  | String c s' =>
      let r := rstrip_slash s' in
      if (nat_of_ascii c =? 47) && negb (Str.nonempty r) then EmptyString
      else String c r
  end.

(** [_url]: [f"{self.cfg.base_url.rstrip('/')}{path}"] *)
Definition _url (base_url path : string) : string := rstrip_slash base_url +++ path.

(** What the client does on the wire: a GET with what came of it, or a
    sleep of so many seconds. *)
Inductive step (R : Type) : Type :=
| Get (url : string) (o : outcome R)
| Sleep (seconds : nat).
Arguments Get {R} url o.
Arguments Sleep {R} seconds.

Section Retry.

Context {W R : Type}.

(** The body of the [try] in [_get_with_retry]: [self._client.get(url,
    headers=...)] followed by [response.raise_for_status()]; it yields the
    response or raises. *)
Variable get : string -> W -> outcome R * W.

(** [for attempt in range(max_retries)], with [remaining] rounds to go.
    The state is the world and the log of the steps taken.  When the loop
    ends without a [return] the method returns [None]. *)
Fixpoint attempts (url : string) (max_retries remaining : nat) (st : W * list (step R))
    : outcome (option R) * (W * list (step R)) :=
  match remaining with
  | O => (Returns None, st)
  | S remaining' =>
      let attempt := max_retries - remaining in
      let (o, w') := get url (fst st) in
      let log := snd st ++ [Get url o] in
      match o with
      | Returns response => (Returns (Some response), (w', log))
      | Raises e =>
          if attempt =? max_retries - 1 then (Raises e, (w', log))
          else attempts url max_retries remaining' (w', log ++ [Sleep 1])
      end
  end.

(** [_get_with_retry] *)
Definition _get_with_retry (url : string) (max_retries : nat) (st : W * list (step R))
    : outcome (option R) * (W * list (step R)) :=
  attempts url max_retries max_retries st.

End Retry.

(** The body of the answer of the project endpoint as [response.json()]
    reads it: a list of projects, an object (with or without ['values']),
    another JSON value, or text that does not parse. *)
Inductive projects_body : Type :=
| BodyList (projects : list jira_project)
| BodyObject (values : option (list jira_project))
| BodyOther
| BodyUnparsable (msg : string).

Section Projects.

Context {W : Type}.
Variable get : string -> W -> outcome projects_body * W.

(** [get_projects]: every exception of the [try] ends in [return []]. *)
Definition get_projects (base_url : string) (st : W * list (step projects_body))
    : list jira_project * (W * list (step projects_body)) :=
  let url := _url base_url "/rest/api/3/project" in
  let (o, st') := _get_with_retry get url 3 st in
  (match o with
   | Returns (Some (BodyList projects)) => projects
   | Returns (Some (BodyObject values)) => get_or [] values
   | _ => []
   end, st').

(** [get_project_keys] *)
Definition get_project_keys (base_url : string) (st : W * list (step projects_body))
    : list string * (W * list (step projects_body)) :=
  let (projects, st') := get_projects base_url st in
  (map (fun project => get_or EmptyString (proj_key project))
       (filter (fun project => truthy (proj_key project)) projects), st').

End Projects.

(** The log of a run of attempts with the outcomes [outs]: a sleep of one
    second stands between two attempts. *)
Fixpoint retry_log {R : Type} (url : string) (outs : list (outcome R)) : list (step R) :=
  match outs with
  | [] => []
  | [o] => [Get url o]
  | o :: rest => Get url o :: Sleep 1 :: retry_log url rest
  end.

(** An attempt that raised. *)
Definition raised {A : Type} (o : outcome A) : Prop := exists e, o = Raises e.

End JiraRest.

(* ================================================================== *)
(** ** The chat endpoint ([backend/main.py], [chat_endpoint]) *)
(* ================================================================== *)

Module Chat.

(** [ChatMessage] *)
Record ChatMessage := { role : string; content : string }.

(** [ChatRequest].  A value of [cachedProjects] is carried as the text the
    f-string puts for it ([str(project_data)]), in the order of the
    dictionary. *)
Record ChatRequest := {
  message : string;
  messages : list ChatMessage;
  projectContext : option string;
  cachedProjects : option (list (string * string))
}.

(** The members of [app_state] that the endpoint reads and writes.  The
    engine object carries its conversation context, which is the
    [conversation_context] of the state of the run. *)
Record AppState := {
  jira_client : bool;
  confluence_client : bool;
  ai_engine : option engine
}.

(** What the endpoint returns: [{"response": ...}] or [{"error": ...}]. *)
Inductive reply : Type :=
| Response (response : response_value)
| Error (error : string).

(** [s.lstrip()] *)
Fixpoint lstrip (s : string) : string :=
  match s with
  | EmptyString => EmptyString
  | String c s' => if Terms.is_space c then lstrip s' else s
  end.

(** [s.rstrip()] *)
Fixpoint rstrip (s : string) : string :=
  match s with
  | EmptyString => EmptyString
  | String c s' =>
      let r := rstrip s' in
      if Terms.is_space c && negb (Str.nonempty r) then EmptyString else String c r
  end.

(** [s.strip()] *)
Definition strip (s : string) : string := rstrip (lstrip s).

(** The texts the endpoint adds to the context of the engine before it
    processes the message: the last five messages of the request, the
    project context, the cached projects. *)
Definition seeds (request : ChatRequest) : list string :=
  map content (last_n 5 (messages request))
  ++ (if truthy (projectContext request)
      then ["Project context: " +++ str_of (projectContext request)] else [])
  ++ map (fun kv => "Cached project " +++ fst kv +++ ": " +++ snd kv)
         (get_or [] (cachedProjects request)).

(** [app_state.ai_engine.add_context(text, "", [], "")], text by text. *)
Definition seed_context (texts : list string) (conversation_context : list context_entry)
    : list context_entry :=
  fold_left (fun ctx text => add_context text EmptyString (@nil issue)
                               (Text EmptyString) ctx)
            texts conversation_context.

(** The engine after the "Initialize AI components lazily" step: the one
    there is, or a new one when there is a Jira client to build it on
    ([api_key] is the value of [OPENAI_API_KEY]). *)
Definition engine_for (api_key : option string) (app : AppState) : option engine :=
  match ai_engine app with
  | Some e => Some e
  | None =>
      if jira_client app then Some (init true (confluence_client app) api_key)
      else None
  end.

Section Endpoint.

Context {W : Type}.
Variable C : collaborators W.
Variable api_key : option string.

Local Open Scope engine_scope.

(** The context of the engine the endpoint works with: a new engine starts
    with an empty one. *)
Definition with_engine_context (app : AppState) : M W unit :=
  fun s =>
    (Val tt,
     {| world := world s;
        trace := trace s;
        conversation_context :=
          match ai_engine app with
          | Some _ => conversation_context s
          | None => []
          end |}).

(** [self.add_context] for each seed. *)
Definition do_seed (texts : list string) : M W unit :=
  fun s =>
    (Val tt,
     {| world := world s;
        trace := trace s;
        conversation_context := seed_context texts (conversation_context s) |}).

(** [chat_endpoint]: the reply, and [app_state] as the call leaves it.  A
    dictionary of [process_query] has no ['content'] member, so the reply is
    built from its ['response']. *)
Definition chat_endpoint (app : AppState) (fuel : nat) (request : ChatRequest)
    : M W (reply * AppState) :=
  let app' := {| jira_client := jira_client app;
                 confluence_client := confluence_client app;
                 ai_engine := engine_for api_key app |} in
  try_except
    (let message := strip (message request) in
     match engine_for api_key app with
     | None =>
         ret (Error "Jira client is not properly configured. Please check your Jira connection.",
              app')
     | Some self =>
         with_engine_context app ;;;
         do_seed (seeds request) ;;;
         ai_result <- process_query C self fuel message ;;
         ret (Response (out_response ai_result), app')
     end)
    (fun msg => ret (Error ("Failed to get response: " +++ msg), app')).

End Endpoint.

(** The entry that seeding adds for a text. *)
Definition seed_entry (text : string) : context_entry :=
  {| ctx_user_query := text;
     ctx_jql := EmptyString;
     ctx_result_count := 0;
     ctx_response := Text EmptyString;
     ctx_timestamp := "now" |}.

End Chat.

(* ================================================================== *)
(** ** Vocabulary of the further properties *)
(* ================================================================== *)

Section Runs.

Context {W : Type}.

(** The method [f], run on fuel, ends: from some amount of fuel on it ends
    the same way, and not for lack of fuel. *)
Definition settles {A : Type} (f : nat -> M W A) : Prop :=
  forall s, exists n out,
    fst out <> OutOfFuel /\ forall fuel, n <= fuel -> f fuel s = out.

(** How [m] changes [self.conversation_context]. *)
Definition turns {A : Type}
    (R : list context_entry -> list context_entry -> Prop) (m : M W A) : Prop :=
  forall s, R (conversation_context s) (conversation_context (snd (m s))).

(** [m] leaves [self.conversation_context] as it is. *)
Definition quiet {A : Type} (m : M W A) : Prop := turns eq m.

End Runs.


(** A breakdown that counts [n] records, each category once. *)
Definition counts (n : nat) (d : breakdown) : Prop :=
  total_items_of d = n /\ NoDup (map fst d).

(** A breakdown that counts at most [n] records, each category once. *)
Definition counts_at_most (n : nat) (d : breakdown) : Prop :=
  total_items_of d <= n /\ NoDup (map fst d).

(** The dictionary of the [except] branch of [_fallback_processing]. *)
Definition fallback_error (msg : string) : query_result :=
  {| out_jql := JqlStr EmptyString;
     out_response :=
       Text ("I apologize, but I encountered an error processing your request: "
             +++ msg +++ ". Please try rephrasing your question.");
     out_data := Issues [];
     out_intent := Some "error";
     out_success := false;
     out_source := None;
     out_comparison_data := None |}.

(** An intent that asks for a count only: one of the three names that
    [_execute_jql] tests before it looks at the query. *)
Definition count_intent (intent : option string) : bool :=
  match intent with
  | Some i => existsb (String.eqb i) ["count_items"; "story_count"; "issue_count"]
  | None => false
  end.

(** [r.get('content', {}).get('id')] on a hit whose content is not [null]. *)
Definition hit_id (r : confluence_hit) : option string :=
  match content r with
  | Present c => content_id c
  | _ => None
  end.

(** The ids that the hits of a list carry. *)
Definition hit_ids (l : list confluence_hit) : list string :=
  flat_map (fun r => match hit_id r with Some id => [id] | None => [] end) l.


(** Whether the last character of a text is a word character (so that [\b]
    does not hold between the text and a letter that follows it). *)
Fixpoint ends_in_word (s : string) : bool :=
  match s with
  | EmptyString => false
  | String c EmptyString => Str.is_word c
  | String _ s' => ends_in_word s'
  end.


(** The state after [self.add_context(...)]. *)
Definition recorded {W : Type} (user_query jql : string) (results : list issue)
    (response : response_value) (s : state W) : state W :=
  {| world := world s;
     trace := trace s;
     conversation_context :=
       add_context user_query jql results response (conversation_context s) |}.

(* ================================================================== *)
(** ** Further inputs used by the examples *)
(* ================================================================== *)

Module Samples.

(** An issue nobody is assigned to: Jira sends [null] for the assignee. *)
Definition unassigned (k : string) : issue :=
  {| key := Some k;
     fields := Some {| summary := Some ("Summary of " +++ k);
                       status := Present {| name := Some "To Do" |};
                       issuetype := Present {| name := Some "Bug" |};
                       priority := Present {| name := Some "High" |};
                       assignee := Null;
                       reporter := Missing;
                       created := Some "2024-03-05T10:00:00.000+0000";
                       updated := None;
                       project := Missing;
                       customfield_10016 := None |} |}.


(** An analysis that names a query and no intent. *)
Definition analysis_without_intent : query_analysis :=
  {| qa_intent := None;
     qa_jql := Some (JqlStr "project = CCM");
     qa_response_type := Some "list";
     qa_entities := None |}.

(** Collaborators whose completion service answers the analysis request
    with that analysis and fails afterwards. *)
Definition forgetful : collaborators (list (outcome search_result)) :=
  Examples.scripted_with
    (fun req => match req with
                | AnalyzeQuery _ _ _ => Returns "analysis"
                | _ => Raises "completion service unavailable"
                end)
    (fun _ => Returns analysis_without_intent) [].

End Samples.

(* ================================================================== *)
(** * Properties *)
(* ================================================================== *)

(** ** Strings *)

Lemma prefix_app (n s : string) : String.prefix n (n +++ s) = true.
Proof.
  induction n as [|c n IH]; simpl.
  - destruct s; reflexivity.
  - destruct (ascii_dec c c) as [_|Hc]; [exact IH | contradiction].
Qed.

Lemma contains_skip (n p s : string) :
  Str.contains n s = true -> Str.contains n (p +++ s) = true.
Proof.
  intros H. induction p as [|c p IH]; simpl; [exact H|].
  rewrite IH. apply orb_true_r.
Qed.

Lemma contains_prefix (n s : string) :
  String.prefix n s = true -> Str.contains n s = true.
Proof.
  intros H. destruct s; cbn [Str.contains]; rewrite H; reflexivity.
Qed.

(** A text occurs in every text built around it. *)
Lemma contains_middle (n p s : string) : Str.contains n (p +++ n +++ s) = true.
Proof.
  apply contains_skip, contains_prefix, prefix_app.
Qed.

Lemma append_empty_r (s : string) : s +++ EmptyString = s.
Proof. induction s as [|c s IH]; simpl; [|rewrite IH]; reflexivity. Qed.

Lemma append_assoc (a b c : string) : (a +++ b) +++ c = a +++ b +++ c.
Proof. induction a as [|x a IH]; simpl; [|rewrite IH]; reflexivity. Qed.

(** Every part of a joined text occurs in it. *)
Lemma contains_join (sep x : string) (parts : list string) :
  In x parts -> Str.contains x (Str.join sep parts) = true.
Proof.
  unfold Str.join.
  induction parts as [|y parts IH]; intros Hin; [destruct Hin|].
  destruct Hin as [->|Hin].
  - destruct parts as [|z parts]; cbn [String.concat].
    + rewrite <- (append_empty_r x) at 2. apply (contains_middle x EmptyString).
    + apply (contains_middle x EmptyString).
  - destruct parts as [|z parts]; [destruct Hin|]. cbn [String.concat].
    rewrite <- append_assoc. apply contains_skip. apply IH. exact Hin.
Qed.

(** ** ResultAggregator *)

Lemma lookup_bump_same (k : string) (d : breakdown) :
  lookup k (bump k d) = Some (S (get_or 0 (lookup k d))).
Proof.
  induction d as [|[k' n] d IH]; simpl.
  - rewrite String.eqb_refl. reflexivity.
  - destruct (String.eqb k k') eqn:E; simpl; rewrite E; [reflexivity | exact IH].
Qed.

Lemma lookup_bump_other (k k' : string) (d : breakdown) :
  k <> k' -> lookup k (bump k' d) = lookup k d.
Proof.
  intros Hne. induction d as [|[k'' n] d IH]; simpl.
  - destruct (String.eqb_spec k k'); [contradiction | reflexivity].
  - destruct (String.eqb_spec k' k'') as [->|H']; simpl.
    + destruct (String.eqb_spec k k''); [contradiction | reflexivity].
    + rewrite IH. reflexivity.
Qed.

(** Counting the names of a list one by one gives each name its number of
    occurrences. *)
Lemma lookup_fold_bump (names : list string) (k : string) :
  lookup k (fold_left (fun d x => bump x d) names [])
  = (let n := count_occ string_dec names k in
     if n =? 0 then None else Some n).
Proof.
  induction names as [|x names IH] using rev_ind; [reflexivity|].
  rewrite fold_left_app, count_occ_app. cbn [fold_left count_occ].
  destruct (string_dec x k) as [->|Hne].
  - rewrite lookup_bump_same, IH. cbn zeta.
    destruct (count_occ string_dec names k) as [|c]; simpl.
    + reflexivity.
    + replace (c + 1) with (S c) by lia. reflexivity.
  - rewrite lookup_bump_other by congruence. rewrite IH. cbn zeta.
    rewrite Nat.add_0_r. reflexivity.
Qed.

Section AnalysisFacts.

Variable month_of : string -> option string.

Lemma analyse_fold (results : list issue) (a : analysis) :
  let a' := fold_left (analyse_item month_of) results a in
  total_items a' = total_items a
  /\ retrieved_items a' = retrieved_items a
  /\ by_assignee a'
     = fold_left (fun d x => bump x d)
         (map (fun i => item_assignee (extract i)) results) (by_assignee a).
Proof.
  revert a. induction results as [|i results IH]; intros a; cbn zeta.
  - repeat split.
  - cbn [fold_left map]. destruct (IH (analyse_item month_of a i)) as (H1 & H2 & H3).
    rewrite H1, H2, H3. repeat split.
Qed.

(** [by_assignee] maps each name to the number of records that carry it. *)
Lemma by_assignee_counts (results : list issue) (t r : nat) (who : string) :
  lookup who (by_assignee (analyse month_of results t r))
  = (let n := count_occ string_dec
                (map (fun i => item_assignee (extract i)) results) who in
     if n =? 0 then None else Some n).
Proof.
  unfold analyse.
  destruct (analyse_fold results
              {| total_items := t; retrieved_items := r;
                 by_assignee := []; by_reporter := []; by_status := []; by_type := [];
                 by_priority := []; by_created_date := []; by_updated_date := [];
                 items_list := [] |}) as (_ & _ & H).
  cbn zeta in H. rewrite H. apply lookup_fold_bump.
Qed.

(** The summary of a non-empty result list is built around its count line. *)
Lemma summary_count_line (results : list issue) (user_query : string)
    (total_count retrieved_count : option nat) (ctx : option issue_context) :
  results <> [] ->
  let t := get_or (length results) total_count in
  let r := get_or (length results) retrieved_count in
  let line :=
    if t =? r
    then "Found " +++ Str.of_nat t +++ " total items (complete dataset analyzed):"
    else "Showing segregations for " +++ Str.of_nat r +++ " issues (out of "
         +++ Str.of_nat t +++ " total)." in
  exists rest,
    _create_detailed_analysis month_of results user_query total_count
      retrieved_count ctx
    = Str.join Str.nl (context_lines ctx ++ [line] ++ rest).
Proof.
  intros Hne. cbn zeta.
  unfold _create_detailed_analysis.
  destruct results as [|i results]; [contradiction|]. cbn [is_nil].
  unfold summary_parts. eexists. f_equal. f_equal. f_equal.
  unfold count_line, analyse.
  match goal with
  | |- context [fold_left (analyse_item month_of) ?l ?a] =>
      destruct (analyse_fold l a) as (H1 & H2 & _)
  end.
  cbn zeta in H1, H2. rewrite H1, H2. reflexivity.
Qed.

End AnalysisFacts.
(** ** ConversationContext *)

Section ContextFacts.

Variable A : Type.

Lemma last_n_all (n : nat) (l : list A) :
  length l <= n -> last_n n l = l.
Proof.
  intros H. unfold last_n.
  replace (length l - n) with 0 by lia. reflexivity.
Qed.

Lemma length_last_n (n : nat) (l : list A) :
  length (last_n n l) = Nat.min n (length l).
Proof.
  unfold last_n. rewrite length_skipn. lia.
Qed.

Lemma tl_skipn (k : nat) (l : list A) : tl (skipn k l) = skipn (S k) l.
Proof.
  revert l. induction k as [|k IH]; intros [|x l]; cbn [skipn tl].
  - reflexivity.
  - destruct l; reflexivity.
  - destruct k; reflexivity.
  - apply IH.
Qed.

(** Appending to the last [n] and dropping the head when [n] are held is
    taking the last [n] of the longer list. *)
Lemma last_n_snoc (n : nat) (l : list A) (x : A) :
  0 < n ->
  (if n <=? length (last_n n l) then tl (last_n n l) else last_n n l) ++ [x]
  = last_n n (l ++ [x]).
Proof.
  intros Hn. rewrite length_last_n.
  destruct (Nat.leb_spec n (Nat.min n (length l))) as [H|H].
  - unfold last_n. rewrite tl_skipn, length_app. simpl.
    replace (length l + 1 - n) with (S (length l - n)) by lia.
    rewrite skipn_app.
    replace (S (length l - n) - length l) with 0 by lia.
    reflexivity.
  - rewrite last_n_all by lia.
    rewrite last_n_all; [reflexivity|].
    rewrite length_app. simpl. lia.
Qed.

Lemma last_n_last_n (m n : nat) (l : list A) :
  m <= n -> last_n m (last_n n l) = last_n m l.
Proof.
  intros H. unfold last_n at 1. rewrite length_last_n.
  unfold last_n. rewrite skipn_skipn. f_equal. lia.
Qed.

End ContextFacts.

(** One [add_context]: the new entry goes last, and the oldest entry leaves
    exactly when ten were held. *)
Lemma add_context_step (user_query jql : string) (results : list issue)
    (response : response_value) (ctx : list context_entry) :
  add_context user_query jql results response ctx
  = (if 10 <=? length ctx then tl ctx else ctx)
    ++ [Examples.entry_of {| Examples.turn_query := user_query;
                             Examples.turn_jql := jql;
                             Examples.turn_results := results;
                             Examples.turn_response := response |}].
Proof.
  unfold add_context, Examples.entry_of. cbn [Examples.turn_query Examples.turn_jql
    Examples.turn_results Examples.turn_response].
  rewrite length_app. cbn [length].
  destruct (Nat.ltb_spec 10 (length ctx + 1)) as [H|H];
    destruct (Nat.leb_spec 10 (length ctx)) as [H'|H']; try lia.
  - destruct ctx; [simpl in H'; lia | reflexivity].
  - reflexivity.
Qed.

Lemma replay_snoc (turns : list Examples.turn) (t : Examples.turn)
    (ctx : list context_entry) :
  Examples.replay (turns ++ [t]) ctx
  = add_context (Examples.turn_query t) (Examples.turn_jql t)
      (Examples.turn_results t) (Examples.turn_response t) (Examples.replay turns ctx).
Proof.
  unfold Examples.replay. rewrite fold_left_app. reflexivity.
Qed.

(** From the empty context, the buffer holds the last ten turns appended. *)
Lemma replay_last_ten (turns : list Examples.turn) :
  Examples.replay turns [] = last_n 10 (map Examples.entry_of turns).
Proof.
  induction turns as [|t turns IH] using rev_ind; [reflexivity|].
  rewrite replay_snoc, add_context_step, IH, map_app. cbn [map].
  destruct t; cbn [Examples.turn_query Examples.turn_jql Examples.turn_results
    Examples.turn_response].
  apply last_n_snoc. lia.
Qed.

(** C9.  The conversation context is a FIFO buffer of capacity 10:
    [add_context] puts the new turn last and evicts exactly the oldest entry
    when ten are held; starting from the empty context the buffer never
    holds more than 10 entries and holds the last 10 turns appended; the
    window [_analyze_query] reads is the last 3 turns, oldest first.  After
    11 appends the buffer holds turns 2 to 11 and the window is turns 9, 10,
    11 in that order. *)
Theorem conversation_context_bounded_fifo :
  (forall user_query jql (results : list issue) response ctx,
      add_context user_query jql results response ctx
      = (if 10 <=? length ctx then tl ctx else ctx)
        ++ [Examples.entry_of {| Examples.turn_query := user_query;
                                 Examples.turn_jql := jql;
                                 Examples.turn_results := results;
                                 Examples.turn_response := response |}])
  /\ (forall turns,
         length (Examples.replay turns []) <= 10
         /\ Examples.replay turns [] = last_n 10 (map Examples.entry_of turns)
         /\ recent_context (Examples.replay turns [])
            = last_n 3 (map Examples.entry_of turns))
  /\ Examples.replay (Examples.turns_up_to 11) []
     = map Examples.entry_of (map Examples.numbered_turn (seq 2 10))
  /\ recent_context (Examples.replay (Examples.turns_up_to 11) [])
     = map Examples.entry_of (map Examples.numbered_turn [9; 10; 11]).
Proof.
  split; [exact add_context_step|].
  split; [|split; reflexivity].
  intros turns. rewrite replay_last_ten. repeat split.
  - rewrite length_last_n. lia.
  - unfold recent_context. apply last_n_last_n. lia.
Qed.

(** C6 (as stated) fails on the empty record sequence: the guard at the top
    of [_create_detailed_analysis] answers "No items found." whatever the
    declared and retrieved totals are, so a partial dataset (10 declared, 0
    retrieved) is not reported as partial, and a complete one (0 of 0) is not
    reported as complete. *)
Lemma summarize_empty_counterexample :
  let partial := _create_detailed_analysis Examples.iso_month [] "how many?"
                   (Some 10) (Some 0) None in
  let complete := _create_detailed_analysis Examples.iso_month [] "how many?"
                    (Some 0) (Some 0) None in
  partial = "No items found."
  /\ Str.contains "Showing segregations for 0 issues (out of 10 total)." partial = false
  /\ complete = "No items found."
  /\ Str.contains "Found 0 total items (complete dataset analyzed):" complete = false.
Proof. repeat split. Qed.

(** C6 (amended).  [by_assignee] maps each assignee display name to the
    number of records that carry it, a record without an assignee (no
    fields, no assignee member, a null assignee, or an assignee without a
    display name) counting under "Unassigned".  For every non-empty record
    sequence the summary carries, right after the optional reporter lines,
    the count line: "Found T total items (complete dataset analyzed):" when
    the declared total T equals the retrieved count R, and "Showing
    segregations for R issues (out of T total)." otherwise; for the empty
    sequence the summary is "No items found." whatever T and R.  For the three
    records of Alice, Bob and Alice, [by_assignee] is Alice 2, Bob 1; the
    summary is reported complete for T = 3 and partial for T = 10. *)
Theorem summarize_by_assignee_and_completeness :
  forall month_of : string -> option string,
  (forall results t r who,
      lookup who (by_assignee (analyse month_of results t r))
      = (let n := count_occ string_dec
                    (map (fun i => item_assignee (extract i)) results) who in
         if n =? 0 then None else Some n))
  /\ (forall i,
         match fields i with
         | Some f =>
             match assignee f with
             | Present p => displayName p = None
             | _ => True
             end
         | None => True
         end ->
         item_assignee (extract i) = "Unassigned")
  /\ (forall results user_query total retrieved ctx,
         results <> [] ->
         let line :=
           if total =? retrieved
           then "Found " +++ Str.of_nat total
                +++ " total items (complete dataset analyzed):"
           else "Showing segregations for " +++ Str.of_nat retrieved
                +++ " issues (out of " +++ Str.of_nat total +++ " total)." in
         let out := _create_detailed_analysis month_of results user_query
                      (Some total) (Some retrieved) ctx in
         (exists rest, out = Str.join Str.nl (context_lines ctx ++ [line] ++ rest))
         /\ Str.contains line out = true)
  /\ (forall user_query total retrieved ctx,
         _create_detailed_analysis month_of [] user_query total retrieved ctx
         = "No items found.")
  /\ by_assignee (analyse Examples.iso_month Examples.three_records 3 3)
     = [("Alice", 2); ("Bob", 1)]
  /\ Str.startswith "Found 3 total items (complete dataset analyzed):"
       (_create_detailed_analysis Examples.iso_month Examples.three_records
          "who works on what?" (Some 3) (Some 3) None) = true
  /\ Str.startswith "Showing segregations for 3 issues (out of 10 total)."
       (_create_detailed_analysis Examples.iso_month Examples.three_records
          "who works on what?" (Some 10) (Some 3) None) = true.
Proof.
  intros month_of. split; [apply by_assignee_counts|].
  split.
  { intros [k [f|]]; cbn [fields]; [|reflexivity].
    unfold extract; cbn [fields item_assignee].
    destruct (assignee f) as [| |p]; cbn [guarded_display_name]; try reflexivity.
    intros H. rewrite H. reflexivity. }
  split; [|split; [reflexivity | repeat split]].
  intros results user_query total retrieved ctx Hne. cbn zeta.
  destruct (summary_count_line month_of results user_query (Some total)
              (Some retrieved) ctx Hne) as [rest Hrest].
  cbn [get_or] in Hrest. split; [exists rest; exact Hrest|].
  rewrite Hrest. apply contains_join.
  apply in_or_app. right. left. reflexivity.
Qed.

Lemma summarize_by_assignee_and_completeness_witness :
  Examples.three_records <> []
  /\ Str.contains "Showing segregations for 3 issues (out of 10 total)."
       (_create_detailed_analysis Examples.iso_month Examples.three_records
          "who works on what?" (Some 10) (Some 3) None) = true.
Proof.
  split; [discriminate|].
  destruct (summarize_by_assignee_and_completeness Examples.iso_month)
    as (_ & _ & H & _).
  refine (proj2 (H Examples.three_records "who works on what?" 10 3 None _)).
  discriminate.
Defined.

(** ** Comparison summaries *)

Lemma insert_by_count_perm (x : string * nat) (l : breakdown) :
  Permutation (insert_by_count x l) (x :: l).
Proof.
  induction l as [|y l IH]; cbn [insert_by_count]; [reflexivity|].
  destruct (snd y <=? snd x); [reflexivity|].
  rewrite IH. apply perm_swap.
Qed.

Lemma insert_by_count_sorted (x : string * nat) (l : breakdown) :
  Sorted count_desc l -> Sorted count_desc (insert_by_count x l).
Proof.
  induction l as [|y l IH]; intros Hs; cbn [insert_by_count].
  - repeat constructor.
  - destruct (Nat.leb_spec (snd y) (snd x)) as [Hle|Hlt].
    + constructor; [exact Hs|]. constructor. exact Hle.
    + inversion Hs as [|? ? Hs' Hhd]; subst.
      constructor; [apply IH; exact Hs'|].
      destruct l as [|z l]; cbn [insert_by_count].
      * constructor. unfold count_desc. lia.
      * destruct (snd z <=? snd x).
        -- constructor. unfold count_desc. lia.
        -- inversion Hhd; subst. constructor. assumption.
Qed.

Lemma sorted_by_count_perm (d : breakdown) : Permutation (sorted_by_count d) d.
Proof.
  induction d as [|x d IH]; cbn [sorted_by_count fold_right]; [reflexivity|].
  rewrite insert_by_count_perm. constructor. exact IH.
Qed.

Lemma sorted_by_count_sorted (d : breakdown) : Sorted count_desc (sorted_by_count d).
Proof.
  induction d as [|x d IH]; cbn [sorted_by_count fold_right]; [constructor|].
  apply insert_by_count_sorted. exact IH.
Qed.

Lemma total_items_of_perm (d d' : breakdown) :
  Permutation d d' -> total_items_of d = total_items_of d'.
Proof.
  unfold total_items_of.
  induction 1 as [|x l l' _ IH|x y l|l l' l'' _ IH1 _ IH2]; cbn [fold_right].
  - reflexivity.
  - rewrite IH. reflexivity.
  - lia.
  - congruence.
Qed.

(** *** The arithmetic of the percentages *)

Section Binary64Facts.

Import Binary64.
Local Open Scope Z_scope.

(** [nearest_even num den] is within one half of [num / den]. *)
Lemma nearest_even_spec (num den : Z) :
  0 < den -> 2 * Z.abs (nearest_even num den * den - num) <= den.
Proof.
  intros Hd. unfold nearest_even.
  pose proof (Z.div_mod num den ltac:(lia)) as Hdm.
  pose proof (Z.mod_pos_bound num den Hd) as Hr.
  set (q := num / den) in *. set (r := num mod den) in *.
  destruct (Z.ltb_spec (2 * r) den); [lia|].
  destruct (Z.ltb_spec den (2 * r)); [lia|].
  destruct (Z.even q); lia.
Qed.

Lemma nearest_even_le (num den q : Z) :
  0 < den -> num <= q * den -> nearest_even num den <= q.
Proof.
  intros Hd Hle. unfold nearest_even.
  pose proof (Z.div_mod num den ltac:(lia)) as Hdm.
  pose proof (Z.mod_pos_bound num den Hd) as Hr.
  set (q' := num / den) in *. set (r := num mod den) in *.
  assert (Hq : q' <= q) by nia.
  assert (Hq' : q' = q -> r = 0) by nia.
  destruct (Z.ltb_spec (2 * r) den); [lia|].
  destruct (Z.ltb_spec den (2 * r)); [lia|].
  destruct (Z.even q'); lia.
Qed.

Lemma nearest_even_nonneg (num den : Z) :
  0 <= num -> 0 < den -> 0 <= nearest_even num den.
Proof.
  intros Hn Hd. unfold nearest_even.
  pose proof (Z.div_pos num den Hn Hd) as Hq.
  destruct (2 * (num mod den) <? den); [lia|].
  destruct (den <? 2 * (num mod den)); [lia|].
  destruct (Z.even (num / den)); lia.
Qed.

Lemma floor_log2_le (num den l0 : Z) :
  Z.log2 num - Z.log2 den <= l0 -> floor_log2 num den <= l0.
Proof.
  intros H. unfold floor_log2.
  destruct (_ <? _); lia.
Qed.

Lemma pow2_nonpos (e : Z) : e <= 0 -> pow2 e = 1.
Proof. intros H. unfold pow2. rewrite Z.max_l by lia. reflexivity. Qed.

Lemma pow2_opp (e : Z) : e <= 0 -> pow2 (- e) = 2 ^ (- e).
Proof. intros H. unfold pow2. rewrite Z.max_r by lia. reflexivity. Qed.

Lemma pow2_ge (k n : Z) : 0 <= k <= n -> 2 ^ k <= 2 ^ n.
Proof. intros H. apply Z.pow_le_mono_r; lia. Qed.

(** The three roundings of a share together: the quotient [m1 / A] of
    [c / T], the product [m2 / B] with 100, and the tenths [t]. *)
Lemma share_error (c T m1 m2 t A B : Z) :
  0 < T -> 2 ^ 52 <= A -> 2 ^ 46 <= B ->
  2 * Z.abs (m1 * T - c * A) <= T ->
  2 * Z.abs (m2 * A - 100 * m1 * B) <= A ->
  2 * Z.abs (t * B - 10 * m2) <= B ->
  2 ^ 42 * Z.abs (t * T - 1000 * c) <= (2 ^ 41 + 1) * T.
Proof.
  intros HT HA HB H1 H2 H3.
  assert (E52 : 2 ^ 52 = 4503599627370496) by reflexivity.
  assert (E46 : 2 ^ 46 = 70368744177664) by reflexivity.
  assert (E41 : 2 ^ 41 = 2199023255552) by reflexivity.
  assert (E42 : 2 ^ 42 = 2 * 2199023255552) by reflexivity.
  rewrite E52 in HA. rewrite E46 in HB. rewrite E42, E41.
  clear E52 E46 E41 E42.
  assert (HA' : 0 < A) by lia. assert (HB' : 0 < B) by lia.
  set (X := t * T - 1000 * c) in *.
  set (u := t * B - 10 * m2) in *.
  set (v := m2 * A - 100 * m1 * B) in *.
  set (w := m1 * T - c * A) in *.
  assert (HX : X * (A * B) = u * (T * A) + 10 * T * v + 1000 * B * w)
    by (unfold X, u, v, w; ring).
  assert (HAB : 0 < A * B) by (apply Z.mul_pos_pos; assumption).
  assert (HTA : 0 < T * A) by (apply Z.mul_pos_pos; assumption).
  assert (Hu : 2 * (Z.abs u * (T * A)) <= B * (T * A)).
  { rewrite Z.mul_assoc. apply Z.mul_le_mono_nonneg_r; lia. }
  assert (Hv : 2 * (10 * T * Z.abs v) <= 10 * T * A).
  { replace (2 * (10 * T * Z.abs v)) with (10 * T * (2 * Z.abs v)) by ring.
    apply Z.mul_le_mono_nonneg_l; lia. }
  assert (Hw : 2 * (1000 * B * Z.abs w) <= 1000 * B * T).
  { replace (2 * (1000 * B * Z.abs w)) with (1000 * B * (2 * Z.abs w)) by ring.
    apply Z.mul_le_mono_nonneg_l; lia. }
  assert (Habs : Z.abs X * (A * B)
                 <= Z.abs u * (T * A) + 10 * T * Z.abs v + 1000 * B * Z.abs w).
  { rewrite <- (Z.abs_eq (A * B)) at 1 by lia. rewrite <- Z.abs_mul, HX.
    eapply Z.le_trans; [apply Z.abs_triangle|].
    apply Z.add_le_mono.
    - eapply Z.le_trans; [apply Z.abs_triangle|].
      apply Z.add_le_mono.
      + rewrite Z.abs_mul, (Z.abs_eq (T * A)) by lia. lia.
      + rewrite Z.abs_mul, (Z.abs_eq (10 * T)) by lia. lia.
    - rewrite Z.abs_mul, (Z.abs_eq (1000 * B)) by lia. lia. }
  assert (Hsmall : 2199023255552 * (10 * A + 1000 * B) <= A * B).
  { assert (Ha : 70368744177664 * A <= A * B)
      by (rewrite (Z.mul_comm A B); apply Z.mul_le_mono_nonneg_r; lia).
    assert (Hb : 4503599627370496 * B <= A * B)
      by (apply Z.mul_le_mono_nonneg_r; lia).
    lia. }
  apply (Z.mul_le_mono_pos_r _ _ (A * B) HAB).
  set (P := A * B) in *.
  replace (B * (T * A)) with (T * P) in Hu by (unfold P; ring).
  replace (10 * T * A) with (T * (10 * A)) in Hv by ring.
  replace (1000 * B * T) with (T * (1000 * B)) in Hw by ring.
  assert (Hq : T * (2199023255552 * (10 * A + 1000 * B)) <= T * P)
    by (apply Z.mul_le_mono_nonneg_l; lia).
  set (a := Z.abs X * P) in *.
  replace (2 * 2199023255552 * Z.abs X * P) with (2 * 2199023255552 * a)
    by (unfold a; ring).
  replace ((2199023255552 + 1) * T * P) with (2199023255552 * (T * P) + T * P) by ring.
  replace (T * (2199023255552 * (10 * A + 1000 * B)))
    with (2199023255552 * (T * (10 * A) + T * (1000 * B))) in Hq by ring.
  lia.
Qed.

(** A product with a number below 128 adds at most 6 to the exponent. *)
Lemma log2_mul_pow2 (m k n : Z) :
  0 < m -> 0 <= k -> 0 <= n -> m <= n * 2 ^ k -> n < 2 ^ 7 -> Z.log2 m - k <= 6.
Proof.
  intros Hm Hk Hn Hle Hlt.
  assert (H : m < 2 ^ (k + 7)).
  { rewrite Z.pow_add_r by lia.
    assert (0 < 2 ^ k) by (apply Z.pow_pos_nonneg; lia).
    eapply Z.le_lt_trans; [exact Hle|].
    rewrite (Z.mul_comm (2 ^ k)). apply Z.mul_lt_mono_pos_r; assumption. }
  apply Z.log2_lt_pow2 in H; lia.
Qed.

(** The tenths printed for [c] of [T] against the exact [1000 * c / T]. *)
Lemma binary64_share_accuracy (c T : Z) :
  0 <= c <= T -> 0 < T ->
  let t := tenths (mul (div c T) 100) in
  0 <= t /\ 2 ^ 42 * Z.abs (t * T - 1000 * c) <= (2 ^ 41 + 1) * T.
Proof.
  intros Hc HT. cbn zeta.
  unfold div, round.
  destruct (Z.eqb_spec c 0) as [->|Hc0].
  { vm_compute tenths. split; [lia|].
    replace (0 * T - 1000 * 0) with 0 by ring.
    change (Z.abs 0) with 0. rewrite Z.mul_0_r.
    apply Z.mul_nonneg_nonneg; [discriminate | lia]. }
  set (e1 := floor_log2 c T - 52).
  assert (He1 : e1 <= -52).
  { unfold e1. pose proof (floor_log2_le c T 0) as H.
    pose proof (Z.log2_le_mono c T) as Hm. lia. }
  rewrite (pow2_nonpos e1), (pow2_opp e1) by lia.
  set (A := 2 ^ (- e1)).
  assert (HA : 2 ^ 52 <= A) by (apply pow2_ge; lia).
  assert (HA0 : 0 < A) by (apply Z.pow_pos_nonneg; lia).
  rewrite Z.mul_1_r.
  set (m1 := nearest_even (c * A) T).
  pose proof (nearest_even_spec (c * A) T HT) as H1. fold m1 in H1.
  assert (Hm1 : 0 <= m1) by (apply nearest_even_nonneg; nia).
  assert (Hm1' : m1 <= A).
  { unfold m1. apply nearest_even_le; [exact HT|]. rewrite (Z.mul_comm A T).
    apply Z.mul_le_mono_nonneg_r; lia. }
  unfold mul. cbn [mantissa exponent].
  rewrite (pow2_nonpos e1), (pow2_opp e1) by lia. fold A.
  rewrite Z.mul_1_r. unfold round.
  destruct (Z.eqb_spec (m1 * 100) 0) as [Hz|Hnz].
  { assert (m1 = 0) by lia. subst m1.
    unfold tenths. cbn [mantissa exponent]. cbn.
    split; [lia|].
    apply (share_error c T (nearest_even (c * A) T) 0 0 A (2 ^ 46)); lia. }
  set (e2 := floor_log2 (m1 * 100) A - 52).
  assert (He2 : e2 <= -46).
  { unfold e2. pose proof (floor_log2_le (m1 * 100) A 6) as H.
    assert (Z.log2 (m1 * 100) - Z.log2 A <= 6); [|lia].
    unfold A at 1. rewrite Z.log2_pow2 by lia.
    apply (log2_mul_pow2 _ _ 100); lia. }
  rewrite (pow2_nonpos e2), (pow2_opp e2) by lia.
  set (B := 2 ^ (- e2)).
  assert (HB : 2 ^ 46 <= B) by (apply pow2_ge; lia).
  assert (HB0 : 0 < B) by (apply Z.pow_pos_nonneg; lia).
  rewrite Z.mul_1_r.
  set (m2 := nearest_even (m1 * 100 * B) A).
  pose proof (nearest_even_spec (m1 * 100 * B) A HA0) as H2. fold m2 in H2.
  assert (Hm2 : 0 <= m2) by (apply nearest_even_nonneg; nia).
  unfold tenths. cbn [mantissa exponent].
  rewrite (pow2_nonpos e2), (pow2_opp e2) by lia. fold B.
  rewrite Z.mul_1_r.
  pose proof (nearest_even_spec (m2 * 10) B HB0) as H3.
  split; [apply nearest_even_nonneg; lia|].
  apply (share_error c T m1 m2 _ A B); try assumption.
  - replace (100 * m1 * B) with (m1 * 100 * B) by ring. exact H2.
  - replace (10 * m2) with (m2 * 10) by ring. exact H3.
Qed.

Lemma pow2_pos (k : Z) : 0 < pow2 k.
Proof. unfold pow2. apply Z.pow_pos_nonneg; lia. Qed.

Lemma pow2_of_nonneg (k : Z) : 0 <= k -> pow2 k = 2 ^ k.
Proof. intros H. unfold pow2. rewrite Z.max_r by lia. reflexivity. Qed.

(** [2 ^ (c - k) * 2 ^ k = 2 ^ c], with the negative powers on the other side. *)
Lemma pow2_shift (c k : Z) :
  0 <= c -> pow2 (c - k) * pow2 k = 2 ^ c * (pow2 (k - c) * pow2 (- k)).
Proof.
  intros Hc.
  destruct (Z.le_gt_cases k 0) as [Hk|Hk].
  - rewrite (pow2_nonpos k), (pow2_nonpos (k - c)), (pow2_of_nonneg (c - k)),
      (pow2_of_nonneg (- k)) by lia.
    rewrite Z.mul_1_r, Z.mul_1_l, <- Z.pow_add_r by lia. f_equal; lia.
  - destruct (Z.le_gt_cases c k) as [Hck|Hck].
    + rewrite (pow2_nonpos (c - k)), (pow2_nonpos (- k)), (pow2_of_nonneg k),
        (pow2_of_nonneg (k - c)) by lia.
      rewrite Z.mul_1_r, Z.mul_1_l, <- Z.pow_add_r by lia. f_equal; lia.
    + rewrite (pow2_nonpos (k - c)), (pow2_nonpos (- k)), (pow2_of_nonneg k),
        (pow2_of_nonneg (c - k)) by lia.
      rewrite !Z.mul_1_r, <- Z.pow_add_r by lia. f_equal; lia.
Qed.

(** [floor_log2 num den] is the exponent of the power of two at or below
    [num / den]. *)
Lemma floor_log2_spec (num den : Z) :
  0 < num -> 0 < den ->
  let f := floor_log2 num den in
  den * pow2 f <= num * pow2 (- f)
  /\ num * pow2 (- (f + 1)) < den * pow2 (f + 1).
Proof.
  intros Hn Hd. cbn zeta. unfold floor_log2.
  pose proof (Z.log2_spec num Hn) as [Ha1 Ha2].
  pose proof (Z.log2_spec den Hd) as [Hb1 Hb2].
  pose proof (Z.log2_nonneg num) as Ha0. pose proof (Z.log2_nonneg den) as Hb0.
  set (a := Z.log2 num) in *. set (b := Z.log2 den) in *.
  rewrite !Z.pow_succ_r in * by lia.
  assert (Hlow : den * pow2 (a - b - 1) <= num * pow2 (- (a - b - 1))).
  { destruct (Z.le_gt_cases (a - b - 1) 0) as [H|H].
    - rewrite (pow2_nonpos (a - b - 1)), (pow2_of_nonneg (- (a - b - 1))) by lia.
      assert (E : 2 ^ a * 2 ^ (- (a - b - 1)) = 2 * 2 ^ b).
      { rewrite <- Z.pow_add_r by lia. replace (a + - (a - b - 1)) with (Z.succ b) by lia.
        apply Z.pow_succ_r; lia. }
      assert (0 < 2 ^ (- (a - b - 1))) by (apply Z.pow_pos_nonneg; lia).
      assert (2 ^ a * 2 ^ (- (a - b - 1)) <= num * 2 ^ (- (a - b - 1)))
        by (apply Z.mul_le_mono_nonneg_r; lia).
      lia.
    - rewrite (pow2_nonpos (- (a - b - 1))), (pow2_of_nonneg (a - b - 1)) by lia.
      assert (E : 2 * 2 ^ b * 2 ^ (a - b - 1) = 2 ^ a).
      { rewrite <- Z.pow_succ_r, <- Z.pow_add_r by lia. f_equal; lia. }
      assert (0 < 2 ^ (a - b - 1)) by (apply Z.pow_pos_nonneg; lia).
      assert (den * 2 ^ (a - b - 1) <= 2 * 2 ^ b * 2 ^ (a - b - 1))
        by (apply Z.mul_le_mono_nonneg_r; lia).
      lia. }
  assert (Hhigh : num * pow2 (- (a - b + 1)) < den * pow2 (a - b + 1)).
  { destruct (Z.le_gt_cases (a - b + 1) 0) as [H|H].
    - rewrite (pow2_nonpos (a - b + 1)), (pow2_of_nonneg (- (a - b + 1))) by lia.
      assert (E : 2 * 2 ^ a * 2 ^ (- (a - b + 1)) = 2 ^ b).
      { rewrite <- Z.pow_succ_r, <- Z.pow_add_r by lia. f_equal; lia. }
      assert (0 < 2 ^ (- (a - b + 1))) by (apply Z.pow_pos_nonneg; lia).
      assert (num * 2 ^ (- (a - b + 1)) < 2 * 2 ^ a * 2 ^ (- (a - b + 1)))
        by (apply Z.mul_lt_mono_pos_r; lia).
      lia.
    - rewrite (pow2_nonpos (- (a - b + 1))), (pow2_of_nonneg (a - b + 1)) by lia.
      assert (E : 2 ^ b * 2 ^ (a - b + 1) = 2 * 2 ^ a).
      { rewrite <- Z.pow_add_r by lia. replace (b + (a - b + 1)) with (Z.succ a) by lia.
        apply Z.pow_succ_r; lia. }
      assert (0 < 2 ^ (a - b + 1)) by (apply Z.pow_pos_nonneg; lia).
      assert (2 ^ b * 2 ^ (a - b + 1) <= den * 2 ^ (a - b + 1))
        by (apply Z.mul_le_mono_nonneg_r; lia).
      lia. }
  destruct (Z.ltb_spec (num * pow2 (- (a - b))) (den * pow2 (a - b))) as [Hlt|Hge].
  - split; [exact Hlow|]. replace (a - b - 1 + 1) with (a - b) by lia. exact Hlt.
  - split; [exact Hge | exact Hhigh].
Qed.

Lemma nearest_even_ge (num den q : Z) :
  0 < den -> q * den <= num -> q <= nearest_even num den.
Proof.
  intros Hd Hle. unfold nearest_even.
  pose proof (Z.div_mod num den ltac:(lia)) as Hdm.
  pose proof (Z.mod_pos_bound num den Hd) as Hr.
  set (q' := num / den) in *. set (r := num mod den) in *.
  assert (Hq : q <= q') by nia.
  destruct (Z.ltb_spec (2 * r) den); [lia|].
  destruct (Z.ltb_spec den (2 * r)); [lia|].
  destruct (Z.even q'); lia.
Qed.

(** [round] gives the nearest number with a mantissa of 53 bits. *)
Lemma round_spec (num den : Z) :
  0 < num -> 0 < den ->
  let x := round num den in
  2 ^ 52 <= mantissa x <= 2 ^ 53
  /\ 2 * Z.abs (mantissa x * (den * pow2 (exponent x)) - num * pow2 (- exponent x))
     <= den * pow2 (exponent x).
Proof.
  intros Hn Hd. cbn zeta. unfold round.
  destruct (Z.eqb_spec num 0) as [->|_]; [lia|].
  cbn [mantissa exponent].
  destruct (floor_log2_spec num den Hn Hd) as [Hlow Hhigh]. cbn zeta in Hlow, Hhigh.
  set (f := floor_log2 num den) in *. set (e := f - 52).
  pose proof (pow2_pos e) as He. pose proof (pow2_pos (- e)) as He'.
  pose proof (pow2_pos f) as Hf. pose proof (pow2_pos (- f)) as Hf'.
  pose proof (pow2_pos (f + 1)) as Hg. pose proof (pow2_pos (- (f + 1))) as Hg'.
  assert (HD : 0 < den * pow2 e) by (apply Z.mul_pos_pos; assumption).
  assert (H52 : 2 ^ 52 * (den * pow2 e) <= num * pow2 (- e)).
  { pose proof (pow2_shift 52 f ltac:(lia)) as E.
    replace (52 - f) with (- e) in E by (unfold e; lia). fold e in E.
    apply (Z.mul_le_mono_pos_r _ _ (pow2 (- f)) Hf').
    replace (2 ^ 52 * (den * pow2 e) * pow2 (- f))
      with (den * (2 ^ 52 * (pow2 e * pow2 (- f)))) by ring.
    rewrite <- E.
    replace (den * (pow2 (- e) * pow2 f)) with (den * pow2 f * pow2 (- e)) by ring.
    replace (num * pow2 (- e) * pow2 (- f)) with (num * pow2 (- f) * pow2 (- e)) by ring.
    apply Z.mul_le_mono_nonneg_r; lia. }
  assert (H53 : num * pow2 (- e) <= 2 ^ 53 * (den * pow2 e)).
  { pose proof (pow2_shift 53 (f + 1) ltac:(lia)) as E.
    replace (53 - (f + 1)) with (- e) in E by (unfold e; lia).
    replace (f + 1 - 53) with e in E by (unfold e; lia).
    apply (Z.mul_le_mono_pos_r _ _ (pow2 (- (f + 1))) Hg').
    replace (2 ^ 53 * (den * pow2 e) * pow2 (- (f + 1)))
      with (den * (2 ^ 53 * (pow2 e * pow2 (- (f + 1))))) by ring.
    rewrite <- E.
    replace (den * (pow2 (- e) * pow2 (f + 1)))
      with (den * pow2 (f + 1) * pow2 (- e)) by ring.
    replace (num * pow2 (- e) * pow2 (- (f + 1)))
      with (num * pow2 (- (f + 1)) * pow2 (- e)) by ring.
    apply Z.mul_le_mono_nonneg_r; lia. }
  split; [split|].
  - apply nearest_even_ge; [exact HD | exact H52].
  - apply nearest_even_le; [exact HD | exact H53].
  - apply nearest_even_spec. exact HD.
Qed.

End Binary64Facts.

(** The share that is printed is the exact share, up to the rounding to one
    decimal and the error of the two floating-point operations. *)
Lemma share_tenths_accuracy (count total : nat) :
  count <= total -> 0 < total ->
  (2 ^ 42 * Z.abs (Z.of_nat (share_tenths count total) * Z.of_nat total
                   - 1000 * Z.of_nat count)
   <= (2 ^ 41 + 1) * Z.of_nat total)%Z.
Proof.
  intros Hc Ht. unfold share_tenths.
  destruct (binary64_share_accuracy (Z.of_nat count) (Z.of_nat total)) as [H0 H];
    [lia | lia |].
  cbn zeta in H0, H. rewrite Z2Nat.id by exact H0. exact H.
Qed.

Lemma ranked_total (all_results : list comparison_entry) :
  total_items_of (ranked all_results)
  = fold_right (fun r acc => count r + acc) 0 all_results.
Proof.
  unfold ranked. rewrite (total_items_of_perm _ _ (sorted_by_count_perm _)).
  unfold total_items_of.
  induction all_results as [|r l IH]; [reflexivity|].
  cbn [map fold_right snd]. rewrite IH. reflexivity.
Qed.

Lemma count_le_total (d : breakdown) (ec : string * nat) :
  In ec d -> snd ec <= total_items_of d.
Proof.
  unfold total_items_of.
  induction d as [|x d IH]; intros Hin; [destruct Hin|].
  cbn [fold_right]. destruct Hin as [->|Hin]; [lia|].
  specialize (IH Hin). lia.
Qed.

(** ** The monad of the methods *)

Section MonadFacts.

Context {W : Type}.

Lemma extends_by_refl (P : event -> Prop) (s : state W) : extends_by P s s.
Proof. exists []. rewrite app_nil_r. split; [reflexivity | constructor]. Qed.

Lemma extends_by_trans (P : event -> Prop) (s1 s2 s3 : state W) :
  extends_by P s1 s2 -> extends_by P s2 s3 -> extends_by P s1 s3.
Proof.
  intros (e1 & H1 & F1) (e2 & H2 & F2). exists (e1 ++ e2).
  rewrite H2, H1, app_assoc. split; [reflexivity|].
  apply Forall_app. split; assumption.
Qed.

Lemma emits_ret {A : Type} (P : event -> Prop) (a : A) : emits P (@ret W A a).
Proof. intros s. apply extends_by_refl. Qed.

Lemma emits_raise {A : Type} (P : event -> Prop) (msg : string) :
  emits P (@raise W A msg).
Proof. intros s. apply extends_by_refl. Qed.

Lemma emits_out_of_fuel {A : Type} (P : event -> Prop) : emits P (@out_of_fuel W A).
Proof. intros s. apply extends_by_refl. Qed.

Lemma emits_bind {A B : Type} (P : event -> Prop) (m : M W A) (k : A -> M W B) :
  emits P m -> (forall a, emits P (k a)) -> emits P (bind m k).
Proof.
  intros Hm Hk s. unfold bind. specialize (Hm s).
  destruct (m s) as [[a|msg|] s1]; cbn [snd] in *; try exact Hm.
  eapply extends_by_trans; [exact Hm | apply Hk].
Qed.

Lemma emits_try_except {A : Type} (P : event -> Prop) (m : M W A)
    (h : string -> M W A) :
  emits P m -> (forall msg, emits P (h msg)) -> emits P (try_except m h).
Proof.
  intros Hm Hh s. unfold try_except. specialize (Hm s).
  destruct (m s) as [[a|msg|] s1]; cbn [snd] in *; try exact Hm.
  eapply extends_by_trans; [exact Hm | apply Hh].
Qed.

Lemma emits_lift {A : Type} (P : event -> Prop) (o : outcome A) : emits P (@lift W A o).
Proof. destruct o; [apply emits_ret | apply emits_raise]. Qed.

Lemma emits_getitem {A : Type} (P : event -> Prop) (k : string) (o : option A) :
  emits P (@getitem W A k o).
Proof. destruct o; [apply emits_ret | apply emits_raise]. Qed.

Lemma emits_get_context (P : event -> Prop) : emits P (@get_context W).
Proof. intros s. apply extends_by_refl. Qed.

Lemma emits_do_add_context {A : Type} (P : event -> Prop) (q j : string)
    (l : list A) (r : response_value) :
  emits P (@do_add_context W A q j l r).
Proof. intros s. exists []. cbn. rewrite app_nil_r. split; [reflexivity|constructor]. Qed.

Lemma emits_call {A : Type} (P : event -> Prop) (f : W -> outcome A * W)
    (log : outcome A -> event) :
  (forall w, P (log (fst (f w)))) -> emits P (@call W A f log).
Proof.
  intros H s. unfold call. specialize (H (world s)).
  destruct (f (world s)) as [o w']. cbn [fst] in H.
  exists [log o]. destruct o; cbn; (split; [reflexivity|]); repeat constructor; exact H.
Qed.

Lemma bind_ret {A B : Type} (a : A) (k : A -> M W B) : bind (ret a) k = k a.
Proof. reflexivity. Qed.

(** What a [bind] that ends with a value went through. *)
Lemma bind_val_inv {A B : Type} (m : M W A) (k : A -> M W B) (s s' : state W) (b : B) :
  bind m k s = (Val b, s') ->
  exists a s1, m s = (Val a, s1) /\ k a s1 = (Val b, s').
Proof.
  unfold bind. destruct (m s) as [[a|msg|] s1]; intros H; try discriminate.
  exists a, s1. split; [reflexivity | exact H].
Qed.

End MonadFacts.

(** ** PaginatedExecutor *)

Section ExecutorFacts.

Context {W : Type}.
Variable C : collaborators W.
Variable self : engine.

(** [search] ends with a value or an exception, never out of fuel. *)
Lemma search_cases (req : search_request) (s : state W) :
  (exists r s', search C self req s = (Val r, s'))
  \/ (exists msg s', search C self req s = (Exc msg, s')).
Proof.
  unfold search. destruct (jira_client self).
  - unfold call. destruct (jira_search C req (world s)) as [[r|msg] w'];
      [left | right]; eauto.
  - right. unfold raise. eauto.
Qed.

(** More fuel does not change a run that ended. *)
Lemma fetch_pages_more_fuel (fuel fuel' : nat) (jql : jql_value) (start_at : nat)
    (total : option nat) (acc : list issue) (s : state W) :
  fuel <= fuel' ->
  fst (fetch_pages C self fuel jql start_at total acc s) <> OutOfFuel ->
  fetch_pages C self fuel' jql start_at total acc s
  = fetch_pages C self fuel jql start_at total acc s.
Proof.
  revert fuel' start_at total acc s.
  induction fuel as [|fuel IH]; intros fuel' start_at total acc s Hle Hne.
  - cbn in Hne. contradiction.
  - destruct fuel' as [|fuel']; [lia|].
    cbn [fetch_pages] in *. unfold bind in *.
    destruct (search C self ((page_request jql start_at)) s) as [[r|msg|] s1] eqn:Es.
    all: try reflexivity.
    destruct r as [[issues|] t | issues |]; try reflexivity.
    destruct (is_nil issues); [reflexivity|].
    destruct (negb _ || _); [reflexivity|].
    apply IH; [lia | exact Hne].
Qed.

End ExecutorFacts.

Section ExecutorTermination.

Context {W : Type}.
Variable C : collaborators W.
Variable self : engine.

(** Once the total is known, the loop ends within [T - start_at] rounds:
    a round is followed by another only when [start_at + 100] is below [T]. *)
Lemma fetch_pages_ends_known_total (fuel : nat) (jql : jql_value) (start_at T : nat)
    (acc : list issue) (s : state W) :
  T - start_at < fuel ->
  fst (fetch_pages C self fuel jql start_at (Some T) acc s) <> OutOfFuel.
Proof.
  revert start_at acc s.
  induction fuel as [|fuel IH]; intros start_at acc s Hlt; [lia|].
  cbn [fetch_pages]. unfold bind.
  destruct (search_cases C self (page_request jql start_at) s)
    as [(r & s1 & Es) | (msg & s1 & Es)]; rewrite Es; [|discriminate].
  destruct r as [[issues|] t | issues |]; try discriminate.
  - destruct (is_nil issues); [discriminate|].
    destruct (Nat.ltb_spec (start_at + length issues) T) as [Hmore|Hno];
      cbn [negb orb]; [|discriminate].
    destruct (Nat.ltb_spec (length issues) max_results_per_page) as [Hshort|Hfull];
      [discriminate|].
    apply IH. unfold max_results_per_page in *. lia.
  - destruct (is_nil issues); discriminate.
Qed.

(** The loop ends, whatever the tracker answers. *)
Lemma fetch_pages_ends (jql : jql_value) (start_at : nat) (total : option nat)
    (acc : list issue) (s : state W) :
  exists n, forall fuel, n <= fuel ->
    fst (fetch_pages C self fuel jql start_at total acc s) <> OutOfFuel.
Proof.
  destruct total as [T|].
  - exists (S (T - start_at)). intros fuel Hle.
    apply fetch_pages_ends_known_total. lia.
  - destruct (search_cases C self (page_request jql start_at) s)
      as [(r & s1 & Es) | (msg & s1 & Es)].
    + exists (S (S (declared_total r))). intros fuel Hle.
      destruct fuel as [|fuel]; [lia|].
      cbn [fetch_pages]. unfold bind. rewrite Es.
      destruct r as [[issues|] t | issues |]; try discriminate.
      * destruct (is_nil issues); [discriminate|].
        destruct (negb _ || _); [discriminate|].
        apply fetch_pages_ends_known_total. cbn [declared_total] in Hle. lia.
      * destruct (is_nil issues); discriminate.
    + exists 1. intros fuel Hle. destruct fuel as [|fuel]; [lia|].
      cbn [fetch_pages]. unfold bind. rewrite Es. discriminate.
Qed.

(** [_execute_jql] never lets an exception out. *)
Lemma execute_jql_never_raises (fuel : nat) (jql : jql_value)
    (intent : option string) (s : state W) (msg : string) :
  fst (_execute_jql C self fuel jql intent s) <> Exc msg.
Proof.
  unfold _execute_jql, try_except.
  match goal with |- context [match ?m s with _ => _ end] =>
    destruct (m s) as [[r|msg'|] s1] end; discriminate.
Qed.

(** [_execute_jql] returns a result, given fuel enough for the pages the
    tracker serves, and more fuel returns the same. *)
Lemma execute_jql_returns (jql : jql_value) (intent : option string) (s : state W) :
  exists n r s', forall fuel, n <= fuel ->
    _execute_jql C self fuel jql intent s = (Val r, s').
Proof.
  unfold _execute_jql, try_except, bind.
  destruct (count_only_mode jql intent) as [[|]|msg]; cbn [lift ret raise].
  - destruct (search_cases C self (count_request jql) s)
      as [(r & s1 & Es) | (msg & s1 & Es)]; rewrite Es.
    + destruct r as [i t | i |]; exists 0; eexists; eexists; intros; reflexivity.
    + exists 0; eexists; eexists; intros; reflexivity.
  - destruct (fetch_pages_ends jql 0 None [] s) as [n Hn].
    exists n.
    destruct (fetch_pages C self n jql 0 None [] s) as [[r|msg|] s1] eqn:En.
    + eexists; eexists. intros fuel Hle.
      rewrite (fetch_pages_more_fuel C self n fuel) by
        (try exact Hle; apply Hn; lia).
      rewrite En. reflexivity.
    + eexists; eexists. intros fuel Hle.
      rewrite (fetch_pages_more_fuel C self n fuel) by
        (try exact Hle; apply Hn; lia).
      rewrite En. reflexivity.
    + exfalso. apply (Hn n (le_n n)). rewrite En. reflexivity.
  - exists 0; eexists; eexists; intros; reflexivity.
Qed.

End ExecutorTermination.

Lemma stops_at_last_cons (T k : nat) (p : list issue * option nat)
    (pages : list (list issue * option nat)) :
  pages <> [] ->
  stops_at_last T k (p :: pages)
  = negb (page_stops T k (fst p)) && stops_at_last T (S k) pages.
Proof. destruct pages; [contradiction | reflexivity]. Qed.

Section ExecutorPages.

Context {W : Type}.
Variable C : collaborators W.
Variable self : engine.

Hypothesis has_jira : jira_client self = true.
Hypothesis pages_only : paged C.

(** Against a tracker that serves pages, [search] returns a page and logs
    the request. *)
Lemma search_page (req : search_request) (s : state W) :
  exists issues total s',
    search C self req s = (Val (SRDict (Some issues) total), s')
    /\ trace s' = trace s ++ [JiraSearch req (Returns (SRDict (Some issues) total))].
Proof.
  unfold search. rewrite has_jira. unfold call.
  destruct (pages_only req (world s)) as (issues & total & E).
  destruct (jira_search C req (world s)) as [o w']. cbn [fst] in E. subst o.
  exists issues, total. eexists. split; reflexivity.
Qed.

(** The loop against a tracker that serves pages: it asks page after page
    at offsets 100 apart, keeps the total of the first page, and ends at the
    first page that meets the stop rule. *)
Lemma fetch_pages_paged (fuel : nat) (jql : jql_value) (k : nat)
    (total : option nat) (acc : list issue) (s : state W)
    (r : list issue * option nat) (s' : state W) :
  fetch_pages C self fuel jql (max_results_per_page * k) total acc s = (Val r, s') ->
  exists pages,
    stops_at_last (first_total total pages) k pages = true
    /\ r = (acc ++ concat (map fst pages), Some (first_total total pages))
    /\ trace s' = trace s ++ page_events jql k pages.
Proof.
  revert k total acc s.
  induction fuel as [|fuel IH]; intros k total acc s Hrun; [discriminate|].
  cbn [fetch_pages] in Hrun. unfold bind in Hrun.
  destruct (search_page (page_request jql (max_results_per_page * k)) s)
    as (issues & t & s1 & Es & Et).
  rewrite Es in Hrun.
  set (T := match total with None => get_or 0 t | Some t0 => t0 end) in *.
  assert (HT : first_total total [(issues, t)] = T) by (destruct total; reflexivity).
  destruct issues as [|i issues].
  - cbn [is_nil] in Hrun. injection Hrun as <- <-.
    exists [([], t)]. rewrite HT. cbn [stops_at_last page_stops is_nil orb fst].
    cbn [map concat fst page_events]. rewrite !app_nil_r.
    repeat split. exact Et.
  - cbn [is_nil] in Hrun.
    destruct (negb (max_results_per_page * k + length (i :: issues) <? T)
              || (length (i :: issues) <? max_results_per_page)) eqn:Estop.
    + injection Hrun as <- <-.
      exists [(i :: issues, t)]. rewrite HT.
      cbn [stops_at_last page_stops is_nil orb fst map concat page_events].
      rewrite app_nil_r. repeat split; [|exact Et].
      apply orb_true_iff in Estop. destruct Estop as [Hs|Hs].
      * apply negb_true_iff, Nat.ltb_ge in Hs.
        apply orb_true_iff. right. apply Nat.leb_le. exact Hs.
      * unfold page_stops. rewrite Hs. reflexivity.
    + replace (max_results_per_page * k + max_results_per_page)
        with (max_results_per_page * S k) in Hrun by lia.
      apply IH in Hrun. destruct Hrun as (pages & Hstop & -> & Htr).
      change (first_total (Some T) pages) with T in *.
      exists ((i :: issues, t) :: pages).
      assert (HT' : first_total total ((i :: issues, t) :: pages) = T)
        by (destruct total; reflexivity).
      rewrite HT'. split; [|split].
      * rewrite stops_at_last_cons by (intros ->; discriminate).
        rewrite Hstop, andb_true_r.
        apply negb_true_iff. unfold page_stops. cbn [is_nil orb fst].
        apply orb_false_iff in Estop. destruct Estop as [H1 H2].
        apply negb_false_iff, Nat.ltb_lt in H1.
        rewrite H2. cbn [orb]. apply Nat.leb_gt. exact H1.
      * cbn [map concat fst]. rewrite <- app_assoc. reflexivity.
      * rewrite Htr, Et. cbn [page_events]. rewrite <- app_assoc. reflexivity.
Qed.

(** Against a tracker that serves pages the loop never raises. *)
Lemma fetch_pages_paged_no_exc (fuel : nat) (jql : jql_value) (start_at : nat)
    (total : option nat) (acc : list issue) (s : state W) (msg : string) :
  fst (fetch_pages C self fuel jql start_at total acc s) <> Exc msg.
Proof.
  revert start_at total acc s.
  induction fuel as [|fuel IH]; intros start_at total acc s; [discriminate|].
  cbn [fetch_pages]. unfold bind.
  destruct (search_page (page_request jql start_at) s) as (issues & t & s1 & Es & _).
  rewrite Es. destruct (is_nil issues); [discriminate|].
  destruct (negb _ || _); [discriminate | apply IH].
Qed.

End ExecutorPages.

Section ExecutorFailures.

Context {W : Type}.
Variable C : collaborators W.
Variable self : engine.

(** What one [search] does to the log: without a Jira client nothing is
    logged and the attribute error is raised; with one, the call is logged
    with its outcome, which is returned or raised. *)
Lemma search_inv (req : search_request) (s : state W) :
  (jira_client self = false
   /\ search C self req s = (Exc "'NoneType' object has no attribute 'search'", s))
  \/ (jira_client self = true
      /\ exists o s',
           search C self req s
           = (match o with Returns r => Val r | Raises msg => Exc msg end, s')
           /\ trace s' = trace s ++ [JiraSearch req o]).
Proof.
  unfold search. destruct (jira_client self); [right | left; split; reflexivity].
  split; [reflexivity|]. unfold call.
  destruct (jira_search C req (world s)) as [o w'].
  exists o. eexists. split; [destruct o; reflexivity | reflexivity].
Qed.

Lemma no_search_raised_nil : no_search_raised [].
Proof. intros msg e []. Qed.

Lemma no_search_raised_cons (req : search_request) (r : search_result)
    (evs : list event) :
  no_search_raised evs -> no_search_raised (JiraSearch req (Returns r) :: evs).
Proof.
  intros H msg e [<-|Hin]; [intros [req' E]; discriminate | apply H; exact Hin].
Qed.

(** The loop and its failures: a run that ends with a value saw no search
    call raise; a run that ends with an exception either had no Jira client
    (and logged nothing), or its last call is a search call that raised
    that very exception, no earlier one having raised. *)
Lemma fetch_pages_failure (fuel : nat) (jql : jql_value) (start_at : nat)
    (total : option nat) (acc : list issue) (s : state W) :
  exists evs,
    trace (snd (fetch_pages C self fuel jql start_at total acc s)) = trace s ++ evs
    /\ match fst (fetch_pages C self fuel jql start_at total acc s) with
       | Val _ => no_search_raised evs /\ jira_client self = true
       | Exc msg =>
           (evs = [] /\ jira_client self = false)
           \/ (exists req evs0,
                 evs = evs0 ++ [JiraSearch req (Raises msg)]
                 /\ no_search_raised evs0)
       | OutOfFuel => True
       end.
Proof.
  revert start_at total acc s.
  induction fuel as [|fuel IH]; intros start_at total acc s.
  - exists []. cbn. rewrite app_nil_r. split; reflexivity.
  - cbn [fetch_pages]. unfold bind.
    destruct (search_inv (page_request jql start_at) s)
      as [[Hno Es] | (Hyes & o & s1 & Es & Et)]; rewrite Es.
    + exists []. cbn [fst snd]. rewrite app_nil_r. split; [reflexivity|].
      left. split; [reflexivity | exact Hno].
    + destruct o as [r|msg].
      * assert (Hstop : forall v : list issue * option nat,
                  exists evs, trace (snd (@ret W _ v s1)) = trace s ++ evs
                    /\ no_search_raised evs /\ jira_client self = true).
        { intros v. exists [JiraSearch (page_request jql start_at) (Returns r)].
          cbn [ret snd]. split; [exact Et|]. split; [|exact Hyes].
          apply no_search_raised_cons, no_search_raised_nil. }
        destruct r as [[issues|] t | issues |]; try apply Hstop.
        -- destruct (is_nil issues); [apply Hstop|].
           destruct (negb _ || _); [apply Hstop|].
           match goal with
           | |- context [fetch_pages C self fuel jql ?st ?tl ?ac s1] =>
               destruct (IH st tl ac s1) as (evs & Htr & Hres);
               destruct (fetch_pages C self fuel jql st tl ac s1) as [res s2]
           end.
           cbn [fst snd] in *.
           exists (JiraSearch (page_request jql start_at)
                     (Returns (SRDict (Some issues) t)) :: evs).
           split; [rewrite Htr, Et, <- app_assoc; reflexivity|].
           destruct res as [v|msg|]; [| |exact I].
           ++ destruct Hres as [Hres _]. split; [|exact Hyes].
              apply no_search_raised_cons. exact Hres.
           ++ destruct Hres as [[_ Hno] | (req & evs0 & -> & Hres)];
                [congruence|].
              right. exists req, (JiraSearch (page_request jql start_at)
                                    (Returns (SRDict (Some issues) t)) :: evs0).
              split; [reflexivity | apply no_search_raised_cons; exact Hres].
        -- destruct (is_nil issues); apply Hstop.
      * exists [JiraSearch (page_request jql start_at) (Raises msg)].
        cbn [fst snd]. split; [exact Et|].
        right. exists (page_request jql start_at), [].
        split; [reflexivity | apply no_search_raised_nil].
Qed.

End ExecutorFailures.

Section ExecutorLog.

Context {W : Type}.
Variable C : collaborators W.
Variable self : engine.
Variable P : event -> Prop.

Lemma emits_search (req : search_request) :
  (forall w, P (JiraSearch req (fst (jira_search C req w)))) ->
  emits P (search C self req).
Proof.
  intros H. unfold search. destruct (jira_client self);
    [apply emits_call; exact H | apply emits_raise].
Qed.

Lemma emits_fetch_pages (fuel : nat) (jql : jql_value) (start_at : nat)
    (total : option nat) (acc : list issue) :
  (forall start w,
      P (JiraSearch (page_request jql start)
           (fst (jira_search C (page_request jql start) w)))) ->
  emits P (fetch_pages C self fuel jql start_at total acc).
Proof.
  intros H. revert start_at total acc.
  induction fuel as [|fuel IH]; intros start_at total acc; cbn [fetch_pages].
  - apply emits_out_of_fuel.
  - apply emits_bind; [apply emits_search, H|].
    intros [[issues|] t | issues |]; try apply emits_ret.
    + destruct (is_nil issues); [apply emits_ret|].
      destruct (negb _ || _); [apply emits_ret | apply IH].
    + destruct (is_nil issues); apply emits_ret.
Qed.

(** [_execute_jql] talks to the tracker only: a zero-record request in
    count-only mode, page requests otherwise. *)
Lemma emits_execute_jql (fuel : nat) (jql : jql_value) (intent : option string) :
  (count_only_mode jql intent = Returns true ->
   forall w, P (JiraSearch (count_request jql)
                  (fst (jira_search C (count_request jql) w)))) ->
  (count_only_mode jql intent = Returns false ->
   forall start w,
     P (JiraSearch (page_request jql start)
          (fst (jira_search C (page_request jql start) w)))) ->
  emits P (_execute_jql C self fuel jql intent).
Proof.
  intros Hc Hp. unfold _execute_jql.
  apply emits_try_except; [|intros; apply emits_ret].
  destruct (count_only_mode jql intent) as [[|]|msg]; cbn [lift];
    rewrite ?bind_ret.
  - apply emits_bind; [apply emits_search, Hc; reflexivity|].
    intros [? ? | ? |]; apply emits_ret.
  - apply emits_bind; [|intros; apply emits_ret].
    apply emits_fetch_pages, Hp. reflexivity.
  - intros s. apply extends_by_refl.
Qed.

End ExecutorLog.
(** C1 as the spec states it does not hold for the total that is
    reported.  The first page declares the total 0 (or none) and holds five
    records: one request is made, and the result reports the total 5, the
    number of records kept, where the first page declared 0 (or nothing). *)
Lemma reported_total_counterexample :
  let five := map Examples.bare (seq 0 5) in
  let run (declared : option nat) :=
    _execute_jql Examples.scripted Examples.full_engine 3
      (JqlStr "project = CCM") None
      (Examples.fresh [Returns (SRDict (Some five) declared)]) in
  count_only_mode (JqlStr "project = CCM") None = Returns false
  /\ option_map (fun r => (retrieved_count r, total_count r, error r))
       (value_of (fst (run (Some 0)))) = Some (5, 5, None)
  /\ map asked (trace (snd (run (Some 0)))) = [Some (0, 100)]
  /\ option_map (fun r => (retrieved_count r, total_count r, error r))
       (value_of (fst (run None))) = Some (5, 5, None)
  /\ map asked (trace (snd (run None))) = [Some (0, 100)].
Proof. vm_compute. repeat split. Qed.

(** C1 (amended).  In full-fetch mode, against a tracker that answers with
    pages, [_execute_jql] asks for pages of 100 records at offsets 0, 100,
    200, ... (with the enhanced field list), keeps as total [T] the total
    the first page declares (0 when it declares none), and stops exactly at
    the first page that is empty, or holds fewer than 100 records, or whose
    offset plus size has reached [T]; the records of all pages, minus those
    with neither key nor summary, are the result, [retrieved_count] is
    their number, and [total_count] is [T] when [T] is not 0 and the number
    of records kept when [T] is 0.  For the paginator that serves 100, 100
    and 37 records and declares 237 on the first page, exactly three
    requests are made, at offsets 0, 100 and 200, and the result has
    [retrieved_count] 237. *)
Theorem full_fetch_pagination :
  (forall (W : Type) (C : collaborators W) (self : engine) (jql : jql_value)
          (intent : option string) (s : state W),
      jira_client self = true ->
      paged C ->
      count_only_mode jql intent = Returns false ->
      exists pages r s',
        let T := first_total None pages in
        (exists n, forall fuel, n <= fuel ->
           _execute_jql C self fuel jql intent s = (Val r, s'))
        /\ trace s' = trace s ++ page_events jql 0 pages
        /\ stops_at_last T 0 pages = true
        /\ results r = filter has_essential_data (concat (map fst pages))
        /\ retrieved_count r = length (results r)
        /\ total_count r = (if T =? 0 then retrieved_count r else T)
        /\ is_count_only r = false
        /\ error r = None)
  /\ (let run := _execute_jql Examples.scripted Examples.full_engine 3
                   (JqlStr "project = CCM") None
                   (Examples.fresh Examples.three_pages) in
      option_map (fun r => (retrieved_count r, total_count r, error r))
        (value_of (fst run)) = Some (237, 237, None)
      /\ map asked (trace (snd run)) = [Some (0, 100); Some (100, 100); Some (200, 100)]
      /\ world (snd run) = []).
Proof.
  split; [|vm_compute; repeat split].
  intros W C self jql intent s Hjira Hpaged Hmode.
  destruct (execute_jql_returns C self jql intent s) as (n & r & s' & Hrun).
  pose proof (Hrun n (le_n n)) as Hn.
  unfold _execute_jql, try_except, bind in Hn. rewrite Hmode in Hn.
  cbn [lift ret] in Hn.
  change 0 with (max_results_per_page * 0) in Hn at 1.
  destruct (fetch_pages C self n jql (max_results_per_page * 0) None [] s)
    as [[fetched|msg|] s1] eqn:Ef.
  - apply (fetch_pages_paged C self Hjira Hpaged) in Ef.
    destruct Ef as (pages & Hstop & -> & Htr).
    injection Hn as <- <-. cbn [fst snd app].
    exists pages. eexists. exists s1. cbn zeta.
    split; [exists n; exact Hrun|].
    cbn [results retrieved_count total_count is_count_only error total_or].
    repeat split; assumption.
  - exfalso. apply (fetch_pages_paged_no_exc C self Hjira Hpaged n jql
                      (max_results_per_page * 0) None [] s msg).
    rewrite Ef. reflexivity.
  - discriminate.
Qed.

Lemma full_fetch_pagination_witness :
  jira_client Examples.full_engine = true
  /\ paged (Examples.backlog 3)
  /\ count_only_mode (JqlStr "project = CCM") None = Returns false
  /\ exists pages r s',
       (exists n, forall fuel, n <= fuel ->
          _execute_jql (Examples.backlog 3) Examples.full_engine fuel
            (JqlStr "project = CCM") None (Examples.fresh tt) = (Val r, s'))
       /\ trace s' = page_events (JqlStr "project = CCM") 0 pages
       /\ stops_at_last (first_total None pages) 0 pages = true.
Proof.
  assert (Hp : paged (Examples.backlog 3)).
  { intros req w. eexists. eexists. reflexivity. }
  split; [reflexivity|]. split; [exact Hp|]. split; [reflexivity|].
  destruct (proj1 full_fetch_pagination unit (Examples.backlog 3)
              Examples.full_engine (JqlStr "project = CCM") None
              (Examples.fresh tt) eq_refl Hp eq_refl)
    as (pages & r & s' & H1 & H2 & H3 & _).
  exists pages, r, s'. repeat split; assumption.
Defined.

(** The mode test of the code is the mode selection of the specification. *)
Lemma count_only_mode_spec (q : string) (intent : option string) :
  count_only_mode (JqlStr q) intent = Returns (Spec.count_only q intent).
Proof.
  unfold count_only_mode, Spec.count_only. cbn [existsb].
  rewrite orb_false_r, <- !orb_assoc.
  destruct intent as [i|]; cbn [orb];
    [destruct (String.eqb i "count_items"), (String.eqb i "story_count"),
       (String.eqb i "issue_count") |]; reflexivity.
Qed.

(** C2 (as stated) fails when the request of the count-only mode raises:
    the shared [except] branch answers with [is_count_only] false.  Here the
    intent is [count_items], the one request asks for zero records, and the
    tracker times out. *)
Lemma count_only_failure_counterexample :
  let run := _execute_jql Examples.scripted Examples.full_engine 1
               (JqlStr "project = CCM") (Some "count_items")
               (Examples.fresh [Raises "timed out"]) in
  Spec.count_only "project = CCM" (Some "count_items") = true
  /\ map asked (trace (snd run)) = [Some (0, 0)]
  /\ option_map is_count_only (value_of (fst run)) = Some false
  /\ value_of (fst run) = Some (error_result "timed out").
Proof. repeat split. Qed.

(** C2 (amended).  For every query string and intent, [_execute_jql] runs
    in count-only mode exactly when the intent is [count_items],
    [story_count] or [issue_count], or the query contains "count" or
    "group by" case-insensitively.  In count-only mode it makes at most one
    request, asking for zero records, and always returns no records and
    [retrieved_count] 0; when the request returns, [is_count_only] is true,
    there is no error, and [total_count] is the total the response declares
    (0 when it declares none or is not an object); when the request raises,
    or there is no Jira client to ask, the result is the error result, whose
    [is_count_only] is false and whose [total_count] is 0.  Outside
    count-only mode the result has [is_count_only] false and every request
    is a page request. *)
Theorem count_only_mode_and_result :
  forall (W : Type) (C : collaborators W) (self : engine) (fuel : nat)
         (q : string) (intent : option string) (s : state W),
    count_only_mode (JqlStr q) intent = Returns (Spec.count_only q intent)
    /\ (Spec.count_only q intent = true ->
        exists r s',
          _execute_jql C self fuel (JqlStr q) intent s = (Val r, s')
          /\ results r = [] /\ retrieved_count r = 0
          /\ ((jira_client self = false /\ s' = s
               /\ r = error_result "'NoneType' object has no attribute 'search'")
              \/ (exists o,
                    trace s' = trace s ++ [JiraSearch (count_request (JqlStr q)) o]
                    /\ match o with
                       | Returns response =>
                           is_count_only r = true /\ error r = None
                           /\ total_count r = declared_total response
                       | Raises msg => r = error_result msg
                       end)))
    /\ (Spec.count_only q intent = false ->
        forall r s',
          _execute_jql C self fuel (JqlStr q) intent s = (Val r, s') ->
          is_count_only r = false
          /\ extends_by (fun e => exists start_at o,
                           e = JiraSearch (page_request (JqlStr q) start_at) o) s s').
Proof.
  intros W C self fuel q intent s.
  split; [apply count_only_mode_spec|]. split.
  - intros Hmode. unfold _execute_jql, try_except, bind.
    rewrite count_only_mode_spec, Hmode. cbn [lift ret].
    destruct (search_inv C self (count_request (JqlStr q)) s)
      as [[Hno Es] | (Hyes & o & s1 & Es & Et)]; rewrite Es.
    + eexists. eexists. split; [reflexivity|]. repeat split.
      left. repeat split. exact Hno.
    + destruct o as [[i t | i |] | msg]; eexists; eexists;
        (split; [reflexivity|]); repeat split; right;
        eexists; (split; [exact Et|]); repeat split.
  - intros Hmode r s' Hrun. split.
    + unfold _execute_jql, try_except, bind in Hrun.
      rewrite count_only_mode_spec, Hmode in Hrun. cbn [lift ret] in Hrun.
      destruct (fetch_pages C self fuel (JqlStr q) 0 None [] s) as [[v|msg|] s1];
        [| |discriminate]; injection Hrun as <- _; reflexivity.
    + pose proof (emits_execute_jql C self
                    (fun e => exists start_at o,
                       e = JiraSearch (page_request (JqlStr q) start_at) o)
                    fuel (JqlStr q) intent) as He.
      rewrite count_only_mode_spec, Hmode in He.
      specialize (He ltac:(discriminate)
                      ltac:(intros _ st w; eexists; eexists; reflexivity) s).
      rewrite Hrun in He. exact He.
Qed.

Lemma count_only_mode_and_result_witness :
  Spec.count_only "SELECT COUNT of bugs" None = true
  /\ exists r s',
       _execute_jql (Examples.backlog 7) Examples.full_engine 0
         (JqlStr "SELECT COUNT of bugs") None (Examples.fresh tt) = (Val r, s')
       /\ results r = [] /\ retrieved_count r = 0.
Proof.
  split; [reflexivity|].
  destruct (proj1 (proj2 (count_only_mode_and_result unit (Examples.backlog 7)
                            Examples.full_engine 0 "SELECT COUNT of bugs" None
                            (Examples.fresh tt))) eq_refl)
    as (r & s' & H1 & H2 & H3 & _).
  exists r, s'. repeat split; assumption.
Defined.

Section ExecutorErrors.

Context {W : Type}.
Variable C : collaborators W.
Variable self : engine.

(** What [_execute_jql] makes of its search calls: when one raises, the
    result is the error result with that exception's text; when none
    raises (and there is a Jira client and the mode test did not raise),
    the result carries no error. *)
Lemma execute_jql_failure (fuel : nat) (jql : jql_value) (intent : option string)
    (s : state W) :
  exists evs,
    trace (snd (_execute_jql C self fuel jql intent s)) = trace s ++ evs
    /\ forall r, fst (_execute_jql C self fuel jql intent s) = Val r ->
         (forall msg e, In e evs -> search_raised msg e -> r = error_result msg)
         /\ (no_search_raised evs -> jira_client self = true ->
             (exists b, count_only_mode jql intent = Returns b) ->
             error r = None).
Proof.
  unfold _execute_jql, try_except, bind.
  destruct (count_only_mode jql intent) as [[|]|m]; cbn [lift ret raise].
  - destruct (search_inv C self (count_request jql) s)
      as [[Hno Es] | (Hyes & o & s1 & Es & Et)]; rewrite Es.
    + exists []. cbn [fst snd]. rewrite app_nil_r. split; [reflexivity|].
      intros r [= <-]. split; [intros msg e []|]. congruence.
    + exists [JiraSearch (count_request jql) o]. destruct o as [sr|m].
      * assert (Hnone : forall msg e,
                  In e [JiraSearch (count_request jql) (Returns sr)] ->
                  ~ search_raised msg e).
        { intros msg e [<-|[]] [req E]. discriminate. }
        destruct sr as [i t | i |]; cbn [fst snd]; (split; [exact Et|]);
          intros r [= <-]; (split; [intros msg e Hin Hr; destruct (Hnone _ _ Hin Hr)|]);
          reflexivity.
      * cbn [fst snd]. split; [exact Et|]. intros r [= <-]. split.
        -- intros msg e [<-|[]] [req E]. injection E as _ <-. reflexivity.
        -- intros Hnone. exfalso.
           apply (Hnone m (JiraSearch (count_request jql) (Raises m)));
             [left; reflexivity | eexists; reflexivity].
  - destruct (fetch_pages_failure C self fuel jql 0 None [] s) as (evs & Htr & Hres).
    destruct (fetch_pages C self fuel jql 0 None [] s) as [[v|m|] s1];
      cbn [fst snd] in *; exists evs; (split; [exact Htr|]).
    + destruct Hres as [Hnone _]. intros r [= <-]. split; [|reflexivity].
      intros msg e Hin Hr. destruct (Hnone _ _ Hin Hr).
    + intros r [= <-]. destruct Hres as [[-> Hno] | (req & evs0 & -> & Hnone)].
      * split; [intros msg e []|]. congruence.
      * split.
        -- intros msg e Hin Hr. apply in_app_or in Hin.
           destruct Hin as [Hin | [<-|[]]]; [destruct (Hnone _ _ Hin Hr)|].
           destruct Hr as [req' E]. injection E as _ <-. reflexivity.
        -- intros Hn. exfalso.
           apply (Hn m (JiraSearch req (Raises m)));
             [apply in_or_app; right; left; reflexivity | eexists; reflexivity].
    + intros r [=].
  - exists []. cbn [fst snd]. rewrite app_nil_r. split; [reflexivity|].
    intros r [= <-]. split; [intros msg e []|].
    intros _ _ [b Hb]. discriminate.
Qed.

(** Every search call in the log of [_execute_jql] carries an outcome that
    the tracker collaborator produced. *)
Lemma execute_jql_log_sound (fuel : nat) (jql : jql_value) (intent : option string) :
  emits (fun e => exists req w, e = JiraSearch req (fst (jira_search C req w)))
        (_execute_jql C self fuel jql intent).
Proof.
  apply emits_execute_jql; intros; eexists; eexists; reflexivity.
Qed.

End ExecutorErrors.

Lemma search_of_failed_reply (reply : JiraClient.http_reply) :
  http_failed reply = true -> JiraClient.search reply = JiraClient.empty_page.
Proof.
  destruct reply as [msg | code [msg | data]]; cbn [http_failed JiraClient.search].
  - reflexivity.
  - intros _. destruct (code =? 200); reflexivity.
  - rewrite orb_false_r. intros H. apply negb_true_iff in H. rewrite H. reflexivity.
Qed.

(** C3 (as stated) fails on the repository's own Jira client:
    [JiraClient.search] absorbs the transport failure and answers with an
    empty page, so [_execute_jql] returns a zero-result dictionary that
    carries no [error] at all.  And when a search call does raise, the
    [error] is the exception's text, which may be empty. *)
Lemma transport_failure_counterexample :
  let run := _execute_jql (with_jira_client Examples.failing_http Examples.inert)
               Examples.full_engine 1 (JqlStr "project = CCM") None
               (Examples.fresh tt) in
  let run' := _execute_jql Examples.scripted Examples.full_engine 1
                (JqlStr "project = CCM") None
                (Examples.fresh [Raises EmptyString]) in
  map asked (trace (snd run)) = [Some (0, 100)]
  /\ value_of (fst run)
     = Some {| results := []; total_count := 0; retrieved_count := 0;
               is_count_only := false; error := None |}
  /\ option_map error (value_of (fst run')) = Some (Some EmptyString).
Proof. repeat split. Qed.

(** C3 (amended).  No exception leaves [_execute_jql], and it returns a
    result for every query.  When a search call raises, the result is the
    zero-result dictionary (no records, [total_count] 0, [retrieved_count]
    0) whose [error] is the text of that exception; when no search call
    raises, the result carries no [error].  With [JiraClient.search] as the
    tracker, a failure of the HTTP exchange (the transport raises, the
    status is not 200, the body does not parse) never raises: the result
    carries no [error], and when the first request fails it is the
    zero-result dictionary. *)
Theorem execute_jql_failure_handling :
  (forall (W : Type) (C : collaborators W) (self : engine) (jql : jql_value)
          (intent : option string) (s : state W),
      (forall fuel msg, fst (_execute_jql C self fuel jql intent s) <> Exc msg)
      /\ exists n r s' evs,
           (forall fuel, n <= fuel ->
              _execute_jql C self fuel jql intent s = (Val r, s'))
           /\ trace s' = trace s ++ evs
           /\ (forall msg e, In e evs -> search_raised msg e ->
                 r = error_result msg)
           /\ (no_search_raised evs -> jira_client self = true ->
               (exists b, count_only_mode jql intent = Returns b) ->
               error r = None))
  /\ (forall msg,
         results (error_result msg) = [] /\ total_count (error_result msg) = 0
         /\ retrieved_count (error_result msg) = 0
         /\ error (error_result msg) = Some msg)
  /\ (forall (W : Type) (http : search_request -> W -> JiraClient.http_reply * W)
             (C : collaborators W) (self : engine) (q : string)
             (intent : option string) (s : state W),
         jira_client self = true ->
         exists n r s',
           (forall fuel, n <= fuel ->
              _execute_jql (with_jira_client http C) self fuel (JqlStr q) intent s
              = (Val r, s'))
           /\ error r = None
           /\ (http_failed (fst (http (first_request q intent) (world s))) = true ->
               results r = [] /\ total_count r = 0 /\ retrieved_count r = 0)).
Proof.
  split; [|split; [intros msg; repeat split|]].
  - intros W C self jql intent s.
    split; [intros fuel msg; apply execute_jql_never_raises|].
    destruct (execute_jql_returns C self jql intent s) as (n & r & s' & Hrun).
    destruct (execute_jql_failure C self n jql intent s) as (evs & Htr & Hres).
    rewrite (Hrun n (le_n n)) in Htr, Hres. cbn [fst snd] in Htr, Hres.
    exists n, r, s', evs. split; [exact Hrun|]. split; [exact Htr|].
    apply Hres. reflexivity.
  - intros W http C self q intent s Hjira.
    set (C' := with_jira_client http C).
    destruct (execute_jql_returns C' self (JqlStr q) intent s) as (n & r & s' & Hrun).
    exists n, r, s'. split; [exact Hrun|].
    pose proof (Hrun n (le_n n)) as Hn. split.
    + destruct (execute_jql_failure C' self n (JqlStr q) intent s)
        as (evs & Htr & Hres).
      pose proof (execute_jql_log_sound C' self n (JqlStr q) intent s)
        as (evs' & Htr' & Hall).
      rewrite Hn in Htr, Hres, Htr'. cbn [fst snd] in *.
      assert (evs' = evs) by
        (apply (app_inv_head (trace s)); rewrite <- Htr, Htr'; reflexivity).
      subst evs'.
      apply (Hres r eq_refl); [|exact Hjira|eexists; apply count_only_mode_spec].
      intros msg e Hin [req E]. rewrite Forall_forall in Hall.
      destruct (Hall e Hin) as (req' & w & E'). rewrite E in E'.
      injection E' as _ E'. unfold C', with_jira_client in E'. cbn [jira_search] in E'.
      destruct (http req' w). discriminate.
    + intros Hfail.
      unfold _execute_jql, try_except, bind in Hn.
      rewrite count_only_mode_spec in Hn. cbn [lift ret] in Hn.
      unfold first_request in Hfail.
      assert (Hs : forall req,
                http_failed (fst (http req (world s))) = true ->
                exists s1, search C' self req s = (Val JiraClient.empty_page, s1)).
      { intros req Hf. unfold search. rewrite Hjira. unfold call, C'.
        cbn [with_jira_client jira_search].
        destruct (http req (world s)) as [reply w']. cbn [fst] in Hf.
        rewrite (search_of_failed_reply reply Hf). eexists. reflexivity. }
      destruct (Spec.count_only q intent).
      * destruct (Hs _ Hfail) as [s1 Es]. rewrite Es in Hn.
        injection Hn as <- _. repeat split.
      * destruct n as [|n]; [discriminate|].
        cbn [fetch_pages] in Hn. unfold bind in Hn.
        destruct (Hs _ Hfail) as [s1 Es]. rewrite Es in Hn.
        injection Hn as <- _. repeat split.
Qed.

Lemma execute_jql_failure_handling_witness :
  jira_client Examples.full_engine = true
  /\ http_failed (fst (Examples.failing_http
                         (first_request "project = CCM" None) tt)) = true
  /\ exists n r s',
       (forall fuel, n <= fuel ->
          _execute_jql (with_jira_client Examples.failing_http Examples.inert)
            Examples.full_engine fuel (JqlStr "project = CCM") None
            (Examples.fresh tt) = (Val r, s'))
       /\ error r = None
       /\ results r = [] /\ total_count r = 0 /\ retrieved_count r = 0.
Proof.
  split; [reflexivity|]. split; [reflexivity|].
  destruct (proj2 (proj2 execute_jql_failure_handling) unit Examples.failing_http
              Examples.inert Examples.full_engine "project = CCM" None
              (Examples.fresh tt) eq_refl)
    as (n & r & s' & H1 & H2 & H3).
  exists n, r, s'. split; [exact H1|]. split; [exact H2|]. apply H3. reflexivity.
Defined.

(** ** The ticket-key pattern and the deterministic fallbacks *)

(** [ascii_text] holds of the texts whose characters are all below 128; a
    letter with an accent takes two characters, both above. *)
Lemma ascii_text_spec :
  (forall s : string,
      ascii_text s = true
      <-> Forall (fun c => nat_of_ascii c < 128) (list_ascii_of_string s))
  /\ ascii_text "CCM-283 details" = true
  /\ ascii_text "Café" = false.
Proof.
  split; [|split; reflexivity].
  induction s as [|c s IH]; cbn [ascii_text all_chars list_ascii_of_string].
  - split; [constructor | reflexivity].
  - fold (ascii_text s). rewrite andb_true_iff, IH, Nat.ltb_lt. split.
    + intros [Hc Hs]. constructor; assumption.
    + intros H. inversion H; subst. split; assumption.
Qed.

Lemma span_spec (p : ascii -> bool) (s run rest : string) :
  KeyPattern.span p s = (run, rest) ->
  s = run +++ rest /\ all_chars p run = true.
Proof.
  revert run rest. induction s as [|c s IH]; intros run rest H; cbn in H.
  - injection H as <- <-. split; reflexivity.
  - destruct (p c) eqn:Ep.
    + destruct (KeyPattern.span p s) as [run' rest'] eqn:Es.
      injection H as <- <-. destruct (IH _ _ eq_refl) as [-> Hall].
      split; [reflexivity|]. cbn. rewrite Ep, Hall. reflexivity.
    + injection H as <- <-. split; reflexivity.
Qed.

(** A match at the head of [s] is a ticket key that [s] starts with. *)
Lemma match_here_spec (s k : string) :
  KeyPattern.match_here s = Some k ->
  ticket_key k /\ exists post, s = k +++ post.
Proof.
  unfold KeyPattern.match_here.
  destruct (KeyPattern.span Str.is_letter s) as [letters r1] eqn:E1.
  destruct (Nat.leb_spec 2 (String.length letters)) as [Hl|]; [|discriminate].
  destruct r1 as [|c r2]; [discriminate|].
  destruct (Nat.eqb_spec (nat_of_ascii c) 45) as [Hc|]; [|discriminate].
  destruct (KeyPattern.span Str.is_digit r2) as [digits r3] eqn:E2.
  destruct (Nat.leb_spec 1 (String.length digits)) as [Hd|]; [|discriminate].
  destruct (KeyPattern.boundary_after r3); [|discriminate].
  cbn [andb]. intros [= <-].
  apply span_spec in E1, E2. destruct E1 as [-> Hls], E2 as [-> Hds].
  assert (c = "-"%char) as ->.
  { rewrite <- (ascii_nat_embedding c), Hc. reflexivity. }
  split.
  - exists letters, digits. repeat split; assumption.
  - exists r3. rewrite !append_assoc. reflexivity.
Qed.

(** What the search finds is a ticket key that occurs in the text. *)
Lemma search_from_spec (prev_word : bool) (s k : string) :
  KeyPattern.search_from prev_word s = Some k ->
  ticket_key k /\ exists pre post, s = pre +++ k +++ post.
Proof.
  revert prev_word. induction s as [|c s IH]; intros prev_word H; [discriminate|].
  cbn [KeyPattern.search_from] in H.
  destruct (if prev_word then None else KeyPattern.match_here (String c s))
    as [k'|] eqn:Em.
  - injection H as ->. destruct prev_word; [discriminate|].
    apply match_here_spec in Em. destruct Em as [Hk [post Hp]].
    split; [exact Hk|]. exists EmptyString, post. exact Hp.
  - apply IH in H. destruct H as [Hk (pre & post & ->)].
    split; [exact Hk|]. exists (String c pre), post. reflexivity.
Qed.





Lemma prefix_inv (n s : string) :
  String.prefix n s = true -> exists post, s = n +++ post.
Proof.
  revert s. induction n as [|a n IH]; intros s H.
  - exists s. reflexivity.
  - destruct s as [|b s]; [discriminate|]. cbn in H.
    destruct (ascii_dec a b) as [->|]; [|discriminate].
    destruct (IH s H) as [post ->]. exists post. reflexivity.
Qed.

(** A text in which [n] occurs is built around [n]. *)
Lemma contains_inv (n s : string) :
  Str.contains n s = true -> exists pre post, s = pre +++ n +++ post.
Proof.
  induction s as [|c s IH]; cbn [Str.contains]; intros H.
  - rewrite orb_false_r in H. apply prefix_inv in H. destruct H as [post ->].
    exists EmptyString, post. reflexivity.
  - apply orb_true_iff in H. destruct H as [H|H].
    + apply prefix_inv in H. destruct H as [post ->].
      exists EmptyString, post. reflexivity.
    + destruct (IH H) as (pre & post & ->). exists (String c pre), post. reflexivity.
Qed.

(** A text that lacks a part of [n] lacks [n]. *)
Lemma lacks_part (a m b s : string) :
  Str.contains m s = false -> Str.contains (a +++ m +++ b) s = false.
Proof.
  intros Hm. destruct (Str.contains (a +++ m +++ b) s) eqn:E; [|reflexivity].
  apply contains_inv in E. destruct E as (pre & post & ->).
  rewrite <- Hm. symmetry.
  replace (pre +++ (a +++ m +++ b) +++ post) with ((pre +++ a) +++ m +++ (b +++ post))
    by (rewrite !append_assoc; reflexivity).
  apply contains_middle.
Qed.





Section FallbackLog.

Context {W : Type}.
Variable C : collaborators W.
Variable self : engine.
Variable P : event -> Prop.

Lemma emits_get_projects :
  (forall o, P (JiraGetProjects o)) -> emits P (get_projects C self).
Proof.
  intros H. unfold get_projects. destruct (jira_client self);
    [apply emits_call; intros; apply H | apply emits_raise].
Qed.

(** [_fallback_processing] asks the tracker for the projects and then for
    the query it built from them; it calls nothing else. *)
Lemma emits_fallback_processing (fuel : nat) (u : string) :
  (forall o, P (JiraGetProjects o)) ->
  (forall projects req o,
      req_jql req = JqlStr (Fallback.jql u projects) -> P (JiraSearch req o)) ->
  emits P (_fallback_processing C self fuel u).
Proof.
  intros Hp Hs. unfold _fallback_processing.
  apply emits_try_except; [|intros; apply emits_ret].
  apply emits_bind; [apply emits_get_projects, Hp|]. intros projects.
  apply emits_bind.
  - apply emits_execute_jql; intros; apply (Hs projects); reflexivity.
  - intros jql_result. apply emits_bind; [apply emits_lift|].
    intros; apply emits_ret.
Qed.


End FallbackLog.


(** The key at a failing input.  The pattern ignores letter case, and the
    text it matches goes into the query as the utterance spells it: a key
    typed in lower case is not brought to upper case, neither by the
    fallback analysis nor by [_fallback_processing] (the ticket handler of
    [main.py] applies [.upper()] to the same match). *)
Lemma lower_case_key_is_not_upper_cased :
  let u := "please show ab-1 now" in
  ascii_text u = true
  /\ KeyPattern.search u = Some "ab-1"
  /\ qa_jql (analysis_fallback u ["AB"]) = Some (JqlStr ("issue = " +++ Str.quoted "ab-1"))
  /\ Fallback.jql u [] = "issue = " +++ Str.quoted "ab-1"
  /\ Str.upper "ab-1" = "AB-1"
  /\ ~ upper_case "ab-1".
Proof. repeat split. discriminate. Qed.

(** With a Jira client, what [_analyze_query] returns is the analysis the
    completion service sent, or the fallback analysis. *)
Lemma analyze_query_inv {W : Type} (C : collaborators W) (self : engine)
    (fuel : nat) (u : string) (s s' : state W) (qa : query_analysis) :
  jira_client self = true ->
  _analyze_query C self fuel u s = (Val qa, s') ->
  (exists raw, json_loads C raw = Returns qa)
  \/ (exists project_keys, qa = analysis_fallback u project_keys).
Proof.
  intros Hj. unfold _analyze_query. rewrite Hj. cbn [negb].
  unfold bind at 1.
  destruct (try_except _ _ s) as [[project_keys|msg|] s1]; try discriminate.
  unfold bind at 1. cbn [get_context].
  unfold try_except, bind.
  destruct (chat C self _ _) as [[raw|msg|] s2]; try discriminate.
  - destruct (json_loads C raw) as [qa'|msg] eqn:Ej; cbn [lift ret raise].
    + intros [= <- _]. left. exists raw. exact Ej.
    + intros [= <- _]. right. exists project_keys. reflexivity.
  - cbn [ret]. intros [= <- _]. right. exists project_keys. reflexivity.
Qed.



(** ** The pipeline and its log *)

Ltac emits_step :=
  lazymatch goal with
  | |- emits _ (bind _ _) => apply emits_bind; [|intros]
  | |- emits _ (try_except _ _) => apply emits_try_except; [|intros]
  | |- emits _ (ret _) => apply emits_ret
  | |- emits _ (raise _) => apply emits_raise
  | |- emits _ (lift _) => apply emits_lift
  | |- emits _ (getitem _ _) => apply emits_getitem
  | |- emits _ get_context => apply emits_get_context
  | |- emits _ (do_add_context _ _ _ _) => apply emits_do_add_context
  | |- emits _ (if ?b then _ else _) => destruct b
  | |- emits _ (match ?x with _ => _ end) => destruct x
  end.

Section PipelineLog.

Context {W : Type}.
Variable C : collaborators W.
Variable self : engine.
Variable P : event -> Prop.

Hypothesis tracker_allowed : allows_tracker P.

Lemma emits_execute_jql_any (fuel : nat) (jql : jql_value) (intent : option string) :
  emits P (_execute_jql C self fuel jql intent).
Proof. apply emits_execute_jql; intros; apply tracker_allowed. Qed.

Lemma emits_fallback_processing_any (fuel : nat) (u : string) :
  emits P (_fallback_processing C self fuel u).
Proof. apply emits_fallback_processing; intros; apply tracker_allowed. Qed.

Lemma emits_compare_all (fuel : nat) (qa : query_analysis) (i : nat)
    (jql_list : list string) :
  emits P (compare_all C self fuel qa i jql_list).
Proof.
  revert i. induction jql_list as [|jql rest IH]; intros i; cbn [compare_all].
  - apply emits_ret.
  - unfold compare_one. repeat emits_step; try apply emits_execute_jql_any. apply IH.
Qed.

Hypothesis chat_allowed : allows_chat P.

Lemma emits_chat (req : chat_request) : emits P (chat C self req).
Proof.
  unfold chat. destruct (client self);
    [apply emits_call; intros; apply chat_allowed | apply emits_raise].
Qed.

Lemma emits_analyze_query (fuel : nat) (u : string) :
  emits P (_analyze_query C self fuel u).
Proof.
  unfold _analyze_query.
  repeat emits_step; try apply emits_fallback_processing_any; try apply emits_chat.
  apply emits_get_projects. apply tracker_allowed.
Qed.

Lemma emits_generate_response (u : string) (qa : query_analysis)
    (results : list issue) (t r : option nat) :
  emits P (_generate_response C self u qa results t r).
Proof. unfold _generate_response. repeat emits_step; apply emits_chat. Qed.

Lemma emits_generate_comparison_response (u : string) (qa : query_analysis)
    (all_results : list comparison_entry) :
  emits P (_generate_comparison_response C self u qa all_results).
Proof. unfold _generate_comparison_response. repeat emits_step; apply emits_chat. Qed.

(** The tracker flow calls the tracker and the completion service only. *)
Lemma emits_tracker_flow (fuel : nat) (u : string) :
  emits P (tracker_flow C self fuel u).
Proof.
  unfold tracker_flow.
  repeat emits_step;
    first [ apply emits_analyze_query | apply emits_compare_all
          | apply emits_generate_comparison_response | apply emits_execute_jql_any
          | apply emits_generate_response | apply emits_fallback_processing_any ].
Qed.

Lemma emits_jira_fallback (fuel : nat) (u : string) :
  emits P (jira_fallback C self fuel u).
Proof.
  unfold jira_fallback.
  repeat emits_step;
    first [ apply emits_analyze_query | apply emits_execute_jql_any ].
Qed.

Hypothesis documents_allowed : allows_documents P.

Lemma emits_search_pages (terms : string) (limit : nat) :
  emits P (search_pages C self terms limit).
Proof.
  unfold search_pages. destruct (confluence_client self);
    [apply emits_call; intros; apply documents_allowed | apply emits_raise].
Qed.

Lemma emits_search_keywords (keywords : list string) :
  emits P (search_keywords C self keywords).
Proof.
  induction keywords as [|k rest IH]; cbn [search_keywords].
  - apply emits_ret.
  - repeat emits_step; [apply emits_search_pages | apply IH].
Qed.

Lemma emits_process_confluence_query (u : string) :
  emits P (_process_confluence_query C self u).
Proof.
  unfold _process_confluence_query, _generate_confluence_response.
  repeat emits_step;
    first [ apply emits_search_pages | apply emits_search_keywords | apply emits_chat ].
Qed.

(** Whatever it does, [process_query] only adds calls to the log. *)
Lemma emits_process_query (fuel : nat) (u : string) :
  emits P (process_query C self fuel u).
Proof.
  unfold process_query.
  repeat emits_step;
    first [ apply emits_fallback_processing_any | apply emits_process_confluence_query
          | apply emits_jira_fallback | apply emits_tracker_flow ].
Qed.

End PipelineLog.

(** ** Routing *)

(** [__init__] leaves the completion client unset exactly when the API key
    is absent, empty, or starts with the placeholder prefix. *)
Lemma init_client_unset (j c : bool) (api_key : option string) :
  client (init j c api_key) = false
  <-> (api_key = None \/ api_key = Some EmptyString
       \/ exists rest, api_key = Some ("sk-your-actual" +++ rest)).
Proof.
  unfold init. cbn [client]. split.
  - destruct api_key as [k|]; [|intros _; left; reflexivity].
    cbn [truthy str_of get_or]. destruct k as [|a k]; [intros _; right; left; reflexivity|].
    cbn [Str.nonempty andb]. intros H. apply negb_false_iff in H.
    apply prefix_inv in H. destruct H as [rest ->].
    right. right. exists rest. reflexivity.
  - intros [-> | [-> | [rest ->]]]; try reflexivity.
    cbn [truthy str_of get_or]. unfold Str.startswith. rewrite prefix_app.
    apply andb_false_r.
Qed.

Lemma all_calls_are_not_documents :
  allows_tracker (fun e => document_call e = false)
  /\ allows_chat (fun e => document_call e = false).
Proof. repeat split. Qed.

(** C10.  When the completion client is not configured (the API key is
    absent, empty, or the placeholder), [process_query] is
    [_fallback_processing] for every utterance, whatever the utterance says
    and whether or not a document client is configured, and it makes no
    call to the document store: the routing rules are only looked at when
    the completion client is configured. *)
Theorem unconfigured_nlu_takes_fallback :
  (forall j c api_key,
      client (init j c api_key) = false
      <-> (api_key = None \/ api_key = Some EmptyString
           \/ exists rest, api_key = Some ("sk-your-actual" +++ rest)))
  /\ (forall (W : Type) (C : collaborators W) (self : engine) (fuel : nat)
             (u : string) (s : state W),
         client self = false ->
         process_query C self fuel u s = _fallback_processing C self fuel u s
         /\ extends_by (fun e => document_call e = false) s
              (snd (process_query C self fuel u s)))
  /\ (let u := "check the wiki for insurance eligibility" in
      let run := process_query Examples.with_documents
                   (init true true (Some "sk-your-actual-key-here")) 1 u
                   (Examples.fresh []) in
      Router.should_search_confluence_first u = true
      /\ existsb document_call (trace (snd run)) = false
      /\ option_map out_intent (value_of (fst run)) = Some (Some "enhanced_fallback")).
Proof.
  split; [exact init_client_unset|]. split; [|repeat split].
  intros W C self fuel u s Hc.
  assert (E : process_query C self fuel u s = _fallback_processing C self fuel u s)
    by (unfold process_query; rewrite Hc; reflexivity).
  split; [exact E|]. rewrite E.
  apply emits_fallback_processing_any. apply all_calls_are_not_documents.
Qed.

Lemma unconfigured_nlu_takes_fallback_witness :
  client Examples.no_nlu_engine = false
  /\ process_query Examples.with_documents Examples.no_nlu_engine 1
       "what is in the wiki?" (Examples.fresh [])
     = _fallback_processing Examples.with_documents Examples.no_nlu_engine 1
         "what is in the wiki?" (Examples.fresh []).
Proof.
  split; [reflexivity|].
  exact (proj1 (proj1 (proj2 unconfigured_nlu_takes_fallback) _
                  Examples.with_documents Examples.no_nlu_engine 1
                  "what is in the wiki?" (Examples.fresh []) eq_refl)).
Defined.

(** C5 (as stated) fails when the completion client is not configured:
    the utterance holds priority document keywords and the document client
    is configured (its store even holds a page), yet [process_query] goes
    to the tracker through [_fallback_processing] and never asks the
    document store. *)
Lemma priority_keyword_without_nlu_counterexample :
  let u := "check the wiki for insurance eligibility" in
  let run := process_query Examples.with_documents Examples.no_nlu_engine 1 u
               (Examples.fresh []) in
  Router.has_confluence_priority u = true
  /\ confluence_client Examples.no_nlu_engine = true
  /\ existsb document_call (trace (snd run)) = false
  /\ map asked (trace (snd run)) = [None; Some (0, 100)]
  /\ option_map out_intent (value_of (fst run)) = Some (Some "enhanced_fallback").
Proof. repeat split. Qed.

Section FirstCall.

Context {W : Type}.
Variable Q : event -> Prop.

Lemma starts_with_call {A : Type} (f : W -> outcome A * W) (log : outcome A -> event) :
  (forall o, Q (log o)) -> starts_with Q (@call W A f log).
Proof.
  intros H s. unfold call. destruct (f (world s)) as [o w'].
  exists (log o), []. split; [destruct o; reflexivity | apply H].
Qed.

Lemma starts_with_then {A : Type} (m : M W A) (s : state W) (s' : state W) :
  starts_with Q m -> extends_by (fun _ => True) (snd (m s)) s' ->
  exists ev evs, trace s' = trace s ++ ev :: evs /\ Q ev.
Proof.
  intros Hm (more & E & _). destruct (Hm s) as (ev & evs & E1 & Hq).
  exists ev, (evs ++ more). split; [|exact Hq].
  rewrite E, E1, <- app_assoc. reflexivity.
Qed.

Lemma starts_with_bind {A B : Type} (m : M W A) (k : A -> M W B) :
  starts_with Q m -> (forall a, emits (fun _ => True) (k a)) ->
  starts_with Q (bind m k).
Proof.
  intros Hm Hk s. apply (starts_with_then m s); [exact Hm|].
  unfold bind. destruct (m s) as [[a|msg|] s1]; cbn [snd];
    [apply Hk | apply extends_by_refl | apply extends_by_refl].
Qed.

Lemma starts_with_try_except {A : Type} (m : M W A) (h : string -> M W A) :
  starts_with Q m -> (forall msg, emits (fun _ => True) (h msg)) ->
  starts_with Q (try_except m h).
Proof.
  intros Hm Hh s. apply (starts_with_then m s); [exact Hm|].
  unfold try_except. destruct (m s) as [[a|msg|] s1]; cbn [snd];
    [apply extends_by_refl | apply Hh | apply extends_by_refl].
Qed.

End FirstCall.

Lemma anything_allowed :
  allows_tracker (fun _ : event => True) /\ allows_chat (fun _ : event => True)
  /\ allows_documents (fun _ : event => True).
Proof. repeat split. Qed.

(** With a document client, [_process_confluence_query] starts with a
    search of the document store for the extracted terms, limit 10. *)
Lemma process_confluence_query_starts {W : Type} (C : collaborators W)
    (self : engine) (u : string) :
  confluence_client self = true ->
  starts_with (fun ev => exists o,
                 ev = ConfluenceSearch (Terms._extract_confluence_search_terms u) 10 o)
    (_process_confluence_query C self u).
Proof.
  intros Hd. destruct anything_allowed as (Ht & Hc & Hdoc).
  unfold _process_confluence_query.
  apply starts_with_try_except; [|intros; apply emits_ret].
  apply starts_with_bind.
  - unfold search_pages. rewrite Hd. apply starts_with_call.
    intros o. exists o. reflexivity.
  - intros found. unfold _generate_confluence_response.
    repeat emits_step;
      first [ apply emits_search_pages | apply emits_search_keywords
            | apply emits_chat ]; assumption.
Qed.

(** C5 (amended).  When the completion client is configured: for every
    utterance that contains a priority document keyword, if the document
    client is configured, the first call [process_query] makes is a search
    of the document store (for the terms extracted from the utterance,
    limit 10), whatever tracker keywords the utterance also holds; and if
    the document client is not configured, [process_query] is the tracker
    flow for every utterance and never calls the document store. *)
Theorem routing_with_nlu_client :
  forall (W : Type) (C : collaborators W) (self : engine) (fuel : nat)
         (u : string) (s : state W),
    client self = true ->
    ((exists kw, In kw Router.confluence_priority_keywords
                 /\ Str.contains kw (Str.lower u) = true) ->
     confluence_client self = true ->
     exists o evs,
       trace (snd (process_query C self fuel u s))
       = trace s
         ++ ConfluenceSearch (Terms._extract_confluence_search_terms u) 10 o :: evs)
    /\ (confluence_client self = false ->
        process_query C self fuel u s = tracker_flow C self fuel u s
        /\ extends_by (fun e => document_call e = false) s
             (snd (process_query C self fuel u s))).
Proof.
  intros W C self fuel u s Hc. split.
  - intros (kw & Hin & Hkw) Hd.
    assert (Hp : Router.has_confluence_priority u = true).
    { unfold Router.has_confluence_priority, Str.any_in.
      apply existsb_exists. exists kw. split; assumption. }
    assert (E : process_query C self fuel u
                = bind (_process_confluence_query C self u)
                    (fun confluence_result =>
                       if negb (is_nil (hits_of (out_data confluence_result)))
                       then ret confluence_result
                       else jira_fallback C self fuel u)).
    { unfold process_query, Router.should_search_confluence_first.
      rewrite Hc, Hp, Hd. reflexivity. }
    rewrite E. destruct anything_allowed as (Ht & Hch & _).
    assert (Hk : forall r : query_result,
               emits (fun _ => True)
                 (if negb (is_nil (hits_of (out_data r)))
                  then ret r else jira_fallback C self fuel u)).
    { intros r. destruct (negb (is_nil (hits_of (out_data r))));
        [apply emits_ret | apply emits_jira_fallback; assumption]. }
    destruct (starts_with_bind _ _ _
                (process_confluence_query_starts C self u Hd) Hk s)
      as (ev & evs & Etr & o & ->).
    exists o, evs. exact Etr.
  - intros Hd.
    assert (E : process_query C self fuel u s = tracker_flow C self fuel u s).
    { unfold process_query. rewrite Hc, Hd, andb_false_r. reflexivity. }
    split; [exact E|]. rewrite E.
    apply emits_tracker_flow; apply all_calls_are_not_documents.
Qed.

Lemma routing_with_nlu_client_witness :
  client Examples.full_engine = true
  /\ (exists kw, In kw Router.confluence_priority_keywords
                 /\ Str.contains kw (Str.lower "Open bugs in the Wiki sprint") = true)
  /\ confluence_client Examples.full_engine = true
  /\ exists o evs,
       trace (snd (process_query Examples.with_documents Examples.full_engine 1
                     "Open bugs in the Wiki sprint" (Examples.fresh [])))
       = ConfluenceSearch
           (Terms._extract_confluence_search_terms "Open bugs in the Wiki sprint")
           10 o :: evs.
Proof.
  assert (Hkw : exists kw, In kw Router.confluence_priority_keywords
                 /\ Str.contains kw (Str.lower "Open bugs in the Wiki sprint") = true).
  { exists "wiki". split; [right; left; reflexivity | reflexivity]. }
  split; [reflexivity|]. split; [exact Hkw|]. split; [reflexivity|].
  exact (proj1 (routing_with_nlu_client _ Examples.with_documents Examples.full_engine 1
                  "Open bugs in the Wiki sprint" (Examples.fresh []) eq_refl)
           Hkw eq_refl).
Defined.

(** ** Comparison batches *)

Section ComparisonFacts.

Context {W : Type}.
Variable C : collaborators W.
Variable self : engine.

(** The entry of one entity is read off the result of its own query, and
    its [error] member is never set: [_execute_jql] does not raise, so the
    [except] branch that would set it is never taken, and the [error] of the
    result is not copied. *)
Lemma compare_one_inv (fuel : nat) (qa : query_analysis) (i : nat) (jql : string)
    (s s' : state W) (e : comparison_entry) :
  compare_one C self fuel qa i jql s = (Val e, s') ->
  exists jql_result,
    _execute_jql C self fuel (JqlStr jql) (qa_intent qa) s = (Val jql_result, s')
    /\ e = {| entity := entity_label qa i;
              entry_jql := jql;
              entry_results := results jql_result;
              count := total_count jql_result;
              entry_retrieved_count := retrieved_count jql_result;
              entry_error := None |}.
Proof.
  unfold compare_one, try_except, bind.
  pose proof (execute_jql_never_raises C self fuel (JqlStr jql) (qa_intent qa) s) as Hn.
  destruct (_execute_jql C self fuel (JqlStr jql) (qa_intent qa) s)
    as [[jr|msg|] s1]; cbn [fst] in Hn.
  - cbn [ret]. intros [= <- <-]. exists jr. split; reflexivity.
  - destruct (Hn msg eq_refl).
  - discriminate.
Qed.

Lemma compare_one_never_raises (fuel : nat) (qa : query_analysis) (i : nat)
    (jql : string) (s : state W) (msg : string) :
  fst (compare_one C self fuel qa i jql s) <> Exc msg.
Proof.
  unfold compare_one, try_except, bind.
  destruct (_execute_jql C self fuel (JqlStr jql) (qa_intent qa) s)
    as [[jr|m|] s1]; discriminate.
Qed.

(** The batch: one entry per query, in order, none carrying an error, and
    no query of the batch stops the others. *)
Lemma compare_all_inv (fuel : nat) (qa : query_analysis) (jql_list : list string) :
  forall (i : nat) (s : state W),
    (forall msg, fst (compare_all C self fuel qa i jql_list s) <> Exc msg)
    /\ forall es s', compare_all C self fuel qa i jql_list s = (Val es, s') ->
         map entry_jql es = jql_list
         /\ map entity es = map (entity_label qa) (seq i (length jql_list))
         /\ Forall (fun e => entry_error e = None) es.
Proof.
  induction jql_list as [|jql rest IH]; intros i s; cbn [compare_all].
  - split; [intros ? H; cbn in H; discriminate H|].
    intros es s' [= <- _]. repeat split. constructor.
  - unfold bind.
    pose proof (compare_one_never_raises fuel qa i jql s) as Hn.
    destruct (compare_one C self fuel qa i jql s) as [[e|m|] s1] eqn:E1;
      cbn [fst] in Hn;
      [| destruct (Hn m eq_refl) | split; [intros ? H | intros ? ? H]; discriminate H].
    destruct (IH (S i) s1) as [Hraise Hval].
    destruct (compare_all C self fuel qa (S i) rest s1) as [[es|m|] s2];
      cbn [fst] in Hraise;
      [| destruct (Hraise m eq_refl) | split; [intros ? H | intros ? ? H]; discriminate H].
    split; [intros ? H; discriminate H|]. cbn [ret]. intros es' s' [= <- <-].
    destruct (Hval es s2 eq_refl) as (H1 & H2 & H3).
    apply compare_one_inv in E1. destruct E1 as (jr & _ & ->).
    cbn [map entry_jql entity length seq]. rewrite H1, H2.
    repeat split. constructor; [reflexivity | exact H3].
Qed.

(** A comparison response is always produced. *)
Lemma generate_comparison_response_returns (u : string) (qa : query_analysis)
    (all_results : list comparison_entry) (s : state W) :
  exists text s', _generate_comparison_response C self u qa all_results s
                  = (Val text, s').
Proof.
  unfold _generate_comparison_response, try_except, chat.
  destruct (client self); [unfold call | unfold raise].
  - destruct (chat_completion C _ (world s)) as [[text|msg] w']; eexists; eexists;
      reflexivity.
  - eexists; eexists; reflexivity.
Qed.

End ComparisonFacts.

(** C8, the code at a failing input.  In a comparison of Alice and Bob the
    search for Alice times out and the search for Bob returns two issues.
    The batch is not aborted, Bob's entry is populated from his own query,
    and a response is produced; but the entry of Alice carries no [error]:
    it reads as an entity with no data ("0 items (no data found)"), where an
    entry that carried the error would read "Error - timed out".  In
    general an entry built by the comparison loop never carries an [error],
    whatever happened to its query. *)
Theorem comparison_failure_leaves_no_error :
  (forall (W : Type) (C : collaborators W) (self : engine) (fuel : nat)
          (qa : query_analysis) (jql_list : list string) (i : nat) (s : state W),
      (forall msg, fst (compare_all C self fuel qa i jql_list s) <> Exc msg)
      /\ forall es s', compare_all C self fuel qa i jql_list s = (Val es, s') ->
           map entry_jql es = jql_list
           /\ map entity es = map (entity_label qa) (seq i (length jql_list))
           /\ Forall (fun e => entry_error e = None) es)
  /\ (let run := process_query Examples.comparing Examples.full_engine 1
                   "Who is busier: Alice or Bob?"
                   (Examples.fresh [Raises "timed out"; Examples.page 0 2 2]) in
      let alice := {| entity := "Alice";
                      entry_jql := "assignee = " +++ Str.quoted "Alice";
                      entry_results := [];
                      count := 0;
                      entry_retrieved_count := 0;
                      entry_error := None |} in
      let bob := {| entity := "Bob";
                    entry_jql := "assignee = " +++ Str.quoted "Bob";
                    entry_results := [Examples.bare 0; Examples.bare 1];
                    count := 2;
                    entry_retrieved_count := 2;
                    entry_error := None |} in
      option_map out_data (value_of (fst run)) = Some (Entries [alice; bob])
      /\ option_map out_success (value_of (fst run)) = Some true
      /\ existsb (fun e => match e with
                           | JiraSearch _ (Raises _) => true
                           | _ => false
                           end) (trace (snd run)) = true
      /\ comparison_summary_of Examples.iso_month alice
         = "Alice: 0 items (no data found)"
      /\ comparison_summary_of Examples.iso_month
           {| entity := "Alice";
              entry_jql := "assignee = " +++ Str.quoted "Alice";
              entry_results := [];
              count := 0;
              entry_retrieved_count := 0;
              entry_error := Some "timed out" |}
         = "Alice: Error - timed out").
Proof.
  split; [|repeat split].
  intros W C self fuel qa jql_list i s. apply compare_all_inv.
Qed.

(** ** The comparison summary *)

(** C7 as the spec states it does not hold: the ranking is not by the
    number of records fetched.  Alice's query is answered with three
    records and a declared total of 500, Bob's with ten records and a
    declared total of 10.  The summary ranks Alice first, with 500 items and
    a margin of 490, although ten records were fetched for Bob and three
    for Alice. *)
Lemma ranking_by_reported_total_counterexample :
  let run := process_query Examples.comparing Examples.full_engine 1
               "Who is busier: Alice or Bob?"
               (Examples.fresh [Examples.page 0 3 500; Examples.page 0 10 10]) in
  let alice := {| entity := "Alice";
                  entry_jql := "assignee = " +++ Str.quoted "Alice";
                  entry_results := map Examples.bare (seq 0 3);
                  count := 500;
                  entry_retrieved_count := 3;
                  entry_error := None |} in
  let bob := {| entity := "Bob";
                entry_jql := "assignee = " +++ Str.quoted "Bob";
                entry_results := map Examples.bare (seq 0 10);
                count := 10;
                entry_retrieved_count := 10;
                entry_error := None |} in
  option_map out_data (value_of (fst run)) = Some (Entries [alice; bob])
  /\ length (entry_results alice) = 3
  /\ length (entry_results bob) = 10
  /\ option_map out_response (value_of (fst run))
     = Some (Text (_fallback_comparison_response
                     "Who is busier: Alice or Bob?" [alice; bob]))
  /\ ranked [alice; bob] = [("Alice", 500); ("Bob", 10)]
  /\ winner_lines (ranked [alice; bob])
     = ["🏆 **Winner**: Alice with 500 items";
        "📈 **Difference**: 490 more items than Bob"; EmptyString].
Proof.
  cbn zeta. repeat split; vm_compute; reflexivity.
Qed.

(** C7 (amended).  The count by which an entity is ranked is the total that
    the result of its query reports ([total_count]), whatever the number of
    records fetched for it.  The comparison summary ranks the entities by
    this count, highest first (the ranking is a rearrangement of the batch
    in which no later count is greater); when the batch has two entities or
    more, the leader is reported as winner with its margin over the
    runner-up when its count is strictly greater, and a tie is reported when
    the two leading counts are equal; each entity gets a percentage line
    exactly when the combined total is not zero.  The percentage printed is
    the share [(count / total) * 100] computed in binary floating point and
    rounded to one decimal: it differs from the exact share by at most 0.05
    and a relative 2^-41 of that, each floating-point operation giving the
    nearest number with a mantissa of 53 bits.  For counts 12 and 7 the
    first entity wins by 5, and the shares are 63.2% and 36.8%; 23 of 80 is
    printed as 28.7%, and 49 of 80 as 61.3%. *)
Theorem comparison_ranking_winner_shares :
  (forall (W : Type) (C : collaborators W) (self : engine) (fuel : nat)
          (qa : query_analysis) (i : nat) (jql : string) (s s' : state W)
          (e : comparison_entry),
      compare_one C self fuel qa i jql s = (Val e, s') ->
      exists jql_result,
        _execute_jql C self fuel (JqlStr jql) (qa_intent qa) s = (Val jql_result, s')
        /\ count e = total_count jql_result
        /\ entry_results e = results jql_result
        /\ entry_retrieved_count e = retrieved_count jql_result)
  /\ (forall all_results,
         Permutation (ranked all_results)
           (map (fun r => (entity r, count r)) all_results)
         /\ Sorted count_desc (ranked all_results))
  /\ (forall all_results e1 c1 e2 c2 rest,
         ranked all_results = (e1, c1) :: (e2, c2) :: rest ->
         c2 <= c1
         /\ winner_lines (ranked all_results)
            = (if c2 <? c1
               then ["🏆 **Winner**: " +++ e1 +++ " with " +++ Str.of_nat c1 +++ " items";
                     "📈 **Difference**: " +++ Str.of_nat (c1 - c2)
                       +++ " more items than " +++ e2]
               else ["🤝 **Tied**: Both " +++ e1 +++ " and " +++ e2 +++ " have "
                       +++ Str.of_nat c1 +++ " items"])
              ++ [EmptyString])
  /\ (forall all_results,
         let total := fold_right (fun r acc => count r + acc) 0 all_results in
         insight_lines (ranked all_results)
         = (if total =? 0 then []
            else map (fun ec => "- " +++ fst ec +++ " handles "
                                +++ percentage_1f (snd ec) total +++ "% of the workload")
                     (ranked all_results))
         /\ Forall (fun ec =>
                      let t := share_tenths (snd ec) total in
                      percentage_1f (snd ec) total
                      = Str.of_nat (t / 10) +++ "." +++ Str.of_nat (t mod 10)
                      /\ (2 ^ 42 * Z.abs (Z.of_nat t * Z.of_nat total
                                          - 1000 * Z.of_nat (snd ec))
                          <= (2 ^ 41 + 1) * Z.of_nat total)%Z)
                   (ranked all_results))
  /\ (forall num den : Z,
         (0 < num)%Z -> (0 < den)%Z ->
         let x := Binary64.round num den in
         (2 ^ 52 <= Binary64.mantissa x <= 2 ^ 53)%Z
         /\ (2 * Z.abs (Binary64.mantissa x
                        * (den * Binary64.pow2 (Binary64.exponent x))
                        - num * Binary64.pow2 (- Binary64.exponent x))
             <= den * Binary64.pow2 (Binary64.exponent x))%Z)
  /\ (forall user_query all_results,
         _fallback_comparison_response user_query all_results
         = Str.join Str.nl
             (["🔍 **Comparison Analysis**"; EmptyString; "📊 **Results Summary:**"]
              ++ map (fun ec => "- **" +++ fst ec +++ "**: " +++ Str.of_nat (snd ec)
                                +++ " items") (ranked all_results)
              ++ [EmptyString]
              ++ winner_lines (ranked all_results)
              ++ ["💡 **Key Insights:**"]
              ++ insight_lines (ranked all_results)))
  /\ (let batch :=
        [{| entity := "Alice"; entry_jql := "assignee = Alice"; entry_results := [];
            count := 12; entry_retrieved_count := 12; entry_error := None |};
         {| entity := "Bob"; entry_jql := "assignee = Bob"; entry_results := [];
            count := 7; entry_retrieved_count := 7; entry_error := None |}] in
      ranked batch = [("Alice", 12); ("Bob", 7)]
      /\ winner_lines (ranked batch)
         = ["🏆 **Winner**: Alice with 12 items";
            "📈 **Difference**: 5 more items than Bob"; EmptyString]
      /\ insight_lines (ranked batch)
         = ["- Alice handles 63.2% of the workload";
            "- Bob handles 36.8% of the workload"]
      /\ (6315 * 19 < 12 * 10000 < 6325 * 19)%Z
      /\ (3675 * 19 < 7 * 10000 < 3685 * 19)%Z
      /\ map (fun ct => percentage_1f (fst ct) (snd ct))
           [(23, 80); (49, 80); (1, 16); (3, 16); (1, 3); (5, 5); (0, 7)]
         = ["28.7"; "61.3"; "6.2"; "18.8"; "33.3"; "100.0"; "0.0"]).
Proof.
  split.
  { intros W C self fuel qa i jql s s' e H.
    apply compare_one_inv in H. destruct H as (jr & Hrun & ->).
    exists jr. repeat split. exact Hrun. }
  split.
  { intros all_results. unfold ranked. split.
    - apply sorted_by_count_perm.
    - apply sorted_by_count_sorted. }
  split.
  { intros all_results e1 c1 e2 c2 rest Hr.
    assert (Hle : c2 <= c1).
    { pose proof (sorted_by_count_sorted
                    (map (fun r => (entity r, count r)) all_results)) as Hs.
      fold (ranked all_results) in Hs. rewrite Hr in Hs.
      inversion Hs as [|? ? _ Hhd]; subst. inversion Hhd; subst. assumption. }
    split; [exact Hle|].
    rewrite Hr. cbn [winner_lines].
    destruct (Nat.ltb_spec c2 c1) as [Hlt|Hge]; [reflexivity|].
    replace c2 with c1 by lia. rewrite Nat.eqb_refl. reflexivity. }
  split.
  { intros all_results. cbn zeta.
    rewrite <- (ranked_total all_results). split.
    - unfold insight_lines.
      destruct (total_items_of (ranked all_results)); reflexivity.
    - apply Forall_forall. intros ec Hin. split; [reflexivity|].
      pose proof (count_le_total _ _ Hin) as Hle.
      destruct (Nat.eq_dec (total_items_of (ranked all_results)) 0) as [Hz|Hnz].
      + rewrite Hz in *. replace (snd ec) with 0 by lia. vm_compute. discriminate.
      + apply share_tenths_accuracy; lia. }
  split; [exact round_spec|].
  split; [reflexivity|].
  cbn zeta. repeat split; try lia; vm_compute; reflexivity.
Qed.

Lemma comparison_ranking_winner_shares_witness :
  let batch :=
    [{| entity := "CCM"; entry_jql := "project = CCM"; entry_results := [];
        count := 4; entry_retrieved_count := 4; entry_error := None |};
     {| entity := "TI"; entry_jql := "project = TI"; entry_results := [];
        count := 4; entry_retrieved_count := 4; entry_error := None |}] in
  ranked batch = [("CCM", 4); ("TI", 4)]
  /\ winner_lines (ranked batch)
     = ["🤝 **Tied**: Both CCM and TI have 4 items"; EmptyString].
Proof.
  cbn zeta. split; [reflexivity|].
  refine (proj2 (proj1 (proj2 (proj2 comparison_ranking_winner_shares)) [_; _]
                  "CCM" 4 "TI" 4 [] _)).
  reflexivity.
Defined.

(** ** The tracker search after an empty document search *)

Section FallbackAfterDocuments.

Context {W : Type}.
Variable C : collaborators W.
Variable self : engine.

Lemma jira_fallback_inv (fuel : nat) (u : string) (s : state W) :
  (forall msg, fst (jira_fallback C self fuel u s) <> Exc msg)
  /\ forall r s', jira_fallback C self fuel u s = (Val r, s') ->
       out_success r = false /\ out_data r = Issues []
       /\ (out_source r = Some "no_results" \/ out_source r = Some "fallback_error").
Proof.
  unfold jira_fallback, try_except, bind.
  destruct (_analyze_query C self fuel u s) as [[qa|msg|] s1];
    [| split; [discriminate | intros r s' [= <- _]; repeat split; right; reflexivity]
     | split; [discriminate | discriminate]].
  destruct (getitem "jql" (qa_jql qa) s1) as [[jql|msg|] s2];
    [| split; [discriminate | intros r s' [= <- _]; repeat split; right; reflexivity]
     | split; [discriminate | discriminate]].
  destruct (_execute_jql C self fuel jql (qa_intent qa) s2) as [[jr|msg|] s3];
    [| split; [discriminate | intros r s' [= <- _]; repeat split; right; reflexivity]
     | split; [discriminate | discriminate]].
  destruct (negb (is_nil (results jr))); cbn [raise ret].
  - split; [discriminate | intros r s' [= <- _]; repeat split; right; reflexivity].
  - split; [discriminate | intros r s' [= <- _]; repeat split; left; reflexivity].
Qed.

End FallbackAfterDocuments.

(** After a document search that found nothing, the tracker search of
    [process_query] never reports success and never hands back issues: when
    the tracker does hold matching issues, the response is to be written by
    [_generate_text_response], which the class does not define, and the
    [except] of the block answers with source [fallback_error].  In the
    example the tracker returns two issues for the fallback query. *)
Theorem jira_fallback_never_reports_success :
  (forall (W : Type) (C : collaborators W) (self : engine) (fuel : nat)
          (u : string) (s : state W),
      (forall msg, fst (jira_fallback C self fuel u s) <> Exc msg)
      /\ forall r s', jira_fallback C self fuel u s = (Val r, s') ->
           out_success r = false /\ out_data r = Issues []
           /\ (out_source r = Some "no_results"
               \/ out_source r = Some "fallback_error"))
  /\ (let run := process_query Examples.scripted Examples.full_engine 1
                   "wiki page about onboarding"
                   (Examples.fresh [Examples.page 0 2 2]) in
      map asked (trace (snd run))
      = [None; None; None; None; None; None; None; Some (0, 100)]
      /\ option_map out_source (value_of (fst run)) = Some (Some "fallback_error")
      /\ option_map out_success (value_of (fst run)) = Some false
      /\ option_map out_data (value_of (fst run)) = Some (Issues [])).
Proof.
  split; [intros; apply jira_fallback_inv | repeat split].
Qed.

(** ** A list of queries handed to the executor *)

(** The mode test of [_execute_jql] on a list of queries: the three
    intent tests come first, and when none holds [jql.lower] is evaluated
    and raises. *)
Lemma count_only_mode_on_list (jql_list : list string) (intent : option string) :
  count_only_mode (JqlList jql_list) intent
  = if count_intent intent then Returns true
    else Raises "'list' object has no attribute 'lower'".
Proof.
  unfold count_only_mode, count_intent. destruct intent as [i|]; [|reflexivity].
  cbn [existsb]. rewrite orb_false_r, orb_assoc.
  destruct (_ || _); reflexivity.
Qed.

(** [_execute_jql] on a list of queries, which is what the tracker search
    after an empty document search passes for a comparison analysis.  Unless
    the intent is one of the three count intents, no request is made and
    the result is the error result of the attribute error on [jql.lower];
    the tracker search after an empty document search then answers that
    nothing was found, with the list as its query, and the tracker has not
    been asked. *)
Theorem execute_jql_on_query_list :
  forall (W : Type) (C : collaborators W) (self : engine) (fuel : nat)
         (jql_list : list string) (intent : option string),
    count_intent intent = false ->
    (forall s : state W,
        _execute_jql C self fuel (JqlList jql_list) intent s
        = (Val (error_result "'list' object has no attribute 'lower'"), s))
    /\ (forall (user_query : string) (qa : query_analysis) (s s1 : state W),
           _analyze_query C self fuel user_query s = (Val qa, s1) ->
           qa_jql qa = Some (JqlList jql_list) ->
           qa_intent qa = intent ->
           jira_fallback C self fuel user_query s
           = (Val {| out_jql := JqlList jql_list;
                     out_response := Text (Router.no_results_message user_query);
                     out_data := Issues [];
                     out_intent := intent;
                     out_success := false;
                     out_source := Some "no_results";
                     out_comparison_data := None |}, s1)).
Proof.
  intros W C self fuel jql_list intent Hi.
  assert (Hx : forall s : state W,
             _execute_jql C self fuel (JqlList jql_list) intent s
             = (Val (error_result "'list' object has no attribute 'lower'"), s)).
  { intros s. unfold _execute_jql, try_except, bind.
    rewrite count_only_mode_on_list, Hi. reflexivity. }
  split; [exact Hx|].
  intros u qa s s1 Hqa Hjql Hint.
  unfold jira_fallback, try_except, bind. rewrite Hqa, Hjql.
  cbn [getitem ret]. rewrite Hint, Hx. subst intent. reflexivity.
Qed.

Lemma execute_jql_on_query_list_witness :
  count_intent (Some "assignee_comparison") = false
  /\ _execute_jql Examples.scripted Examples.full_engine 1
       (JqlList ["assignee = Alice"; "assignee = Bob"]) (Some "assignee_comparison")
       (Examples.fresh [Examples.page 0 2 2])
     = (Val (error_result "'list' object has no attribute 'lower'"),
        Examples.fresh [Examples.page 0 2 2]).
Proof.
  split; [reflexivity|].
  exact (proj1 (execute_jql_on_query_list _ Examples.scripted Examples.full_engine 1
                  ["assignee = Alice"; "assignee = Bob"] (Some "assignee_comparison")
                  eq_refl)
           (Examples.fresh [Examples.page 0 2 2])).
Defined.

(** ** Runs that end *)

Section SettleFacts.

Context {W : Type}.

Lemma settles_const {A : Type} (m : M W A) :
  (forall s, fst (m s) <> OutOfFuel) -> settles (fun _ => m).
Proof. intros H s. exists 0, (m s). split; [apply H | reflexivity]. Qed.

Lemma settles_ret {A : Type} (a : A) : settles (fun _ : nat => @ret W A a).
Proof. apply settles_const. discriminate. Qed.

Lemma settles_raise {A : Type} (msg : string) : settles (fun _ : nat => @raise W A msg).
Proof. apply settles_const. discriminate. Qed.

Lemma settles_lift {A : Type} (o : outcome A) : settles (fun _ : nat => @lift W A o).
Proof. destruct o; [apply settles_ret | apply settles_raise]. Qed.

Lemma settles_getitem {A : Type} (k : string) (o : option A) :
  settles (fun _ : nat => @getitem W A k o).
Proof. destruct o; [apply settles_ret | apply settles_raise]. Qed.

Lemma settles_get_context : settles (fun _ : nat => @get_context W).
Proof. apply settles_const. discriminate. Qed.

Lemma settles_do_add_context {A : Type} (q j : string) (l : list A)
    (r : response_value) :
  settles (fun _ : nat => @do_add_context W A q j l r).
Proof. apply settles_const. discriminate. Qed.

Lemma settles_call {A : Type} (f : W -> outcome A * W) (log : outcome A -> event) :
  settles (fun _ : nat => @call W A f log).
Proof.
  apply settles_const. intros s. unfold call.
  destruct (f (world s)) as [[a|msg] w']; discriminate.
Qed.

Lemma settles_bind {A B : Type} (m : nat -> M W A) (k : nat -> A -> M W B) :
  settles m -> (forall a, settles (fun fuel => k fuel a)) ->
  settles (fun fuel => bind (m fuel) (k fuel)).
Proof.
  intros Hm Hk s. destruct (Hm s) as (n & [r s1] & Hr & Hn). cbn [fst] in Hr.
  destruct r as [a|msg|]; [| |contradiction].
  - destruct (Hk a s1) as (n' & out & Ho & Hn').
    exists (Nat.max n n'), out. split; [exact Ho|].
    intros fuel Hle. unfold bind. rewrite (Hn fuel) by lia. apply Hn'. lia.
  - exists n, (Exc msg, s1). split; [discriminate|].
    intros fuel Hle. unfold bind. rewrite (Hn fuel Hle). reflexivity.
Qed.

Lemma settles_try_except {A : Type} (m : nat -> M W A) (h : nat -> string -> M W A) :
  settles m -> (forall msg, settles (fun fuel => h fuel msg)) ->
  settles (fun fuel => try_except (m fuel) (h fuel)).
Proof.
  intros Hm Hh s. destruct (Hm s) as (n & [r s1] & Hr & Hn). cbn [fst] in Hr.
  destruct r as [a|msg|]; [| |contradiction].
  - exists n, (Val a, s1). split; [discriminate|].
    intros fuel Hle. unfold try_except. rewrite (Hn fuel Hle). reflexivity.
  - destruct (Hh msg s1) as (n' & out & Ho & Hn').
    exists (Nat.max n n'), out. split; [exact Ho|].
    intros fuel Hle. unfold try_except. rewrite (Hn fuel) by lia. apply Hn'. lia.
Qed.

(** A run that settles and lets no exception out returns a value. *)
Lemma settles_returns {A : Type} (f : nat -> M W A) (s : state W) :
  settles f -> (forall fuel msg, fst (f fuel s) <> Exc msg) ->
  exists n a s', forall fuel, n <= fuel -> f fuel s = (Val a, s').
Proof.
  intros Hf Hx. destruct (Hf s) as (n & [r s1] & Hr & Hn). cbn [fst] in Hr.
  destruct r as [a|msg|]; [| |contradiction].
  - exists n, a, s1. exact Hn.
  - exfalso. apply (Hx n msg). rewrite (Hn n (le_n n)). reflexivity.
Qed.

(** A [try] whose handler returns lets no exception out. *)
Lemma try_except_never_raises {A : Type} (m : M W A) (h : string -> M W A)
    (s : state W) :
  (forall msg s1 msg', fst (h msg s1) <> Exc msg') ->
  forall msg', fst (try_except m h s) <> Exc msg'.
Proof.
  intros Hh msg'. unfold try_except.
  destruct (m s) as [[a|msg|] s1]; [discriminate | apply Hh | discriminate].
Qed.

End SettleFacts.

Ltac settles_step :=
  lazymatch goal with
  | |- settles (fun _ => bind _ _) => apply settles_bind; [|intros]
  | |- settles (fun _ => try_except _ _) => apply settles_try_except; [|intros]
  | |- settles (fun _ => ret _) => apply settles_ret
  | |- settles (fun _ => raise _) => apply settles_raise
  | |- settles (fun _ => lift _) => apply settles_lift
  | |- settles (fun _ => getitem _ _) => apply settles_getitem
  | |- settles (fun _ => get_context) => apply settles_get_context
  | |- settles (fun _ => do_add_context _ _ _ _) => apply settles_do_add_context
  | |- settles (fun _ => call _ _) => apply settles_call
  | |- settles (fun _ => if ?b then _ else _) => destruct b
  | |- settles (fun _ => match ?x with _ => _ end) => destruct x
  end.

Section PipelineEnds.

Context {W : Type}.
Variable C : collaborators W.
Variable self : engine.

Lemma settles_execute_jql (jql : jql_value) (intent : option string) :
  settles (fun fuel => _execute_jql C self fuel jql intent).
Proof.
  intros s. destruct (execute_jql_returns C self jql intent s) as (n & r & s' & H).
  exists n, (Val r, s'). split; [discriminate | exact H].
Qed.

Lemma settles_get_projects : settles (fun _ : nat => get_projects C self).
Proof. unfold get_projects. repeat settles_step. Qed.

Lemma settles_chat (req : chat_request) : settles (fun _ : nat => chat C self req).
Proof. unfold chat. repeat settles_step. Qed.

Lemma settles_search_pages (terms : string) (limit : nat) :
  settles (fun _ : nat => search_pages C self terms limit).
Proof. unfold search_pages. repeat settles_step. Qed.

Lemma settles_fallback_processing (u : string) :
  settles (fun fuel => _fallback_processing C self fuel u).
Proof.
  unfold _fallback_processing.
  repeat settles_step; first [apply settles_get_projects | apply settles_execute_jql].
Qed.

Lemma settles_analyze_query (u : string) :
  settles (fun fuel => _analyze_query C self fuel u).
Proof.
  unfold _analyze_query.
  repeat settles_step;
    first [ apply settles_fallback_processing | apply settles_get_projects
          | apply settles_chat ].
Qed.

Lemma settles_compare_all (qa : query_analysis) (jql_list : list string) :
  forall i, settles (fun fuel => compare_all C self fuel qa i jql_list).
Proof.
  induction jql_list as [|jql rest IH]; intros i; cbn [compare_all].
  - apply settles_ret.
  - unfold compare_one. repeat settles_step; try apply settles_execute_jql. apply IH.
Qed.

Lemma settles_generate_response (u : string) (qa : query_analysis)
    (results : list issue) (t r : option nat) :
  settles (fun _ : nat => _generate_response C self u qa results t r).
Proof. unfold _generate_response. repeat settles_step; apply settles_chat. Qed.

Lemma settles_generate_comparison_response (u : string) (qa : query_analysis)
    (all_results : list comparison_entry) :
  settles (fun _ : nat => _generate_comparison_response C self u qa all_results).
Proof. unfold _generate_comparison_response. repeat settles_step; apply settles_chat. Qed.

Lemma settles_search_keywords (keywords : list string) :
  settles (fun _ : nat => search_keywords C self keywords).
Proof.
  induction keywords as [|k rest IH]; cbn [search_keywords].
  - apply settles_ret.
  - repeat settles_step; [apply settles_search_pages | apply IH].
Qed.

Lemma settles_process_confluence_query (u : string) :
  settles (fun _ : nat => _process_confluence_query C self u).
Proof.
  unfold _process_confluence_query, _generate_confluence_response.
  repeat settles_step;
    first [ apply settles_search_pages | apply settles_search_keywords
          | apply settles_chat ].
Qed.

Lemma settles_tracker_flow (u : string) :
  settles (fun fuel => tracker_flow C self fuel u).
Proof.
  unfold tracker_flow.
  repeat settles_step;
    first [ apply settles_analyze_query | apply settles_compare_all
          | apply settles_generate_comparison_response | apply settles_execute_jql
          | apply settles_generate_response | apply settles_fallback_processing ].
Qed.

Lemma settles_jira_fallback (u : string) :
  settles (fun fuel => jira_fallback C self fuel u).
Proof.
  unfold jira_fallback.
  repeat settles_step;
    first [ apply settles_analyze_query | apply settles_execute_jql ].
Qed.

Lemma settles_process_query (u : string) :
  settles (fun fuel => process_query C self fuel u).
Proof.
  unfold process_query.
  repeat settles_step;
    first [ apply settles_fallback_processing | apply settles_process_confluence_query
          | apply settles_jira_fallback | apply settles_tracker_flow ].
Qed.

Lemma fallback_processing_never_raises (fuel : nat) (u : string) (s : state W)
    (msg : string) :
  fst (_fallback_processing C self fuel u s) <> Exc msg.
Proof. unfold _fallback_processing. apply try_except_never_raises. discriminate. Qed.

Lemma process_confluence_query_never_raises (u : string) (s : state W) (msg : string) :
  fst (_process_confluence_query C self u s) <> Exc msg.
Proof. unfold _process_confluence_query. apply try_except_never_raises. discriminate. Qed.

Lemma tracker_flow_never_raises (fuel : nat) (u : string) (s : state W) (msg : string) :
  fst (tracker_flow C self fuel u s) <> Exc msg.
Proof.
  unfold tracker_flow. apply try_except_never_raises.
  intros ? ? ?. apply fallback_processing_never_raises.
Qed.

Lemma jira_fallback_never_raises (fuel : nat) (u : string) (s : state W) (msg : string) :
  fst (jira_fallback C self fuel u s) <> Exc msg.
Proof. unfold jira_fallback. apply try_except_never_raises. discriminate. Qed.

Lemma process_query_never_raises (fuel : nat) (u : string) (s : state W) (msg : string) :
  fst (process_query C self fuel u s) <> Exc msg.
Proof.
  unfold process_query. destruct (negb (client self));
    [apply fallback_processing_never_raises|].
  destruct (_ && _); [|apply tracker_flow_never_raises].
  unfold bind.
  pose proof (process_confluence_query_never_raises u s) as Hd.
  destruct (_process_confluence_query C self u s) as [[r|m|] s1]; cbn [fst] in Hd;
    [| destruct (Hd m eq_refl) | discriminate].
  destruct (negb _); [discriminate | apply jira_fallback_never_raises].
Qed.

End PipelineEnds.

(** [process_query] always answers: whatever the collaborators do (return,
    raise, send malformed data), no exception leaves [process_query], and it
    returns a result dictionary (the pagination loop ends). *)
Theorem process_query_always_answers :
  forall (W : Type) (C : collaborators W) (self : engine) (u : string) (s : state W),
    (forall fuel msg, fst (process_query C self fuel u s) <> Exc msg)
    /\ exists n r s', forall fuel, n <= fuel ->
         process_query C self fuel u s = (Val r, s').
Proof.
  intros W C self u s.
  split; [intros fuel msg; apply process_query_never_raises|].
  apply settles_returns; [apply settles_process_query|].
  intros fuel msg. apply process_query_never_raises.
Qed.

(** ** The conversation context across a query *)

Section TurnFacts.

Context {W : Type}.

Lemma quiet_ret {A : Type} (a : A) : quiet (@ret W A a).
Proof. intros s. reflexivity. Qed.

Lemma quiet_raise {A : Type} (msg : string) : quiet (@raise W A msg).
Proof. intros s. reflexivity. Qed.

Lemma quiet_lift {A : Type} (o : outcome A) : quiet (@lift W A o).
Proof. destruct o; [apply quiet_ret | apply quiet_raise]. Qed.

Lemma quiet_getitem {A : Type} (k : string) (o : option A) : quiet (@getitem W A k o).
Proof. destruct o; [apply quiet_ret | apply quiet_raise]. Qed.

Lemma quiet_get_context : quiet (@get_context W).
Proof. intros s. reflexivity. Qed.

Lemma quiet_call {A : Type} (f : W -> outcome A * W) (log : outcome A -> event) :
  quiet (@call W A f log).
Proof.
  intros s. unfold call. destruct (f (world s)) as [[a|msg] w']; reflexivity.
Qed.

Lemma quiet_out_of_fuel {A : Type} : quiet (@out_of_fuel W A).
Proof. intros s. reflexivity. Qed.

(** A quiet method, then a continuation that changes the context by [R]. *)
Lemma turns_bind {A B : Type} (R : list context_entry -> list context_entry -> Prop)
    (m : M W A) (k : A -> M W B) :
  (forall ctx, R ctx ctx) -> quiet m -> (forall a, turns R (k a)) ->
  turns R (bind m k).
Proof.
  intros Hrefl Hm Hk s. unfold bind. specialize (Hm s).
  destruct (m s) as [[a|msg|] s1]; cbn [snd] in *.
  - rewrite Hm at 1. apply Hk.
  - rewrite <- Hm. apply Hrefl.
  - rewrite <- Hm. apply Hrefl.
Qed.


Lemma turns_try_quiet {A : Type}
    (R : list context_entry -> list context_entry -> Prop)
    (m : M W A) (h : string -> M W A) :
  turns R m -> (forall msg, quiet (h msg)) -> turns R (try_except m h).
Proof.
  intros Hm Hh s. unfold try_except. specialize (Hm s).
  destruct (m s) as [[a|msg|] s1]; cbn [snd] in *; try exact Hm.
  rewrite <- (Hh msg s1). exact Hm.
Qed.

Lemma quiet_bind {A B : Type} (m : M W A) (k : A -> M W B) :
  quiet m -> (forall a, quiet (k a)) -> quiet (bind m k).
Proof. intros Hm Hk. apply turns_bind; [reflexivity | exact Hm | exact Hk]. Qed.

Lemma quiet_try_except {A : Type} (m : M W A) (h : string -> M W A) :
  quiet m -> (forall msg, quiet (h msg)) -> quiet (try_except m h).
Proof. intros Hm Hh. apply turns_try_quiet; assumption. Qed.


End TurnFacts.

Ltac quiet_step :=
  lazymatch goal with
  | |- quiet (bind _ _) => apply quiet_bind; [|intros]
  | |- quiet (try_except _ _) => apply quiet_try_except; [|intros]
  | |- quiet (ret _) => apply quiet_ret
  | |- quiet (raise _) => apply quiet_raise
  | |- quiet (lift _) => apply quiet_lift
  | |- quiet (getitem _ _) => apply quiet_getitem
  | |- quiet get_context => apply quiet_get_context
  | |- quiet (call _ _) => apply quiet_call
  | |- quiet out_of_fuel => apply quiet_out_of_fuel
  | |- quiet (if ?b then _ else _) => destruct b
  | |- quiet (match ?x with _ => _ end) => destruct x
  end.

Section PipelineTurns.

Context {W : Type}.
Variable C : collaborators W.
Variable self : engine.

Lemma quiet_search (req : search_request) : quiet (search C self req).
Proof. unfold search. repeat quiet_step. Qed.

Lemma quiet_fetch_pages (fuel : nat) (jql : jql_value) :
  forall start_at total acc, quiet (fetch_pages C self fuel jql start_at total acc).
Proof.
  induction fuel as [|fuel IH]; intros start_at total acc; cbn [fetch_pages].
  - apply quiet_out_of_fuel.
  - repeat quiet_step; first [apply quiet_search | apply IH].
Qed.

Lemma quiet_execute_jql (fuel : nat) (jql : jql_value) (intent : option string) :
  quiet (_execute_jql C self fuel jql intent).
Proof.
  unfold _execute_jql.
  repeat quiet_step; first [apply quiet_search | apply quiet_fetch_pages].
Qed.

Lemma quiet_get_projects : quiet (get_projects C self).
Proof. unfold get_projects. repeat quiet_step. Qed.



Lemma quiet_fallback_processing (fuel : nat) (u : string) :
  quiet (_fallback_processing C self fuel u).
Proof.
  unfold _fallback_processing.
  repeat quiet_step; first [apply quiet_get_projects | apply quiet_execute_jql].
Qed.












End PipelineTurns.




(** ** What every result of the executor satisfies *)

Lemma forallb_filter {A : Type} (p : A -> bool) (l : list A) :
  forallb p (filter p l) = true.
Proof.
  induction l as [|a l IH]; [reflexivity|]. cbn [filter].
  destruct (p a) eqn:E; [cbn [forallb]; rewrite E, IH; reflexivity | exact IH].
Qed.

(** Whatever the tracker answers, a result of [_execute_jql] is coherent:
    [retrieved_count] is the number of records returned; every record
    returned has a key or a summary; a count-only result holds no records
    and no error; a result with an error is the zero result; and a result
    that holds records reports a total of at least one. *)
Theorem execute_jql_result_is_coherent :
  forall (W : Type) (C : collaborators W) (self : engine) (fuel : nat)
         (jql : jql_value) (intent : option string) (s s' : state W)
         (r : fetch_result),
    _execute_jql C self fuel jql intent s = (Val r, s') ->
    retrieved_count r = length (results r)
    /\ forallb has_essential_data (results r) = true
    /\ (is_count_only r = true -> results r = [] /\ error r = None)
    /\ (forall msg, error r = Some msg -> r = error_result msg)
    /\ (results r <> [] -> 0 < total_count r).
Proof.
  intros W C self fuel jql intent s s' r.
  unfold _execute_jql, try_except, bind.
  destruct (lift (count_only_mode jql intent) s) as [[[|]|msg|] s0];
    [| | intros [= <- _]; repeat split; try discriminate; try contradiction;
         intros m [= <-]; reflexivity
       | discriminate].
  - destruct (search C self (count_request jql) s0) as [[[i t | i |]|msg|] s1];
      cbn [ret]; try discriminate; intros [= <- _]; cbn;
      repeat split; try discriminate; try contradiction;
      intros m [= <-]; reflexivity.
  - destruct (fetch_pages C self fuel jql 0 None [] s0) as [[[all total]|msg|] s1];
      cbn [ret fst snd]; try discriminate; intros [= <- _];
      cbn [results retrieved_count is_count_only error total_count].
    + split; [reflexivity|]. split; [apply forallb_filter|].
      split; [discriminate|]. split; [discriminate|].
      intros Hne. unfold total_or.
      assert (0 < length (filter has_essential_data all))
        by (destruct (filter has_essential_data all); [contradiction | cbn; lia]).
      destruct total as [t|]; [|assumption].
      destruct (Nat.eqb_spec t 0); lia.
    + cbn. repeat split; try discriminate; try contradiction.
      intros m [= <-]; reflexivity.
Qed.

Lemma execute_jql_result_is_coherent_witness :
  exists r,
    value_of (fst (_execute_jql Examples.scripted Examples.full_engine 3
                     (JqlStr "project = CCM") None
                     (Examples.fresh Examples.three_pages))) = Some r
    /\ retrieved_count r = length (results r)
    /\ forallb has_essential_data (results r) = true.
Proof.
  destruct (_execute_jql Examples.scripted Examples.full_engine 3
              (JqlStr "project = CCM") None (Examples.fresh Examples.three_pages))
    as [[r|msg|] s'] eqn:E; try (vm_compute in E; discriminate E).
  exists r. split; [reflexivity|].
  destruct (execute_jql_result_is_coherent _ _ _ _ _ _ _ _ _ E) as (H1 & H2 & _).
  split; assumption.
Defined.

(** ** How many requests a full fetch makes *)

Lemma stops_at_last_bound (T : nat) (pages : list (list issue * option nat)) :
  forall k, stops_at_last T k pages = true ->
    1 <= length pages
    /\ (length pages = 1 \/ max_results_per_page * (k + length pages - 1) < T).
Proof.
  induction pages as [|p rest IH]; intros k H; [discriminate|].
  destruct rest as [|q rest].
  - cbn. split; [lia | left; reflexivity].
  - rewrite stops_at_last_cons in H by discriminate.
    apply andb_true_iff in H. destruct H as [Hp Hrest].
    apply IH in Hrest. destruct Hrest as [_ Hrest].
    split; [cbn; lia|]. right.
    apply negb_true_iff in Hp. unfold page_stops in Hp.
    apply orb_false_iff in Hp. destruct Hp as [Hp Hfar].
    apply orb_false_iff in Hp. destruct Hp as [_ Hshort].
    apply Nat.ltb_ge in Hshort. apply Nat.leb_gt in Hfar.
    cbn [length] in *. unfold max_results_per_page in *.
    destruct Hrest as [Hone | Hlt]; lia.
Qed.

Lemma length_page_events (jql : jql_value) (pages : list (list issue * option nat)) :
  forall k, length (page_events jql k pages) = length pages.
Proof.
  induction pages as [|[issues total] rest IH]; intros k; [reflexivity|].
  cbn [page_events length]. rewrite IH. reflexivity.
Qed.

(** A full fetch against a tracker that answers with pages makes at least
    one request and at most [total_count / 100 + 1], where [total_count] is
    the total of the result (the total the first page declared): a tracker
    that keeps serving full pages cannot keep the loop going past the total
    it declared first. *)
Theorem full_fetch_request_bound :
  forall (W : Type) (C : collaborators W) (self : engine) (fuel : nat)
         (jql : jql_value) (intent : option string) (s s' : state W)
         (r : fetch_result),
    jira_client self = true ->
    paged C ->
    count_only_mode jql intent = Returns false ->
    _execute_jql C self fuel jql intent s = (Val r, s') ->
    exists evs,
      trace s' = trace s ++ evs
      /\ 1 <= length evs <= total_count r / max_results_per_page + 1.
Proof.
  intros W C self fuel jql intent s s' r Hjira Hpaged Hmode Hrun.
  unfold _execute_jql, try_except, bind in Hrun. rewrite Hmode in Hrun.
  cbn [lift ret] in Hrun.
  change 0 with (max_results_per_page * 0) in Hrun at 1.
  destruct (fetch_pages C self fuel jql (max_results_per_page * 0) None [] s)
    as [[fetched|msg|] s1] eqn:Ef.
  - apply (fetch_pages_paged C self Hjira Hpaged) in Ef.
    destruct Ef as (pages & Hstop & -> & Htr).
    injection Hrun as <- <-. exists (page_events jql 0 pages).
    split; [exact Htr|]. rewrite length_page_events.
    apply stops_at_last_bound in Hstop. destruct Hstop as [H1 H2].
    split; [exact H1|].
    set (T := first_total None pages) in *.
    set (n := length (filter has_essential_data _)).
    change (length pages <= total_or (Some T) n / max_results_per_page + 1).
    unfold total_or.
    destruct H2 as [-> | Hlt]; [apply Nat.le_add_l|].
    cbn [Nat.add] in Hlt.
    assert (HT : T <> 0) by (unfold max_results_per_page in Hlt; lia).
    apply Nat.eqb_neq in HT. rewrite HT.
    assert (length pages - 1 <= T / max_results_per_page);
      [apply Nat.div_le_lower_bound; [discriminate | lia] | lia].
  - exfalso. apply (fetch_pages_paged_no_exc C self Hjira Hpaged fuel jql
                      (max_results_per_page * 0) None [] s msg).
    rewrite Ef. reflexivity.
  - discriminate.
Qed.

Lemma full_fetch_request_bound_witness :
  exists evs,
    trace (snd (_execute_jql (Examples.backlog 250) Examples.full_engine 5
                  (JqlStr "project = CCM") None (Examples.fresh tt)))
    = evs
    /\ 1 <= length evs <= 250 / max_results_per_page + 1.
Proof.
  assert (Hp : paged (Examples.backlog 250)).
  { intros req w. eexists. eexists. reflexivity. }
  destruct (_execute_jql (Examples.backlog 250) Examples.full_engine 5
              (JqlStr "project = CCM") None (Examples.fresh tt))
    as [[r|msg|] s'] eqn:E; try (vm_compute in E; discriminate E).
  destruct (full_fetch_request_bound unit (Examples.backlog 250) Examples.full_engine
              5 (JqlStr "project = CCM") None (Examples.fresh tt) s' r
              eq_refl Hp eq_refl E)
    as (evs & Htr & Hlen).
  exists evs. split; [exact Htr|].
  assert (Ht : total_count r = 250)
    by (vm_compute in E; injection E as <- _; reflexivity).
  rewrite Ht in Hlen. exact Hlen.
Defined.

(** A first page that declares no total ends the full fetch.  The loop
    reads the total with [search_result.get('total', 0)]; when the first
    page declares none (or declares 0), no page is taken to follow it:
    exactly one request is made, the result holds the records of that page
    (at most the 100 asked for, if the tracker honours the page size), and
    [total_count] is the number of records kept, whatever the tracker
    holds. *)
Theorem full_fetch_without_declared_total :
  forall (W : Type) (C : collaborators W) (self : engine) (fuel : nat)
         (jql : jql_value) (intent : option string) (s s1 : state W)
         (issues : list issue) (total : option nat),
    count_only_mode jql intent = Returns false ->
    search C self (page_request jql 0) s = (Val (SRDict (Some issues) total), s1) ->
    get_or 0 total = 0 ->
    let kept := filter has_essential_data issues in
    _execute_jql C self (S fuel) jql intent s
    = (Val {| results := kept;
              total_count := length kept;
              retrieved_count := length kept;
              is_count_only := false;
              error := None |}, s1).
Proof.
  intros W C self fuel jql intent s s1 issues total Hmode Hs Ht. cbn zeta.
  unfold _execute_jql, try_except, bind. rewrite Hmode. cbn [lift ret fetch_pages].
  unfold bind. rewrite Hs, Ht.
  destruct issues as [|i issues]; [reflexivity|].
  cbn [is_nil app Nat.add length Nat.ltb Nat.leb negb orb ret fst snd total_or Nat.eqb].
  reflexivity.
Qed.

Lemma full_fetch_without_declared_total_witness :
  let served := Returns (SRDict (Some (map Examples.bare (seq 0 100))) None) in
  let run := _execute_jql Examples.scripted Examples.full_engine 5
               (JqlStr "project = CCM") None
               (Examples.fresh [served; served; served]) in
  option_map retrieved_count (value_of (fst run)) = Some 100
  /\ length (trace (snd run)) = 1.
Proof.
  cbn zeta.
  rewrite (full_fetch_without_declared_total _ Examples.scripted Examples.full_engine 4
             (JqlStr "project = CCM") None
             (Examples.fresh [Returns (SRDict (Some (map Examples.bare (seq 0 100))) None);
                              Returns (SRDict (Some (map Examples.bare (seq 0 100))) None);
                              Returns (SRDict (Some (map Examples.bare (seq 0 100))) None)])
             _ (map Examples.bare (seq 0 100)) None eq_refl eq_refl eq_refl).
  split; reflexivity.
Defined.

(** ** The deterministic fallback: the alias table and unassigned issues *)

(** The alias table of [_fallback_processing] tests "ashwin" before
    "ashwini": every utterance that holds the longer name holds the shorter
    one, so the second alias is never chosen. *)
Theorem assignee_alias_ashwini_is_never_chosen :
  forall query_lower : string,
    Fallback.assignee query_lower
    = (if Str.contains "ashwin" query_lower then Some "Ashwin Thyagarajan" else None)
    /\ Fallback.assignee query_lower <> Some "Ashwini Kumar"
    /\ (Str.contains "ashwini" query_lower = true ->
        Fallback.assignee query_lower = Some "Ashwin Thyagarajan").
Proof.
  intros q. unfold Fallback.assignee.
  destruct (Str.contains "ashwin" q) eqn:E.
  - repeat split; discriminate.
  - pose proof (lacks_part EmptyString "ashwin" "i" q E) as E'.
    cbn [String.append] in E'. rewrite E'. repeat split; discriminate.
Qed.

Lemma assignee_alias_ashwini_is_never_chosen_witness :
  Str.contains "ashwini" "what is ashwini kumar working on" = true
  /\ Fallback.assignee "what is ashwini kumar working on" = Some "Ashwin Thyagarajan".
Proof.
  split; [reflexivity|].
  apply (proj2 (proj2 (assignee_alias_ashwini_is_never_chosen
                         "what is ashwini kumar working on"))).
  reflexivity.
Defined.

Lemma name_of_raises (default : string) (sel : issue_fields -> jfield named)
    (item : issue) (m : string) :
  Chain.name_of default sel item = Raises m -> m = none_has_no_get.
Proof.
  unfold Chain.name_of. destruct (fields item) as [f|]; [|discriminate].
  destruct (sel f); try discriminate. intros [= <-]. reflexivity.
Qed.

Lemma display_name_of_raises (default : string) (sel : issue_fields -> jfield person)
    (item : issue) (m : string) :
  Chain.display_name_of default sel item = Raises m -> m = none_has_no_get.
Proof.
  unfold Chain.display_name_of. destruct (fields item) as [f|]; [|discriminate].
  destruct (sel f); try discriminate. intros [= <-]. reflexivity.
Qed.

Lemma omap_raises {A B : Type} (f : A -> outcome B) (m0 : string) (l : list A) :
  (forall x m, f x = Raises m -> m = m0) ->
  forall m, omap f l = Raises m -> m = m0.
Proof.
  intros Hf. induction l as [|x l IH]; intros m; cbn [omap]; [discriminate|].
  destruct (f x) as [y|m'] eqn:Ex; cbn [obind].
  - destruct (omap f l) as [ys|m']; cbn [obind]; [discriminate|].
    intros [= <-]. apply IH. reflexivity.
  - intros [= <-]. apply (Hf x). exact Ex.
Qed.

Lemma omap_raises_at {A B : Type} (f : A -> outcome B) (l : list A) (x : A) (m : string) :
  In x l -> f x = Raises m -> exists m', omap f l = Raises m'.
Proof.
  induction l as [|y l IH]; intros Hin Hx; [destruct Hin|]. cbn [omap].
  destruct (f y) as [b|m'] eqn:Ey; cbn [obind]; [|eexists; reflexivity].
  destruct Hin as [-> | Hin]; [congruence|].
  destruct (IH Hin Hx) as [m' ->]. eexists. reflexivity.
Qed.

Lemma fallback_item_lines_raises (item : issue) (m : string) :
  fallback_item_lines item = Raises m -> m = none_has_no_get.
Proof.
  unfold fallback_item_lines.
  destruct (Chain.name_of "Unknown" status item) as [st|m1] eqn:E1; cbn [obind].
  - destruct (Chain.display_name_of "Unassigned" assignee item) as [who|m2] eqn:E2;
      cbn [obind]; [discriminate|].
    intros [= <-]. apply (display_name_of_raises _ _ _ _ E2).
  - intros [= <-]. apply (name_of_raises _ _ _ _ E1).
Qed.

Lemma unassigned_display_name (item : issue) (f : issue_fields) :
  fields item = Some f -> assignee f = Null ->
  Chain.display_name_of "Unassigned" assignee item = Raises none_has_no_get.
Proof. intros Hf Ha. unfold Chain.display_name_of. rewrite Hf, Ha. reflexivity. Qed.

(** Whatever makes [_enhanced_fallback_response] raise, the exception is
    the [AttributeError] of a [.get] on [None]. *)
Lemma enhanced_fallback_response_raises (u : string)
    (k proj type who : option string) (results : list issue) (m : string) :
  _enhanced_fallback_response u k proj type who results = Raises m ->
  m = none_has_no_get.
Proof.
  unfold _enhanced_fallback_response.
  destruct (is_nil results); [discriminate|].
  destruct (omap (Chain.name_of EmptyString issuetype) results) as [types|m1] eqn:E1;
    cbn [obind];
    [| intros [= <-];
       apply (omap_raises _ none_has_no_get results (name_of_raises _ _) _ E1)].
  match goal with
  | |- obind ?body _ = _ -> _ => destruct body as [lines|m2] eqn:E2
  end; cbn [obind]; [discriminate|].
  intros [= <-].
  destruct results as [|item [|item' rest]].
  - cbn [firstn omap obind] in E2. discriminate.
  - repeat match type of E2 with
           | obind ?x _ = _ =>
               let E := fresh "E" in
               destruct x eqn:E; cbn [obind] in E2;
               [| injection E2 as <-;
                  first [ apply (name_of_raises _ _ _ _ E)
                        | apply (display_name_of_raises _ _ _ _ E) ]]
           end.
    discriminate.
  - match type of E2 with
    | obind ?x _ = _ => destruct x eqn:E3; cbn [obind] in E2; [discriminate|]
    end.
    injection E2 as <-.
    apply (omap_raises _ none_has_no_get _ fallback_item_lines_raises _ E3).
Qed.

Lemma enhanced_fallback_response_unassigned (u : string)
    (k proj type who : option string) (results : list issue)
    (item : issue) (f : issue_fields) :
  In item (firstn 3 results) -> fields item = Some f -> assignee f = Null ->
  _enhanced_fallback_response u k proj type who results = Raises none_has_no_get.
Proof.
  intros Hin Hf Ha.
  destruct (_enhanced_fallback_response u k proj type who results) as [text|m] eqn:E;
    [| f_equal; apply (enhanced_fallback_response_raises _ _ _ _ _ _ _ E)].
  exfalso. unfold _enhanced_fallback_response in E.
  destruct results as [|item0 rest]; [destruct Hin|]. cbn [is_nil] in E.
  destruct (omap (Chain.name_of EmptyString issuetype) (item0 :: rest)) as [types|m1];
    cbn [obind] in E; [|discriminate].
  pose proof (unassigned_display_name item f Hf Ha) as Hd.
  destruct rest as [|item1 rest].
  - destruct Hin as [<- | []].
    destruct (Chain.name_of "Unknown" status item0); cbn [obind] in E; [|discriminate].
    rewrite Hd in E. discriminate.
  - assert (Hl : fallback_item_lines item = Raises none_has_no_get).
    { unfold fallback_item_lines.
      destruct (Chain.name_of "Unknown" status item) as [st|m1] eqn:E1; cbn [obind].
      - rewrite Hd. reflexivity.
      - f_equal. apply (name_of_raises _ _ _ _ E1). }
    destruct (omap_raises_at fallback_item_lines _ item _ Hin Hl) as [m' Hm].
    rewrite Hm in E. discriminate.
Qed.

(** An unassigned issue breaks the deterministic fallback.  Jira sends
    [null] as the assignee of an issue nobody is assigned to; the chain
    [item.get('fields', {}).get('assignee', {}).get('displayName', ...)] of
    [_enhanced_fallback_response] then raises.  So when such an issue is
    among the first three results of the fallback query (or is the only
    result), [_fallback_processing] answers with its error dictionary: no
    data, intent [error], [success] false, although the tracker answered. *)
Theorem fallback_fails_on_unassigned_issue :
  forall (W : Type) (C : collaborators W) (self : engine) (fuel : nat)
         (u : string) (s s1 s2 : state W) (projects : list jira_project)
         (jql_result : fetch_result) (item : issue) (f : issue_fields),
    get_projects C self s = (Val projects, s1) ->
    _execute_jql C self fuel (JqlStr (Fallback.jql u projects))
      (Some "enhanced_fallback") s1 = (Val jql_result, s2) ->
    In item (firstn 3 (results jql_result)) ->
    fields item = Some f ->
    assignee f = Null ->
    _enhanced_fallback_response u (KeyPattern.search u)
      (Fallback.mentioned_project projects (Str.lower u))
      (Fallback.issue_type (Str.lower u)) (Fallback.assignee (Str.lower u))
      (results jql_result) = Raises none_has_no_get
    /\ _fallback_processing C self fuel u s = (Val (fallback_error none_has_no_get), s2).
Proof.
  intros W C self fuel u s s1 s2 projects jr item f Hp Hq Hin Hf Ha.
  pose proof (enhanced_fallback_response_unassigned u (KeyPattern.search u)
                (Fallback.mentioned_project projects (Str.lower u))
                (Fallback.issue_type (Str.lower u)) (Fallback.assignee (Str.lower u))
                (results jr) item f Hin Hf Ha) as Hr.
  split; [exact Hr|].
  unfold _fallback_processing, try_except, bind.
  rewrite Hp, Hq, Hr. reflexivity.
Qed.

Lemma fallback_fails_on_unassigned_issue_witness :
  exists s2,
    _fallback_processing Examples.scripted Examples.no_nlu_engine 1 "open bugs"
      (Examples.fresh [Returns (SRDict (Some [Samples.unassigned "CCM-7"]) (Some 1))])
    = (Val (fallback_error none_has_no_get), s2).
Proof.
  edestruct (fallback_fails_on_unassigned_issue _ Examples.scripted
               Examples.no_nlu_engine 1 "open bugs"
               (Examples.fresh
                  [Returns (SRDict (Some [Samples.unassigned "CCM-7"]) (Some 1))]))
    as [_ H];
    [reflexivity | reflexivity | left; reflexivity | reflexivity | reflexivity |].
  eexists. exact H.
Defined.

(** ** The breakdowns of the aggregator *)

Lemma total_bump (k : string) (d : breakdown) :
  total_items_of (bump k d) = S (total_items_of d).
Proof.
  induction d as [|[k' n] d IH]; [reflexivity|]. cbn [bump].
  unfold total_items_of in *.
  destruct (String.eqb k k'); cbn [fold_right snd]; [lia|].
  rewrite IH. lia.
Qed.

Lemma keys_bump (k : string) (d : breakdown) (x : string) :
  In x (map fst (bump k d)) <-> x = k \/ In x (map fst d).
Proof.
  induction d as [|[k' n] d IH]; cbn [bump map fst In].
  - split; [intros [<-|[]]; left; reflexivity | intros [->|[]]; left; reflexivity].
  - destruct (String.eqb_spec k k') as [->|Hne]; cbn [map fst In].
    + split; [intros [<-|H]; [left; reflexivity | right; right; exact H]
             | intros [->|[<-|H]]; [left; reflexivity | left; reflexivity | right; exact H]].
    + rewrite IH. split; [intros [<-|[->|H]] | intros [->|[<-|H]]]; auto.
Qed.

Lemma counts_bump (n : nat) (k : string) (d : breakdown) :
  counts n d -> counts (S n) (bump k d).
Proof.
  intros [Ht Hk]. split; [rewrite total_bump, Ht; reflexivity|].
  clear Ht. induction d as [|[k' c] d IH]; cbn [bump].
  - repeat constructor. intros [].
  - cbn [map fst] in Hk. inversion Hk as [|? ? Hnot Hd]; subst.
    destruct (String.eqb_spec k k') as [->|Hne]; cbn [map fst].
    + constructor; assumption.
    + constructor; [|apply IH; exact Hd].
      rewrite keys_bump. intros [->|H]; [apply Hne; reflexivity | apply Hnot; exact H].
Qed.

Lemma counts_at_most_weaken (n m : nat) (d : breakdown) :
  n <= m -> counts_at_most n d -> counts_at_most m d.
Proof. intros Hle [Ht Hk]. split; [lia | exact Hk]. Qed.

Lemma counts_at_most_bump_month (month_of : string -> option string) (n : nat)
    (date : string) (d : breakdown) :
  counts_at_most n d -> counts_at_most (S n) (bump_month month_of date d).
Proof.
  intros H. unfold bump_month.
  destruct (String.eqb date "Unknown");
    [apply (counts_at_most_weaken n); [lia | exact H]|].
  destruct (month_of date) as [month|];
    [|apply (counts_at_most_weaken n); [lia | exact H]].
  destruct H as [Ht Hk].
  destruct (counts_bump (total_items_of d) month d (conj eq_refl Hk)) as [Ht' Hk'].
  split; [lia | exact Hk'].
Qed.

(** Every record is counted exactly once in each breakdown of the
    aggregator: the counts of the assignee, reporter, status, type and
    priority breakdowns each add up to the number of records, no category
    stands twice in a breakdown, and [items_list] holds one entry per record.
    The two month breakdowns count the records whose date is there and
    parses, so they add up to at most the number of records. *)
Theorem breakdowns_count_every_record :
  forall (month_of : string -> option string) (results : list issue) (t r : nat),
    let a := analyse month_of results t r in
    Forall (counts (length results))
      [by_assignee a; by_reporter a; by_status a; by_type a; by_priority a]
    /\ Forall (counts_at_most (length results)) [by_created_date a; by_updated_date a]
    /\ length (items_list a) = length results
    /\ total_items a = t /\ retrieved_items a = r.
Proof.
  intros month_of results t r. cbn zeta. unfold analyse.
  set (a0 := {| total_items := t; retrieved_items := r;
                by_assignee := []; by_reporter := []; by_status := []; by_type := [];
                by_priority := []; by_created_date := []; by_updated_date := [];
                items_list := [] |}).
  assert (H : forall l a n,
             counts n (by_assignee a) -> counts n (by_reporter a) ->
             counts n (by_status a) -> counts n (by_type a) ->
             counts n (by_priority a) ->
             counts_at_most n (by_created_date a) ->
             counts_at_most n (by_updated_date a) ->
             length (items_list a) = n ->
             let a' := fold_left (analyse_item month_of) l a in
             (counts (length l + n) (by_assignee a')
              /\ counts (length l + n) (by_reporter a')
              /\ counts (length l + n) (by_status a')
              /\ counts (length l + n) (by_type a')
              /\ counts (length l + n) (by_priority a'))
             /\ (counts_at_most (length l + n) (by_created_date a')
                 /\ counts_at_most (length l + n) (by_updated_date a'))
             /\ length (items_list a') = length l + n
             /\ total_items a' = total_items a
             /\ retrieved_items a' = retrieved_items a).
  { induction l as [|i l IH]; intros a n H1 H2 H3 H4 H5 H6 H7 H8; cbn zeta.
    - cbn [fold_left length Nat.add].
      repeat match goal with |- _ /\ _ => split end; first [assumption | reflexivity].
    - cbn [fold_left length]. replace (S (length l) + n) with (length l + S n) by lia.
      apply (IH (analyse_item month_of a i) (S n)); cbn [analyse_item by_assignee
        by_reporter by_status by_type by_priority by_created_date by_updated_date
        items_list];
        first [ apply counts_bump; assumption
              | apply counts_at_most_bump_month; assumption
              | rewrite length_app; cbn [length]; lia ]. }
  assert (He : counts 0 []) by (split; [reflexivity | constructor]).
  assert (He' : counts_at_most 0 []) by (split; [reflexivity | constructor]).
  specialize (H results a0 0 He He He He He He' He' eq_refl).
  rewrite Nat.add_0_r in H. cbn zeta in H.
  destruct H as ((A1 & A2 & A3 & A4 & A5) & (B1 & B2) & Hrest).
  split; [do 5 (apply Forall_cons; [assumption|]); apply Forall_nil|].
  split; [do 2 (apply Forall_cons; [assumption|]); apply Forall_nil | exact Hrest].
Qed.

(** ** [JiraClient]: retries and projects *)

Section RetryFacts.

Context {W R : Type}.
Variable get : string -> W -> outcome R * W.
Variable url : string.
Variable max_retries : nat.

Lemma retry_log_cons (o : outcome R) (outs : list (outcome R)) :
  outs <> [] ->
  JiraRest.retry_log url (o :: outs)
  = JiraRest.Get url o :: JiraRest.Sleep 1 :: JiraRest.retry_log url outs.
Proof. destruct outs; [contradiction | reflexivity]. Qed.

Lemma attempts_spec (remaining : nat) :
  forall st : W * list (JiraRest.step R),
    remaining <= max_retries ->
    exists outs : list (outcome R),
      snd (snd (JiraRest.attempts get url max_retries remaining st))
      = snd st ++ JiraRest.retry_log url outs
      /\ length outs <= remaining
      /\ match fst (JiraRest.attempts get url max_retries remaining st) with
         | Returns (Some response) =>
             exists fails, outs = fails ++ [Returns response]
                           /\ Forall JiraRest.raised fails
         | Returns None => remaining = 0 /\ outs = []
         | Raises e =>
             exists fails, outs = fails ++ [Raises e]
                           /\ Forall JiraRest.raised fails
                           /\ length outs = remaining
         end.
Proof.
  induction remaining as [|r IH]; intros st Hle.
  - exists []. cbn. rewrite app_nil_r. repeat split. lia.
  - cbn [JiraRest.attempts].
    destruct (get url (fst st)) as [[response|e] w'] eqn:Eg.
    + exists [Returns response]. cbn. repeat split; [lia|].
      exists []. split; [reflexivity | constructor].
    + destruct (Nat.eqb_spec (max_retries - S r) (max_retries - 1)) as [Heq|Hne].
      * exists [Raises e]. cbn [fst snd JiraRest.retry_log length].
        split; [reflexivity|]. split; [lia|].
        exists []. repeat split; [constructor | lia].
      * assert (Hr : 1 <= r) by lia.
        destruct (IH (w', (snd st ++ [JiraRest.Get url (Raises e)])
                          ++ [JiraRest.Sleep 1])) as (outs & Hlog & Hlen & Hres);
          [lia|].
        cbn [snd] in Hlog.
        set (run := JiraRest.attempts get url max_retries r
                      (w', (snd st ++ [JiraRest.Get url (Raises e)])
                           ++ [JiraRest.Sleep 1])) in *.
        assert (Hne' : outs <> []).
        { destruct (fst run) as [[response|]|e'].
          - destruct Hres as (fails & -> & _). destruct fails; discriminate.
          - lia.
          - destruct Hres as (fails & -> & _). destruct fails; discriminate. }
        exists (Raises e :: outs). rewrite (retry_log_cons _ _ Hne'), Hlog.
        split; [rewrite <- !app_assoc; reflexivity|].
        split; [cbn [length]; lia|].
        destruct (fst run) as [[response|]|e'].
        -- destruct Hres as (fails & -> & Hf). exists (Raises e :: fails).
           split; [reflexivity|]. constructor; [exists e; reflexivity | exact Hf].
        -- lia.
        -- destruct Hres as (fails & -> & Hf & Hl). exists (Raises e :: fails).
           split; [reflexivity|].
           split; [constructor; [exists e; reflexivity | exact Hf]|].
           cbn [length app] in *. lia.
Qed.

End RetryFacts.

(** [_get_with_retry] makes at most [max_retries] attempts, one second
    apart, all for the same URL, and stops at the first that succeeds, whose
    response it returns.  When every attempt raises, it has made exactly
    [max_retries] attempts and raises what the last one raised (no sleep
    follows the last attempt).  With [max_retries = 0] it makes no request
    and returns [None]. *)
Theorem get_with_retry_attempts :
  forall (W R : Type) (get : string -> W -> outcome R * W) (url : string)
         (max_retries : nat) (st : W * list (JiraRest.step R)),
    let run := JiraRest._get_with_retry get url max_retries st in
    exists outs : list (outcome R),
      snd (snd run) = snd st ++ JiraRest.retry_log url outs
      /\ length outs <= max_retries
      /\ match fst run with
         | Returns (Some response) =>
             exists fails, outs = fails ++ [Returns response]
                           /\ Forall JiraRest.raised fails
         | Returns None => max_retries = 0 /\ outs = []
         | Raises e =>
             exists fails, outs = fails ++ [Raises e]
                           /\ Forall JiraRest.raised fails
                           /\ length outs = max_retries
         end.
Proof.
  intros W R get url max_retries st. cbn zeta. unfold JiraRest._get_with_retry.
  apply attempts_spec. apply le_n.
Qed.

Section ProjectFacts.

Context {W : Type}.
Variable get : string -> W -> outcome JiraRest.projects_body * W.

Lemma get_projects_run (base_url : string)
    (st : W * list (JiraRest.step JiraRest.projects_body)) :
  let url := JiraRest._url base_url "/rest/api/3/project" in
  let run := JiraRest.get_projects get base_url st in
  exists outs,
    snd (snd run) = snd st ++ JiraRest.retry_log url outs
    /\ 1 <= length outs <= 3
    /\ (Forall JiraRest.raised outs -> length outs = 3 /\ fst run = [])
    /\ (forall fails body,
          outs = fails ++ [Returns body] ->
          Forall JiraRest.raised fails
          /\ fst run = match body with
                       | JiraRest.BodyList projects => projects
                       | JiraRest.BodyObject values => get_or [] values
                       | _ => []
                       end).
Proof.
  cbn zeta. unfold JiraRest.get_projects, JiraRest._get_with_retry.
  destruct (attempts_spec get (JiraRest._url base_url "/rest/api/3/project") 3 3 st
              (le_n 3)) as (outs & Hlog & Hlen & Hres).
  destruct (JiraRest.attempts get (JiraRest._url base_url "/rest/api/3/project") 3 3 st)
    as [o st'] eqn:E.
  cbn [fst snd] in *. exists outs. split; [exact Hlog|].
  destruct o as [[body|]|e].
  - destruct Hres as (fails & -> & Hf).
    split; [rewrite length_app in *; cbn [length] in *; lia|]. split.
    + intros Hall. apply Forall_app in Hall. destruct Hall as [_ Hlast].
      inversion Hlast as [|? ? [e He] _]. discriminate He.
    + intros fails' body' Heq. apply app_inj_tail in Heq.
      destruct Heq as [<- [= <-]]. split; [exact Hf | reflexivity].
  - destruct Hres as [Hres _]. discriminate Hres.
  - destruct Hres as (fails & -> & Hf & Hl). split; [lia|]. split.
    + intros _. split; [exact Hl | reflexivity].
    + intros fails' body' Heq. apply app_inj_tail in Heq.
      destruct Heq as [_ Heq]. discriminate Heq.
Qed.

End ProjectFacts.

(** [get_projects] asks the project endpoint at least once and at most
    three times, a second apart.  When all three attempts fail it returns
    the empty list (no exception reaches the caller); otherwise it returns
    what the first successful answer holds: the list itself, the ['values']
    of an object, and the empty list for any other body.
    [get_project_keys] makes the same requests and returns the keys of the
    projects that have a non-empty one. *)
Theorem get_projects_gives_up_after_three_attempts :
  forall (W : Type) (get : string -> W -> outcome JiraRest.projects_body * W)
         (base_url : string) (st : W * list (JiraRest.step JiraRest.projects_body)),
    let url := JiraRest._url base_url "/rest/api/3/project" in
    let run := JiraRest.get_projects get base_url st in
    let keys := JiraRest.get_project_keys get base_url st in
    (exists outs,
       snd (snd run) = snd st ++ JiraRest.retry_log url outs
       /\ 1 <= length outs <= 3
       /\ (Forall JiraRest.raised outs -> length outs = 3 /\ fst run = [])
       /\ (forall fails body,
             outs = fails ++ [Returns body] ->
             Forall JiraRest.raised fails
             /\ fst run = match body with
                          | JiraRest.BodyList projects => projects
                          | JiraRest.BodyObject values => get_or [] values
                          | _ => []
                          end))
    /\ snd keys = snd run
    /\ Forall (fun k => Str.nonempty k = true) (fst keys)
    /\ (forall k, In k (fst keys) <-> Str.nonempty k = true
                                      /\ In (Some k) (map proj_key (fst run))).
Proof.
  intros W get base_url st. cbn zeta.
  split; [apply (get_projects_run get base_url st)|].
  unfold JiraRest.get_project_keys.
  destruct (JiraRest.get_projects get base_url st) as [projects st'].
  cbn [fst snd]. split; [reflexivity|].
  assert (H : forall k,
             In k (map (fun project => get_or EmptyString (proj_key project))
                       (filter (fun project => truthy (proj_key project)) projects))
             <-> Str.nonempty k = true /\ In (Some k) (map proj_key projects)).
  { intros k. rewrite !in_map_iff. split.
    - intros (p & <- & Hin). apply filter_In in Hin. destruct Hin as [Hin Ht].
      destruct (proj_key p) as [k'|] eqn:Ek; [|discriminate Ht].
      cbn [truthy get_or] in *. split; [exact Ht|]. exists p. split; assumption.
    - intros (Hne & p & Ek & Hin). exists p. rewrite Ek. split; [reflexivity|].
      apply filter_In. split; [exact Hin|]. rewrite Ek. exact Hne. }
  split; [|exact H].
  apply Forall_forall. intros k Hin. apply H in Hin. apply Hin.
Qed.

(** ** [_url] *)

Lemma rstrip_slash_app_slash (s : string) :
  JiraRest.rstrip_slash (s +++ "/") = JiraRest.rstrip_slash s.
Proof.
  induction s as [|c s IH]; [reflexivity|].
  cbn [String.append JiraRest.rstrip_slash]. rewrite IH. reflexivity.
Qed.

Lemma rstrip_slash_no_trailing (s t : string) :
  JiraRest.rstrip_slash s <> t +++ "/".
Proof.
  revert t. induction s as [|c s IH]; intros t; cbn [JiraRest.rstrip_slash].
  - destruct t; discriminate.
  - destruct (nat_of_ascii c =? 47) eqn:Ec; cbn [andb].
    + destruct (JiraRest.rstrip_slash s) as [|c' r] eqn:Er; cbn [Str.nonempty negb].
      * destruct t; discriminate.
      * destruct t as [|c'' t]; cbn [String.append]; [discriminate|].
        intros [= _ H]. apply (IH t). exact H.
    + destruct t as [|c'' t]; cbn [String.append].
      * intros [= -> _]. discriminate Ec.
      * intros [= _ H]. apply (IH t). exact H.
Qed.

Lemma rstrip_slash_split (s : string) :
  exists slashes,
    s = JiraRest.rstrip_slash s +++ slashes
    /\ all_chars (fun c => nat_of_ascii c =? 47) slashes = true.
Proof.
  induction s as [|c s (sl & Hs & Hall)]; [exists EmptyString; split; reflexivity|].
  cbn [JiraRest.rstrip_slash].
  destruct (nat_of_ascii c =? 47) eqn:Ec; cbn [andb].
  - destruct (JiraRest.rstrip_slash s) as [|c' r] eqn:Er; cbn [Str.nonempty negb].
    + exists (String c sl). cbn [String.append] in *.
      split; [rewrite <- Hs; reflexivity|].
      change (((nat_of_ascii c =? 47)
               && all_chars (fun c => nat_of_ascii c =? 47) sl) = true).
      rewrite Ec. exact Hall.
    + exists sl. cbn [String.append] in *. rewrite <- Hs. split; [reflexivity | exact Hall].
  - exists sl. cbn [String.append]. rewrite <- Hs. split; [reflexivity | exact Hall].
Qed.

(** [_url] does not depend on the slashes that end the base URL: it joins
    the path to the base URL cut before its trailing slashes, so that no
    slash of the base URL stands before the path. *)
Theorem url_ignores_trailing_slashes :
  forall base_url path : string,
    JiraRest._url (base_url +++ "/") path = JiraRest._url base_url path
    /\ (exists stem slashes,
          base_url = stem +++ slashes
          /\ all_chars (fun c => nat_of_ascii c =? 47) slashes = true
          /\ (forall t, stem <> t +++ "/")
          /\ JiraRest._url base_url path = stem +++ path).
Proof.
  intros base_url path. unfold JiraRest._url. split.
  - rewrite rstrip_slash_app_slash. reflexivity.
  - destruct (rstrip_slash_split base_url) as (sl & Hs & Hall).
    exists (JiraRest.rstrip_slash base_url), sl.
    split; [exact Hs|]. split; [exact Hall|].
    split; [apply rstrip_slash_no_trailing | reflexivity].
Qed.

(** ** The document store *)

Lemma dedupe_spec (l : list confluence_hit) :
  forall seen kept,
    Pages.dedupe seen l = Returns kept ->
    (NoDup (hit_ids kept) /\ forall id, In id (hit_ids kept) -> ~ In id seen)
    /\ (forall r, In r kept -> In r l)
    /\ (forall r, In r l -> hit_id r = None -> In r kept)
    /\ (forall r id, In r l -> hit_id r = Some id ->
          id = EmptyString \/ In id seen
          \/ exists r', In r' kept /\ hit_id r' = Some id).
Proof.
  induction l as [|r0 l IH]; intros seen kept H; cbn [Pages.dedupe] in H.
  - injection H as <-. split; [split; [constructor | intros ? []]|].
    split; [intros ? []|]. split; [intros ? []|]. intros ? ? [].
  - assert (Hkeep : forall id0,
              (hit_id r0 = None /\ id0 = EmptyString
               \/ hit_id r0 = Some id0 /\ ~ In id0 seen) ->
              obind (Pages.dedupe (id0 :: seen) l) (fun rest => Returns (r0 :: rest))
              = Returns kept ->
              (NoDup (hit_ids kept) /\ forall id, In id (hit_ids kept) -> ~ In id seen)
              /\ (forall r, In r kept -> In r (r0 :: l))
              /\ (forall r, In r (r0 :: l) -> hit_id r = None -> In r kept)
              /\ (forall r id, In r (r0 :: l) -> hit_id r = Some id ->
                    id = EmptyString \/ In id seen
                    \/ exists r', In r' kept /\ hit_id r' = Some id)).
    { intros id0 Hid Hk.
      destruct (Pages.dedupe (id0 :: seen) l) as [rest|m] eqn:Er; [|discriminate Hk].
      cbn [obind] in Hk. injection Hk as <-.
      destruct (IH _ _ Er) as ((Hnd & Hdis) & Hincl & Hnone & Hsome).
      split; [|split; [|split]].
      - unfold hit_ids in *. cbn [flat_map].
        destruct Hid as [[Hn _] | [Hs Hnot]].
        + rewrite Hn. cbn [app]. split; [exact Hnd|].
          intros id Hin Hseen. apply (Hdis id Hin). right. exact Hseen.
        + rewrite Hs. cbn [app]. split.
          * constructor; [|exact Hnd]. intros Hin. apply (Hdis id0 Hin). left. reflexivity.
          * intros id [<- | Hin]; [exact Hnot|].
            intros Hseen. apply (Hdis id Hin). right. exact Hseen.
      - intros r [<- | Hin]; [left; reflexivity | right; apply Hincl; exact Hin].
      - intros r [<- | Hin] Hr; [left; reflexivity | right; apply Hnone; assumption].
      - intros r id [<- | Hin] Hr.
        + destruct Hid as [[Hn _] | [Hs _]]; [congruence|].
          right. right. exists r0. split; [left; reflexivity | exact Hr].
        + destruct (Hsome r id Hin Hr) as [He | [[<- | Hseen] | (r' & Hin' & Hr')]].
          * left. exact He.
          * destruct Hid as [[_ ->] | [Hs _]]; [left; reflexivity|].
            right. right. exists r0. split; [left; reflexivity | exact Hs].
          * right. left. exact Hseen.
          * right. right. exists r'. split; [right; exact Hin' | exact Hr']. }
    unfold hit_id in Hkeep.
    destruct (content r0) as [| |c] eqn:Ec; [|discriminate H|].
    + apply (Hkeep EmptyString); [left; split; reflexivity | exact H].
    + destruct (content_id c) as [id|] eqn:Ei.
      * destruct (existsb (String.eqb id) seen) eqn:Ex.
        -- destruct (IH _ _ H) as (Ha & Hincl & Hnone & Hsome).
           split; [exact Ha|]. split; [|split].
           ++ intros r Hin. right. apply Hincl. exact Hin.
           ++ intros r [<- | Hin] Hr; [unfold hit_id in Hr; rewrite Ec, Ei in Hr;
                                       discriminate Hr | apply Hnone; assumption].
           ++ intros r id' [<- | Hin] Hr; [|apply (Hsome r id' Hin Hr)].
              unfold hit_id in Hr. rewrite Ec, Ei in Hr. injection Hr as <-.
              right. left. apply existsb_exists in Ex.
              destruct Ex as (x & Hx & Hxe). apply String.eqb_eq in Hxe. subst x.
              exact Hx.
        -- apply (Hkeep id); [|exact H]. right. split; [reflexivity|].
           intros Hin. assert (existsb (String.eqb id) seen = true); [|congruence].
           apply existsb_exists. exists id. split; [exact Hin | apply String.eqb_refl].
      * apply (Hkeep EmptyString); [left; split; reflexivity | exact H].
Qed.

Lemma dedupe_returns (l : list confluence_hit) :
  (forall r, In r l -> content r <> Null) ->
  forall seen, exists kept, Pages.dedupe seen l = Returns kept.
Proof.
  induction l as [|r0 l IH]; intros Hok seen; cbn [Pages.dedupe].
  - eexists. reflexivity.
  - assert (Hl : forall r, In r l -> content r <> Null)
      by (intros r Hin; apply Hok; right; exact Hin).
    assert (Hk : forall id, exists kept,
               obind (Pages.dedupe (id :: seen) l) (fun rest => Returns (r0 :: rest))
               = Returns kept).
    { intros id. destruct (IH Hl (id :: seen)) as [rest ->]. eexists. reflexivity. }
    destruct (content r0) as [| |c] eqn:Ec.
    + apply Hk.
    + exfalso. apply (Hok r0); [left; reflexivity | exact Ec].
    + destruct (content_id c) as [id|]; [|apply Hk].
      destruct (existsb (String.eqb id) seen); [apply (IH Hl) | apply Hk].
Qed.

Lemma dedupe_raises (l : list confluence_hit) (r : confluence_hit) :
  In r l -> content r = Null ->
  forall seen, Pages.dedupe seen l = Raises none_has_no_get.
Proof.
  induction l as [|r0 l IH]; intros Hin Hr seen; [destruct Hin|].
  cbn [Pages.dedupe]. destruct Hin as [-> | Hin]; [rewrite Hr; reflexivity|].
  assert (Hk : forall id,
             obind (Pages.dedupe (id :: seen) l) (fun rest => Returns (r0 :: rest))
             = Raises none_has_no_get)
    by (intros id; rewrite (IH Hin Hr); reflexivity).
  destruct (content r0) as [| |c]; [apply Hk | reflexivity |].
  destruct (content_id c) as [id|]; [|apply Hk].
  destruct (existsb (String.eqb id) seen); [apply (IH Hin Hr) | apply Hk].
Qed.

(** The duplicate filter of the keyword searches.  When no hit has a
    [null] content, it returns a selection of the hits in which no id
    stands twice; every hit without an id is kept, and every non-empty id of
    the hits is still carried by a hit that is kept.  When some hit has a
    [null] content, the filter raises. *)
Theorem dedupe_keeps_one_hit_per_id :
  forall l : list confluence_hit,
    ((forall r, In r l -> content r <> Null) ->
     exists kept,
       Pages.dedupe [] l = Returns kept
       /\ NoDup (hit_ids kept)
       /\ (forall r, In r kept -> In r l)
       /\ (forall r, In r l -> hit_id r = None -> In r kept)
       /\ (forall r id, In r l -> hit_id r = Some id -> id <> EmptyString ->
             exists r', In r' kept /\ hit_id r' = Some id))
    /\ (forall r, In r l -> content r = Null ->
          Pages.dedupe [] l = Raises none_has_no_get).
Proof.
  intros l. split.
  - intros Hok. destruct (dedupe_returns l Hok []) as [kept Hk].
    exists kept. split; [exact Hk|].
    destruct (dedupe_spec l [] kept Hk) as ((Hnd & _) & Hincl & Hnone & Hsome).
    split; [exact Hnd|]. split; [exact Hincl|]. split; [exact Hnone|].
    intros r id Hin Hr Hne.
    destruct (Hsome r id Hin Hr) as [He | [[] | Hex]]; [contradiction | exact Hex].
  - intros r Hin Hr. apply (dedupe_raises l r Hin Hr).
Qed.

Lemma dedupe_keeps_one_hit_per_id_witness :
  exists kept,
    Pages.dedupe [] [Examples.handbook; Examples.handbook] = Returns kept
    /\ NoDup (hit_ids kept).
Proof.
  destruct (proj1 (dedupe_keeps_one_hit_per_id [Examples.handbook; Examples.handbook]))
    as (kept & Hk & Hnd & _).
  - intros r [<- | [<- | []]]; discriminate.
  - exists kept. split; assumption.
Defined.

(** ** The broader search of the document flow *)











(** ** The ticket-key pattern finds every delimited key *)

Lemma span_app (p : ascii -> bool) (run rest : string) :
  all_chars p run = true ->
  match rest with EmptyString => True | String c _ => p c = false end ->
  KeyPattern.span p (run +++ rest) = (run, rest).
Proof.
  intros Hrun Hrest. induction run as [|c run IH]; cbn [String.append].
  - destruct rest as [|c rest]; [reflexivity|]. cbn [KeyPattern.span].
    rewrite Hrest. reflexivity.
  - cbn [all_chars] in Hrun. apply andb_true_iff in Hrun. destruct Hrun as [Hc Hrun].
    cbn [KeyPattern.span]. rewrite Hc, (IH Hrun). reflexivity.
Qed.

Lemma not_word_not_digit (c : ascii) : Str.is_word c = false -> Str.is_digit c = false.
Proof.
  unfold Str.is_word. intros H. apply orb_false_iff in H. destruct H as [H _].
  apply orb_false_iff in H. apply H.
Qed.

Lemma match_here_key (k post : string) :
  ticket_key k -> KeyPattern.boundary_after post = true ->
  KeyPattern.match_here (k +++ post) = Some k.
Proof.
  intros (letters & digits & -> & Hl & Hd & Hal & Had) Hb.
  unfold KeyPattern.match_here.
  rewrite !append_assoc.
  rewrite (span_app Str.is_letter letters ("-" +++ digits +++ post) Hal)
    by reflexivity.
  destruct (Nat.leb_spec 2 (String.length letters)) as [_|]; [|lia].
  cbn [String.append]. change (nat_of_ascii "-" =? 45) with true. cbv iota.
  rewrite (span_app Str.is_digit digits post Had).
  - destruct (Nat.leb_spec 1 (String.length digits)) as [_|]; [|lia].
    rewrite Hb. reflexivity.
  - destruct post as [|c post]; [exact I|]. cbn [KeyPattern.boundary_after] in Hb.
    apply negb_true_iff in Hb. apply not_word_not_digit. exact Hb.
Qed.

Lemma search_from_finds (k post : string) :
  ticket_key k -> KeyPattern.boundary_after post = true ->
  forall pre prev_word,
    (prev_word = false \/ pre <> EmptyString) ->
    ends_in_word pre = false ->
    exists k', KeyPattern.search_from prev_word (pre +++ k +++ post) = Some k'.
Proof.
  intros Hk Hb. induction pre as [|c pre IH]; intros prev_word Hstart Hend.
  - destruct Hstart as [-> | Hne]; [|contradiction].
    cbn [String.append].
    pose proof (match_here_key k post Hk Hb) as Hm.
    destruct (k +++ post) as [|c s] eqn:E.
    + destruct Hk as (letters & digits & -> & Hl & _).
      destruct letters; [cbn in Hl; lia | discriminate E].
    + cbn [KeyPattern.search_from]. rewrite Hm. exists k. reflexivity.
  - cbn [String.append KeyPattern.search_from].
    destruct (if prev_word then None
              else KeyPattern.match_here (String c (pre +++ k +++ post)))
      as [k'|]; [exists k'; reflexivity|].
    apply IH.
    + destruct pre as [|c' pre]; [left; exact Hend | right; discriminate].
    + destruct pre as [|c' pre]; [reflexivity | exact Hend].
Qed.

(** The ticket-key pattern misses no delimited key: when an utterance of
    ASCII characters holds a key (two or more letters, a hyphen, digits)
    that does not follow a word character and is not followed by one, the
    search finds a key (the leftmost one of the utterance). *)
Theorem key_pattern_finds_delimited_key :
  forall pre k post : string,
    ascii_text (pre +++ k +++ post) = true ->
    ticket_key k ->
    ends_in_word pre = false ->
    KeyPattern.boundary_after post = true ->
    exists k',
      KeyPattern.search (pre +++ k +++ post) = Some k'
      /\ ticket_key k'
      /\ (pre = EmptyString -> k' = k).
Proof.
  intros pre k post _ Hk Hpre Hpost.
  destruct (search_from_finds k post Hk Hpost pre false (or_introl eq_refl) Hpre)
    as [k' Hs].
  exists k'. split; [exact Hs|].
  split; [apply (search_from_spec false _ _ Hs)|].
  intros ->. cbn [String.append] in Hs.
  pose proof (match_here_key k post Hk Hpost) as Hm.
  unfold KeyPattern.search in *.
  destruct (k +++ post) as [|c s] eqn:E; [discriminate Hs|].
  cbn [KeyPattern.search_from] in Hs. rewrite Hm in Hs. injection Hs as <-. reflexivity.
Qed.

Lemma key_pattern_finds_delimited_key_witness :
  ascii_text ("what about " +++ "CCM-283" +++ "?") = true
  /\ exists k',
       KeyPattern.search ("what about " +++ "CCM-283" +++ "?") = Some k'
       /\ ticket_key k'.
Proof.
  split; [reflexivity|].
  destruct (key_pattern_finds_delimited_key "what about " "CCM-283" "?")
    as (k' & H1 & H2 & _).
  - reflexivity.
  - exists "CCM", "283". repeat split; cbn; lia.
  - reflexivity.
  - reflexivity.
  - exists k'. split; assumption.
Defined.

(** ** The chat endpoint *)

Lemma last_n_app_r {A : Type} (n : nat) (a b : list A) :
  n <= length b -> last_n n (a ++ b) = last_n n b.
Proof.
  intros H. unfold last_n. rewrite length_app, skipn_app.
  replace (length a + length b - n - length a) with (length b - n) by lia.
  rewrite skipn_all2 by lia. reflexivity.
Qed.

Lemma seed_context_snoc (texts : list string) (text : string)
    (ctx : list context_entry) :
  Chat.seed_context (texts ++ [text]) ctx
  = add_context text EmptyString (@nil issue) (Text EmptyString)
      (Chat.seed_context texts ctx).
Proof. unfold Chat.seed_context. rewrite fold_left_app. reflexivity. Qed.

(** Seeding a context of at most ten turns leaves the last ten of the old
    turns followed by the seeds. *)
Lemma seed_context_last_ten (texts : list string) (ctx : list context_entry) :
  length ctx <= 10 ->
  Chat.seed_context texts ctx = last_n 10 (ctx ++ map Chat.seed_entry texts).
Proof.
  intros Hlen. induction texts as [|text texts IH] using rev_ind.
  - cbn [map Chat.seed_context fold_left]. rewrite app_nil_r.
    symmetry. apply last_n_all. exact Hlen.
  - rewrite seed_context_snoc, (add_context_step text), IH, map_app, app_assoc.
    cbn [map]. apply last_n_snoc. lia.
Qed.

(** The endpoint seeds the context of the engine before every query.  On
    a context of at most ten turns, seeding leaves the last ten of the old
    turns and the seeds; each seed is a turn with an empty JQL and no
    results.  So when the request carries three texts or more (three
    messages suffice), the window that [_analyze_query] puts into its prompt
    holds the last three seeds only: no turn the engine recorded itself, and
    no JQL of an earlier answer, reaches the prompt. *)
Theorem seeding_fills_the_analysis_window :
  forall (request : Chat.ChatRequest) (ctx : list context_entry),
    length ctx <= 10 ->
    let ctx' := Chat.seed_context (Chat.seeds request) ctx in
    ctx' = last_n 10 (ctx ++ map Chat.seed_entry (Chat.seeds request))
    /\ length ctx' <= 10
    /\ (3 <= length (Chat.messages request) -> 3 <= length (Chat.seeds request))
    /\ (3 <= length (Chat.seeds request) ->
        recent_context ctx' = map Chat.seed_entry (last_n 3 (Chat.seeds request))
        /\ context_str ctx'
           = Str.join Str.nl
               (map (fun text => "Previous: '" +++ text +++ "' -> JQL: ")
                    (last_n 3 (Chat.seeds request)))).
Proof.
  intros request ctx Hlen. cbn zeta.
  rewrite (seed_context_last_ten _ ctx Hlen).
  split; [reflexivity|]. split; [rewrite length_last_n; lia|]. split.
  - intros Hm. unfold Chat.seeds. rewrite length_app, length_map, length_last_n. lia.
  - intros Hs.
    assert (Hr : recent_context
                   (last_n 10 (ctx ++ map Chat.seed_entry (Chat.seeds request)))
                 = map Chat.seed_entry (last_n 3 (Chat.seeds request))).
    { unfold recent_context. rewrite last_n_last_n by lia.
      rewrite last_n_app_r by (rewrite length_map; exact Hs).
      unfold last_n. rewrite length_map, skipn_map. reflexivity. }
    split; [exact Hr|].
    unfold context_str. rewrite Hr.
    destruct (last_n 10 (ctx ++ map Chat.seed_entry (Chat.seeds request))) eqn:E.
    + exfalso. apply (f_equal (@length _)) in E.
      rewrite length_last_n, length_app, length_map in E. cbn [length] in E. lia.
    + cbn [is_nil]. rewrite map_map. reflexivity.
Qed.

Lemma seeding_fills_the_analysis_window_witness :
  let request :=
    {| Chat.message := "and the open ones?";
       Chat.messages := [ {| Chat.role := "user"; Chat.content := "show CCM bugs" |};
                          {| Chat.role := "assistant"; Chat.content := "Found 3 bugs" |};
                          {| Chat.role := "user"; Chat.content := "who owns them?" |} ];
       Chat.projectContext := None;
       Chat.cachedProjects := None |} in
  let ctx := Examples.replay (Examples.turns_up_to 4) [] in
  length ctx <= 10
  /\ map ctx_user_query (recent_context (Chat.seed_context (Chat.seeds request) ctx))
     = ["show CCM bugs"; "Found 3 bugs"; "who owns them?"].
Proof.
  cbn zeta.
  assert (Hlen : length (Examples.replay (Examples.turns_up_to 4) []) <= 10)
    by (vm_compute; lia).
  split; [exact Hlen|].
  destruct (seeding_fills_the_analysis_window
              {| Chat.message := "and the open ones?";
                 Chat.messages :=
                   [ {| Chat.role := "user"; Chat.content := "show CCM bugs" |};
                     {| Chat.role := "assistant"; Chat.content := "Found 3 bugs" |};
                     {| Chat.role := "user"; Chat.content := "who owns them?" |} ];
                 Chat.projectContext := None;
                 Chat.cachedProjects := None |}
              (Examples.replay (Examples.turns_up_to 4) []) Hlen)
    as (_ & _ & _ & H).
  rewrite (proj1 (H ltac:(vm_compute; lia))). reflexivity.
Defined.

Section EndpointFacts.

Context {W : Type}.
Variable C : collaborators W.
Variable api_key : option string.

(** The state in which the endpoint runs [process_query]. *)
Lemma chat_endpoint_run (app : Chat.AppState) (request : Chat.ChatRequest)
    (s : state W) :
  let app' := {| Chat.jira_client := Chat.jira_client app;
                 Chat.confluence_client := Chat.confluence_client app;
                 Chat.ai_engine := Chat.engine_for api_key app |} in
  let seeded :=
    {| world := world s;
       trace := trace s;
       conversation_context :=
         Chat.seed_context (Chat.seeds request)
           (match Chat.ai_engine app with
            | Some _ => conversation_context s
            | None => []
            end) |} in
  match Chat.engine_for api_key app with
  | None =>
      forall fuel,
        Chat.chat_endpoint C api_key app fuel request s
        = (Val (Chat.Error "Jira client is not properly configured. Please check your Jira connection.",
                app'), s)
  | Some self =>
      exists n r s',
        forall fuel, n <= fuel ->
          process_query C self fuel (Chat.strip (Chat.message request)) seeded
          = (Val r, s')
          /\ Chat.chat_endpoint C api_key app fuel request s
             = (Val (Chat.Response (out_response r), app'), s')
  end.
Proof.
  cbn zeta. unfold Chat.chat_endpoint.
  destruct (Chat.engine_for api_key app) as [self|]; [|reflexivity].
  match goal with
  | |- context [process_query C self _ ?m ?st] =>
      destruct (settles_returns (fun fuel => process_query C self fuel m) st
                  (settles_process_query C self m)
                  (fun fuel msg => process_query_never_raises C self fuel m st msg))
        as (n & r & s' & H)
  end.
  exists n, r, s'. intros fuel Hle. split; [apply H; exact Hle|].
  unfold try_except, bind, Chat.with_engine_context, Chat.do_seed.
  cbn [world trace conversation_context].
  rewrite (H fuel Hle). reflexivity.
Qed.

End EndpointFacts.

(** The chat endpoint always replies.  No exception leaves it and it
    returns for every request.  Its reply is the error "Jira client is not
    properly configured" exactly when there is neither an engine nor a Jira
    client to build one on; in every other case it is the response of
    [process_query], run by the engine on the stripped message after the
    context was seeded (a new engine starts from an empty context).  The
    reply of its [except] branch ("Failed to get response") never occurs,
    because [process_query] never raises. *)
Theorem chat_endpoint_always_replies :
  forall (W : Type) (C : collaborators W) (api_key : option string)
         (app : Chat.AppState) (request : Chat.ChatRequest) (s : state W),
    let app' := {| Chat.jira_client := Chat.jira_client app;
                   Chat.confluence_client := Chat.confluence_client app;
                   Chat.ai_engine := Chat.engine_for api_key app |} in
    let seeded :=
      {| world := world s;
         trace := trace s;
         conversation_context :=
           Chat.seed_context (Chat.seeds request)
             (match Chat.ai_engine app with
              | Some _ => conversation_context s
              | None => []
              end) |} in
    exists n answer s',
      (forall fuel, n <= fuel ->
         Chat.chat_endpoint C api_key app fuel request s = (Val (answer, app'), s'))
      /\ (answer = Chat.Error "Jira client is not properly configured. Please check your Jira connection."
          <-> Chat.ai_engine app = None /\ Chat.jira_client app = false)
      /\ (forall msg, answer <> Chat.Error ("Failed to get response: " +++ msg))
      /\ (forall self, Chat.engine_for api_key app = Some self ->
            exists r,
              answer = Chat.Response (out_response r)
              /\ forall fuel, n <= fuel ->
                   process_query C self fuel (Chat.strip (Chat.message request)) seeded
                   = (Val r, s')).
Proof.
  intros W C api_key app request s. cbn zeta.
  pose proof (chat_endpoint_run C api_key app request s) as H. cbn zeta in H.
  assert (Hnone : Chat.engine_for api_key app = None
                  <-> Chat.ai_engine app = None /\ Chat.jira_client app = false).
  { unfold Chat.engine_for. destruct (Chat.ai_engine app) as [e|].
    - split; [discriminate | intros [Hn _]; discriminate Hn].
    - destruct (Chat.jira_client app); split; try discriminate.
      + intros [_ Hj]; discriminate Hj.
      + intros _. split; reflexivity.
      + reflexivity. }
  destruct (Chat.engine_for api_key app) as [self|] eqn:E.
  - destruct H as (n & r & s' & H).
    exists n, (Chat.Response (out_response r)), s'.
    split; [intros fuel Hle; apply (H fuel Hle)|].
    split; [split; [discriminate | intros Hn; apply Hnone in Hn; discriminate Hn]|].
    split; [discriminate|].
    intros self' [= <-]. exists r. split; [reflexivity|].
    intros fuel Hle. apply (H fuel Hle).
  - exists 0, (Chat.Error "Jira client is not properly configured. Please check your Jira connection."), s.
    split; [intros fuel _; apply H|].
    split; [split; [intros _; apply Hnone; reflexivity | reflexivity]|].
    split; [intros msg; discriminate | discriminate].
Qed.

(** ** The search terms of a document query *)









(** ** What [_analyze_query] asks, and what it falls back to *)

(** With a Jira client, [_analyze_query] never raises.  It asks the tracker
    for its projects once, and, when the completion client is configured,
    asks the completion service once, with a prompt that carries the project
    keys (none when the project call failed), the context window and the
    utterance.  It returns the analysis the completion service sent when
    that parses, and the fallback analysis in every other case: no
    completion client, a failed completion call, an answer that does not
    parse. *)
Theorem analyze_query_asks_once_and_falls_back :
  forall (W : Type) (C : collaborators W) (self : engine) (fuel : nat)
         (u : string) (s : state W),
    jira_client self = true ->
    exists (o : outcome (list jira_project)) (s' : state W) (qa : query_analysis),
      _analyze_query C self fuel u s = (Val qa, s')
      /\ o = fst (jira_get_projects C (world s))
      /\ let keys := match o with
                     | Returns projects => project_keys_of projects
                     | Raises _ => []
                     end in
         if client self then
           exists o' : outcome string,
             trace s' = trace s
                        ++ [JiraGetProjects o;
                            ChatCompletion
                              (AnalyzeQuery keys (context_str (conversation_context s)) u)
                              o']
             /\ qa = match o' with
                     | Returns raw =>
                         match json_loads C raw with
                         | Returns sent => sent
                         | Raises _ => analysis_fallback u keys
                         end
                     | Raises _ => analysis_fallback u keys
                     end
         else
           trace s' = trace s ++ [JiraGetProjects o]
           /\ qa = analysis_fallback u keys.
Proof.
  intros W C self fuel u s Hj.
  unfold _analyze_query. rewrite Hj. cbn [negb].
  unfold bind at 1. unfold try_except at 1. unfold bind at 1.
  unfold get_projects. rewrite Hj. unfold call.
  destruct (jira_get_projects C (world s)) as [o w1] eqn:Ep.
  exists o. cbn [fst].
  assert (Hrest : forall keys (s1 : state W),
             conversation_context s1 = conversation_context s ->
             exists s' qa,
               bind get_context
                 (fun conversation_context =>
                    try_except
                      (bind (chat C self (AnalyzeQuery keys
                                            (context_str conversation_context) u))
                         (fun raw_response => lift (json_loads C raw_response)))
                      (fun _ => ret (analysis_fallback u keys))) s1
               = (Val qa, s')
               /\ if client self then
                    exists o' : outcome string,
                      trace s' = trace s1
                                 ++ [ChatCompletion
                                       (AnalyzeQuery keys
                                          (context_str (conversation_context s)) u) o']
                      /\ qa = match o' with
                              | Returns raw =>
                                  match json_loads C raw with
                                  | Returns sent => sent
                                  | Raises _ => analysis_fallback u keys
                                  end
                              | Raises _ => analysis_fallback u keys
                              end
                  else trace s' = trace s1 /\ qa = analysis_fallback u keys).
  { intros keys s1 Hctx. unfold bind at 1. cbn [get_context]. rewrite Hctx.
    unfold try_except, bind, chat. destruct (client self).
    - unfold call.
      destruct (chat_completion C _ (world s1)) as [[raw|msg] w2].
      + destruct (json_loads C raw) as [sent|msg] eqn:Ej; cbn [lift ret raise];
          eexists; eexists; (split; [reflexivity|]);
          exists (Returns raw); rewrite Ej; split; reflexivity.
      + cbn [ret]. eexists; eexists; (split; [reflexivity|]).
        exists (Raises msg). split; reflexivity.
    - cbn [raise ret]. eexists; eexists. split; [reflexivity|]. split; reflexivity. }
  destruct o as [projects|msg]; cbn [ret].
  - destruct (Hrest (project_keys_of projects)
                {| world := w1;
                   trace := trace s ++ [JiraGetProjects (Returns projects)];
                   conversation_context := conversation_context s |} eq_refl)
      as (s' & qa & Hrun & Hlog).
    exists s', qa. split; [exact Hrun|]. split; [reflexivity|]. cbn zeta.
    destruct (client self).
    + destruct Hlog as (o' & Ht & Hq). exists o'.
      cbn [trace] in Ht. rewrite Ht, <- app_assoc. split; [reflexivity | exact Hq].
    + exact Hlog.
  - destruct (Hrest []
                {| world := w1;
                   trace := trace s ++ [JiraGetProjects (Raises msg)];
                   conversation_context := conversation_context s |} eq_refl)
      as (s' & qa & Hrun & Hlog).
    exists s', qa. split; [exact Hrun|]. split; [reflexivity|]. cbn zeta.
    destruct (client self).
    + destruct Hlog as (o' & Ht & Hq). exists o'.
      cbn [trace] in Ht. rewrite Ht, <- app_assoc. split; [reflexivity | exact Hq].
    + exact Hlog.
Qed.

Lemma analyze_query_asks_once_and_falls_back_witness :
  exists s' qa,
    _analyze_query Examples.scripted Examples.full_engine 1 "CCM-283 details"
      (Examples.fresh []) = (Val qa, s')
    /\ length (trace s') = 2.
Proof.
  destruct (analyze_query_asks_once_and_falls_back _ Examples.scripted
              Examples.full_engine 1 "CCM-283 details" (Examples.fresh []) eq_refl)
    as (o & s' & qa & Hrun & _ & Hlog).
  exists s', qa. split; [exact Hrun|].
  cbn zeta in Hlog. cbn [client Examples.full_engine] in Hlog.
  destruct Hlog as (o' & Ht & _). rewrite Ht. reflexivity.
Defined.

(** ** An analysis that lacks a member *)

(** The tracker flow reads [query_analysis["jql"]] before it runs the query
    and [query_analysis["intent"]] only when it builds its result.  So an
    analysis without ['jql'] sends the utterance to the deterministic
    fallback at once; an analysis with a query and without ['intent'] does so
    after the query was run, the response generated and the turn recorded:
    the answer is discarded, the tracker is asked again by the fallback, and
    the context keeps the turn of the discarded answer. *)
Theorem analysis_without_intent_discards_the_answer :
  forall (W : Type) (C : collaborators W) (self : engine) (fuel : nat)
         (u : string) (s s1 : state W) (qa : query_analysis),
    _analyze_query C self fuel u s = (Val qa, s1) ->
    (qa_jql qa = None ->
     tracker_flow C self fuel u s = _fallback_processing C self fuel u s1)
    /\ (forall q jql_result s2 response s3,
          qa_jql qa = Some (JqlStr q) ->
          qa_intent qa = None ->
          _execute_jql C self fuel (JqlStr q) None s1 = (Val jql_result, s2) ->
          _generate_response C self u qa (results jql_result)
            (Some (total_count jql_result)) (Some (retrieved_count jql_result)) s2
          = (Val response, s3) ->
          tracker_flow C self fuel u s
          = _fallback_processing C self fuel u
              (recorded u q (results jql_result) response s3)
          /\ conversation_context (snd (tracker_flow C self fuel u s))
             = add_context u q (results jql_result) response (conversation_context s3)).
Proof.
  intros W C self fuel u s s1 qa Ha. split.
  - intros Hj. unfold tracker_flow, try_except, bind. rewrite Ha, Hj. reflexivity.
  - intros q jr s2 response s3 Hj Hi Hq Hr.
    assert (E : tracker_flow C self fuel u s
                = _fallback_processing C self fuel u
                    (recorded u q (results jr) response s3)).
    { unfold tracker_flow, try_except, bind. rewrite Ha, Hj. cbn [getitem ret].
      rewrite Hi in *. rewrite Hq, Hr. reflexivity. }
    split; [exact E|]. rewrite E.
    rewrite <- (quiet_fallback_processing C self fuel u
                  (recorded u q (results jr) response s3)). reflexivity.
Qed.

Lemma analysis_without_intent_discards_the_answer_witness :
  let run := process_query Samples.forgetful Examples.full_engine 1 "what is open in CCM?"
               (Examples.fresh [Examples.page 0 2 2; Examples.page 0 2 2]) in
  map asked (trace (snd run)) = [None; None; Some (0, 100); None; None; Some (0, 100)]
  /\ option_map out_intent (value_of (fst run)) = Some (Some "enhanced_fallback")
  /\ map ctx_jql (conversation_context (snd run)) = ["project = CCM"].
Proof.
  cbn zeta.
  assert (E : process_query Samples.forgetful Examples.full_engine 1
                "what is open in CCM?"
                (Examples.fresh [Examples.page 0 2 2; Examples.page 0 2 2])
              = tracker_flow Samples.forgetful Examples.full_engine 1
                  "what is open in CCM?"
                  (Examples.fresh [Examples.page 0 2 2; Examples.page 0 2 2]))
    by reflexivity.
  rewrite E.
  edestruct (analysis_without_intent_discards_the_answer _ Samples.forgetful
               Examples.full_engine 1 "what is open in CCM?"
               (Examples.fresh [Examples.page 0 2 2; Examples.page 0 2 2]))
    as [_ H]; [reflexivity|].
  edestruct H as [H1 H2];
    [reflexivity | reflexivity | lazy; reflexivity | lazy; reflexivity |].
  rewrite H1. repeat split.
Defined.
